(** * subvertpy: the remote-access binding (src/ra.c, src/util.c, src/util.h)

    A shallow embedding of the C glue between CPython and libsvn_ra.
    The binding has almost no algorithms of its own: what it decides is
    which values cross the boundary, in which order, which callbacks are
    invoked with which arguments, which pools are destroyed, and what is
    handed back to Python.  The embedding therefore tracks

    - the values on both sides ([PyObject] for Python objects, [CVal] for
      what a C variable or a C argument holds),
    - the locals of a function as named slots ([Frame]), so that a
      destination list of [PyArg_ParseTuple] can be written out as in the
      source,
    - one trace of observable events (calls into Python, calls into
      libsvn, pool creation and destruction) and the interpreter's error
      indicator, threaded through a state monad [M].

    libsvn, APR and CPython are not part of the repository.  CPython's
    argument marshalling and APR's pools and hashes are modelled by their
    documented contracts; a repository session is a record of answers
    ([svn_ra_session_t]) that the theorems quantify over. *)

From Stdlib Require Import ZArith String Ascii List Bool Lia.
From stdpp Require Import base option list strings gmap.

Set Warnings "-register-all".
#[local] Open Scope Z_scope.
#[local] Open Scope string_scope.

(** ** Python objects and C values *)

Module Py.

Inductive PyExc : Type :=
| TypeError
| OverflowError
| SystemError
| MemoryError
| SubversionException (apr_err : Z) (message : string)
| Raised (name : string).

(** The Python objects the binding builds or inspects.  [PyRef] is an
    object supplied by the caller (a callback, an editor, a stream) whose
    behaviour is given by the environment [PyEnv]. *)
Inductive PyObject : Type :=
| Py_None
| PyBool (b : bool)
| PyLong (z : Z)
| PyString (s : string)
| PyTuple (items : list PyObject)
| PyList (items : list PyObject)
| PyDict (d : gmap string PyObject)
| PyExcInstance (e : PyExc)
| PyRef (id : nat).

Inductive PyOutcome : Type :=
| PyReturn (v : PyObject)
| PyRaise (e : PyExc).

(** What calling [callee.meth(args)] does; [meth = ""] is a plain call
    [callee(args)]. *)
Definition PyEnv : Type := PyObject -> string -> list PyObject -> PyOutcome.

(** The content of a C variable or argument.  [COpaque] is a pointer to
    an object owned by libsvn (a baton, a vtable); [CWild] is a pointer
    that points to no object at all: an uninitialised pointer, or a
    pointer slot overwritten by a store of another type. *)
Inductive CVal : Type :=
| CNull
| CStr (s : string)
| CInt (z : Z)
| CObj (o : PyObject)
| CArray (items : list CVal)
| CHash (entries : list (string * CVal))
| COpaque (id : nat)
| CWild.

#[global] Instance CVal_inhabited : Inhabited CVal := populate CWild.

Definition is_null (c : CVal) : bool :=
  match c with CNull => true | _ => false end.

Definition is_Py_None (c : CVal) : bool :=
  match c with CObj Py_None => true | _ => false end.

(** Locals of a C function, by name. *)
Definition Frame : Type := gmap string CVal.

Definition local (fr : Frame) (x : string) : CVal := fr !!! x.

#[global] Arguments local : simpl never.

Inductive Event : Type :=
| EvPyCall (callee : PyObject) (meth : string) (args : list PyObject)
| EvSvn (fn : string) (args : list CVal)
| EvPoolCreate (p : nat) (parent : option nat)
| EvPoolDestroy (p : nat).

Record World : Type := mkWorld {
  py_err : option PyExc;      (* the error indicator, PyErr_Occurred() *)
  trace : list Event;         (* oldest event first *)
  next_pool : nat;            (* pools are numbered in creation order *)
  heap_full : bool            (* PyObject_New has no memory left *)
}.

Definition world0 : World := mkWorld None [] 0 false.

(** State monad over [World]; [None] is undefined behaviour (a read or a
    call through a pointer that points to no object). *)
Definition M (A : Type) : Type := World -> option (A * World).

Definition pure {A} (a : A) : M A := fun w => Some (a, w).

Definition bind {A B} (m : M A) (k : A -> M B) : M B :=
  fun w => match m w with
           | Some (a, w') => k a w'
           | None => None
           end.

Definition undefined {A} : M A := fun _ => None.

(** A value that exists only when computing it stayed within defined
    behaviour. *)
Definition defined {A} (o : option A) : M A :=
  match o with
  | Some a => pure a
  | None => undefined
  end.

Definition emit (e : Event) : M unit :=
  fun w => Some (tt, mkWorld (py_err w) (trace w ++ [e]) (next_pool w) (heap_full w)).

Definition PyErr_Set (e : PyExc) : M unit :=
  fun w => Some (tt, mkWorld (Some e) (trace w) (next_pool w) (heap_full w)).

(** PyObject_New: whether the allocation succeeded. *)
Definition PyObject_New : M bool :=
  fun w => if heap_full w
           then Some (false, mkWorld (Some MemoryError) (trace w) (next_pool w) (heap_full w))
           else Some (true, w).

End Py.
Export Py.

Notation "'let*' x ':=' m 'in' k" := (bind m (fun x => k))
  (at level 10, x binder, m at level 100, k at level 200, only parsing).
Notation "'do' m 'then' k" := (bind m (fun _ => k))
  (at level 10, m at level 100, k at level 200, only parsing).

(** C's NULL for a [PyObject *] or [svn_error_t *] result. *)
Abbreviation NULL := (@None _) (only parsing).

(** ** CPython's marshalling: Py_BuildValue, PyObject_Call*, PyArg_Parse* *)

Module Marshal.

(** Format units of a format string, parentheses and the optional marker
    removed. *)
Definition is_unit (c : ascii) : bool :=
  match c with
  | "("%char | ")"%char | "|"%char => false
  | _ => true
  end.

Definition units (format : string) : list ascii :=
  List.filter is_unit (list_ascii_of_string format).

(** Units before the ["|"]: the arguments that must be present. *)
Fixpoint required_units (fmt : list ascii) : nat :=
  match fmt with
  | [] => 0
  | "|"%char :: _ => 0
  | c :: rest => (if is_unit c then 1 else 0) + required_units rest
  end%nat.

(** A C int (32 bits, two's complement): of a wider integer that is read
    as an int, the low 32 bits. *)
Definition C_int (z : Z) : Z := (z + 2 ^ 31) mod 2 ^ 32 - 2 ^ 31.

#[global] Arguments C_int : simpl never.

(** Py_BuildValue, one unit: C value to Python object.  Units [b] and [i]
    read a C int from the variadic arguments, [l] a C long, [c] an int
    that is cut to a char; [s] and [z] read a [char *] and follow it, [O]
    reads an object.  A unit applied to an argument of another kind (an
    integer read as a pointer, a pointer read as an integer, a pointer to
    no object) is undefined ([None]); no caller of the binding passes NULL
    for [O]. *)
Definition build_unit (u : ascii) (c : CVal) : option PyObject :=
  match u, c with
  | "s"%char, CStr s | "z"%char, CStr s => Some (PyString s)
  | "s"%char, CNull | "z"%char, CNull => Some Py_None
  | "b"%char, CInt z | "i"%char, CInt z => Some (PyLong (C_int z))
  | "l"%char, CInt z => Some (PyLong z)
  | "c"%char, CInt z =>
      Some (PyString (String (ascii_of_N (Z.to_N (z mod 256))) ""))
  | "O"%char, CObj o => Some o
  | _, _ => None
  end.

(** Units are paired with the variadic arguments in order.  A unit with
    no argument left reads past the arguments, which is undefined;
    arguments beyond the last unit are never read. *)
Fixpoint build_units (us : list ascii) (va : list CVal)
  : option (list PyObject) :=
  match us with
  | [] => Some []
  | u :: us' =>
      match va with
      | [] => None
      | c :: va' =>
          match build_unit u c, build_units us' va' with
          | Some o, Some os => Some (o :: os)
          | _, _ => None
          end
      end
  end.

Definition starts_with_paren (format : string) : bool :=
  match format with
  | String "("%char _ => true
  | _ => false
  end.

(** An empty format gives None, a single unit the object itself, several
    units or a parenthesised format a tuple. *)
Definition Py_BuildValue (format : string) (va : list CVal)
  : option PyObject :=
  match build_units (units format) va with
  | None => None
  | Some items =>
      Some (if starts_with_paren format then PyTuple items
            else match items with
                 | [] => Py_None
                 | [o] => o
                 | _ => PyTuple items
                 end)
  end.

(** The argument tuple of PyObject_CallFunction / PyObject_CallMethod: no
    format means no arguments; a built value that is not a tuple becomes
    the single argument. *)
Definition call_args (format : option string) (va : list CVal)
  : option (list PyObject) :=
  match format with
  | None => Some []
  | Some f =>
      match Py_BuildValue f va with
      | Some (PyTuple items) => Some items
      | Some o => Some [o]
      | None => None
      end
  end.

Section Calls.
Variable py : PyEnv.

(** The call is recorded; a raising callee sets the error indicator and
    the C caller sees NULL. *)
Definition PyObject_Call (callee : CVal) (meth : string) (args : list PyObject)
  : M (option PyObject) :=
  match callee with
  | CObj o =>
      do emit (EvPyCall o meth args) then
      match py o meth args with
      | PyReturn v => pure (Some v)
      | PyRaise e => do PyErr_Set e then pure NULL
      end
  | _ => undefined
  end.

Definition PyObject_CallFunction (callable : CVal) (format : option string)
    (va : list CVal) : M (option PyObject) :=
  let* args := defined (call_args format va) in
  PyObject_Call callable "" args.

Definition PyObject_CallMethod (self : CVal) (meth : string)
    (format : option string) (va : list CVal) : M (option PyObject) :=
  let* args := defined (call_args format va) in
  PyObject_Call self meth args.

End Calls.

(** An int, or a bool as the int it is. *)
Definition as_integer (o : PyObject) : option Z :=
  match o with
  | PyLong z => Some z
  | PyBool b => Some (Z.b2z b)
  | _ => None
  end.

Definition in_range (lo hi z : Z) : bool := ((lo <=? z) && (z <=? hi))%Z.

(** PyArg_ParseTuple, one unit: Python object to C value; [inr] is the
    exception of a failed conversion.  ["i"] is a C int, ["l"] a C long,
    ["b"] an unsigned char. *)
Definition parse_unit (u : ascii) (o : PyObject) : CVal + PyExc :=
  match u with
  | "s"%char => match o with PyString s => inl (CStr s) | _ => inr TypeError end
  | "z"%char =>
      match o with
      | PyString s => inl (CStr s)
      | Py_None => inl CNull
      | _ => inr TypeError
      end
  | "O"%char => inl (CObj o)
  | "i"%char =>
      match as_integer o with
      | Some z => if in_range (- 2 ^ 31)%Z (2 ^ 31 - 1)%Z z then inl (CInt z) else inr OverflowError
      | None => inr TypeError
      end
  | "l"%char =>
      match as_integer o with
      | Some z => if in_range (- 2 ^ 63)%Z (2 ^ 63 - 1)%Z z then inl (CInt z) else inr OverflowError
      | None => inr TypeError
      end
  | "b"%char =>
      match as_integer o with
      | Some z => if in_range 0 255 z then inl (CInt z) else inr OverflowError
      | None => inr TypeError
      end
  | _ => inr TypeError
  end.

(** A destination is the address of a local ([Some x] for [&x]) or, when
    the source passes the value of an uninitialised variable where the
    address belongs, a pointer to no object ([None]): a store through it
    is undefined.  A store replaces the content of its slot; the width of
    the destination and what a wider store does to its neighbours are not
    modelled. *)
Definition store (dest : option string) (c : CVal) (fr : Frame) : option Frame :=
  match dest with
  | Some x => Some (<[x := c]> fr)
  | None => None
  end.

(** Arguments are converted and stored left to right; the first failure
    stops the parse and leaves the earlier stores in place.  An absent
    optional argument ([None]) leaves its destination untouched.  The
    result is [None] when a store was undefined.  For a unit beyond the
    destinations the call passes, the parser takes a pointer from what
    follows the arguments; that store reaches no local of the caller. *)
Fixpoint convert_args (us : list ascii) (vals : list (option PyObject))
    (dests : list (option string)) (fr : Frame)
  : option (option PyExc * Frame) :=
  match us, vals with
  | u :: us', v :: vals' =>
      match v with
      | None => convert_args us' vals' (tail dests) fr
      | Some o =>
          match parse_unit u o with
          | inr e => Some (Some e, fr)
          | inl c =>
              match dests with
              | [] => convert_args us' vals' [] fr
              | dest :: dests' =>
                  match store dest c fr with
                  | Some fr' => convert_args us' vals' dests' fr'
                  | None => None
                  end
              end
          end
      end
  | _, _ => Some (None, fr)
  end.

Definition is_present (v : option PyObject) : bool :=
  match v with
  | Some _ => true
  | None => false
  end.

(** Returns nonzero ([true]) on success; on failure the error indicator is
    set and zero is returned.  [given] arguments were passed; too few, too
    many or a required one left out is a TypeError before anything is
    stored. *)
Definition parse_values (format : string) (vals : list (option PyObject))
    (given : nat) (dests : list (option string)) (fr : Frame) : M (bool * Frame) :=
  let us := units format in
  let required := required_units (list_ascii_of_string format) in
  if ((given <? required)%nat
      || (length us <? given)%nat
      || negb (forallb is_present (take required vals)))%bool
  then do PyErr_Set TypeError then pure (false, fr)
  else match convert_args us vals dests fr with
       | Some (Some e, fr') => do PyErr_Set e then pure (false, fr')
       | Some (None, fr') => pure (true, fr')
       | None => undefined
       end.

Definition PyArg_ParseTuple (args : list PyObject) (format : string)
    (dests : list (option string)) (fr : Frame) : M (bool * Frame) :=
  parse_values format (map Some args) (length args) dests fr.

(** Keyword arguments fill the positions after the positional ones, by
    name; a keyword that names none of them is a TypeError. *)
Definition known_keywords (kwargs : gmap string PyObject) (free : list string)
  : bool :=
  forallb (fun k => existsb (String.eqb k) free) (map fst (map_to_list kwargs)).

Definition PyArg_ParseTupleAndKeywords (args : list PyObject)
    (kwargs : gmap string PyObject) (format : string) (kwnames : list string)
    (dests : list (option string)) (fr : Frame) : M (bool * Frame) :=
  let free := drop (length args) kwnames in
  if negb (known_keywords kwargs free)
  then do PyErr_Set TypeError then pure (false, fr)
  else
    let named := map (fun k => kwargs !! k) free in
    let present := length (List.filter is_present named) in
    parse_values format (map Some args ++ named) (length args + present)%nat
      dests fr.

End Marshal.
Export Marshal.

(** ** APR: pools and hashes *)

Module Apr.

(** [apr_pool_t *]: NULL or a pool. *)
Definition apr_pool_t : Type := option nat.

(** apr_pool_create: a fresh pool and the status APR_SUCCESS (0). *)
Definition apr_pool_create (parent : apr_pool_t) : M (Z * apr_pool_t) :=
  fun w =>
    let p := next_pool w in
    Some ((0, Some p),
          mkWorld (py_err w) (trace w ++ [EvPoolCreate p parent]) (S p)
                  (heap_full w)).

Definition apr_pool_destroy (pool : apr_pool_t) : M unit :=
  match pool with
  | Some p => emit (EvPoolDestroy p)
  | None => undefined
  end.

(** Reading an object that was allocated in [pool]: undefined once the
    pool has been destroyed. *)
Definition destroyed (p : nat) (tr : list Event) : bool :=
  existsb (fun e => match e with
                    | EvPoolDestroy q => Nat.eqb p q
                    | _ => false
                    end) tr.

Definition pool_read {A} (pool : apr_pool_t) (x : A) : M A :=
  fun w => match pool with
           | Some p => if destroyed p (trace w) then None else Some (x, w)
           | None => None
           end.

(** sizeof(char * ) and sizeof(svn_revnum_t), a long, where a long and a
    pointer have 64 bits. *)
Definition sizeof_pointer : Z := 8.
Definition sizeof_svn_revnum_t : Z := 8.

(** The array after values of [width] bytes were stored into the slots
    [apr_array_push] returned, one after the other, of an array made by
    [apr_array_make] for elements of [elt_size] bytes.  Values that fit
    their slot stay apart.  A single wider value (of at most 8 bytes)
    still lies within the block, which APR rounds up to 8 bytes; of
    several, each store overwrites part of the element before it and the
    last one runs past the block. *)
Definition apr_array_of (elt_size width : Z) (els : list CVal) : M CVal :=
  if ((width <=? elt_size)%Z
      || ((length els <=? 1)%nat && (width <=? 8)%Z))%bool
  then pure (CArray els)
  else undefined.

(** An [apr_hash_t] with string keys, in iteration order. *)
Definition apr_hash_t : Type := list (string * CVal).

Definition apr_hash_make : apr_hash_t := [].

Definition hash_remove (key : string) (h : apr_hash_t) : apr_hash_t :=
  List.filter (fun kv => negb (String.eqb (fst kv) key)) h.

(** apr_hash_set: a NULL value deletes the entry. *)
Definition apr_hash_set (h : apr_hash_t) (key : string) (val : CVal) : apr_hash_t :=
  if is_null val then hash_remove key h
  else (hash_remove key h ++ [(key, val)])%list.

(** How often [apr_pool_destroy] was called on pool [p]. *)
Definition destroy_count (p : nat) (tr : list Event) : nat :=
  length (List.filter (fun e => match e with
                                | EvPoolDestroy q => Nat.eqb p q
                                | _ => false
                                end) tr).

End Apr.
Export Apr.

(** ** libsvn: types and the answers of a repository session *)

Module Svn.

Record svn_error_t : Type := mk_svn_error { apr_err : Z; message : string }.

(** svn_props.h *)
Definition SVN_PROP_REVISION_LOG : string := "svn:log".
Definition SVN_PROP_REVISION_AUTHOR : string := "svn:author".
Definition SVN_PROP_REVISION_DATE : string := "svn:date".

(** svn_types.h: svn_node_kind_t *)
Definition svn_node_none : Z := 0.
Definition svn_node_file : Z := 1.
Definition svn_node_dir : Z := 2.
Definition svn_node_unknown : Z := 3.

(** svn_types.h: svn_lock_t.  The dates are apr_time_t (microseconds);
    [comment] may be NULL; an expiration date of 0 means no expiry. *)
Record svn_lock_t : Type := mk_svn_lock {
  lock_path : string;
  lock_token : string;
  lock_owner : string;
  lock_comment : option string;
  is_dav_comment : bool;
  creation_date : Z;
  expiration_date : Z
}.

(** svn_types.h: svn_dirent_t; [last_author] may be NULL. *)
Record svn_dirent_t : Type := mk_svn_dirent {
  kind : Z;
  size : Z;
  has_props : bool;
  created_rev : Z;
  time : Z;
  last_author : option string
}.

Record svn_log_changed_path_t : Type := mk_changed_path {
  action : ascii;
  copyfrom_path : option string;
  copyfrom_rev : Z
}.

(** One invocation of an svn_log_message_receiver_t. *)
Record log_message : Type := mk_log_message {
  changed_paths : option (list (string * svn_log_changed_path_t));
  log_revision : Z;
  log_author : option string;
  log_date : option string;
  log_text : option string
}.

(** What the library and the repository behind a session answer.  Every
    field takes the C arguments as the binding passes them. *)
Record svn_ra_session_t : Type := mk_session {
  (* calls that produce nothing but an error, by name and arguments:
     the reporter and editor vtables, svn_ra_reparent, svn_ra_replay, ... *)
  reply : string -> list CVal -> option svn_error_t;
  repos_uuid : svn_error_t + string;
  node_kind_at : CVal -> CVal -> svn_error_t + Z;
  dir_at : CVal -> CVal -> CVal ->
           svn_error_t + (option (list (string * svn_dirent_t)) * Z
                          * option (list (string * string)));
  lock_on : CVal -> svn_error_t + option svn_lock_t;
  locks_below : CVal -> svn_error_t + list (string * svn_lock_t);
  (* the outcome of locking one path of a batch: path, the hash value
     stored for it, comment, steal_lock *)
  try_lock : string -> CVal -> CVal -> CVal -> svn_lock_t + svn_error_t;
  (* the messages svn_ra_get_log delivers for paths, start, end, limit,
     discover_changed_paths, strict_node_history *)
  history : list CVal -> svn_error_t + list log_message
}.

Definition svn_call (fn : string) (args : list CVal) (answer : option svn_error_t)
  : M (option svn_error_t) :=
  do emit (EvSvn fn args) then pure answer.

Definition marshal_string (s : option string) : CVal :=
  match s with Some s => CStr s | None => CNull end.

Definition Z_of_bool (b : bool) : CVal := CInt (Z.b2z b).

Section Library.
Variable ra : svn_ra_session_t.

Definition svn_ra_get_uuid : M (svn_error_t + string) :=
  do emit (EvSvn "svn_ra_get_uuid" []) then pure (repos_uuid ra).

Definition svn_ra_check_path (path revision : CVal) : M (svn_error_t + Z) :=
  do emit (EvSvn "svn_ra_check_path" [path; revision]) then
  pure (node_kind_at ra path revision).

Definition svn_ra_get_dir2 (path revision dirent_fields : CVal) :=
  do emit (EvSvn "svn_ra_get_dir2" [path; revision; dirent_fields]) then
  pure (dir_at ra path revision dirent_fields).

Definition svn_ra_get_lock (path : CVal) : M (svn_error_t + option svn_lock_t) :=
  do emit (EvSvn "svn_ra_get_lock" [path]) then pure (lock_on ra path).

Definition svn_ra_get_locks (path : CVal) :=
  do emit (EvSvn "svn_ra_get_locks" [path]) then pure (locks_below ra path).

(** svn_ra_lock calls [lock_func] once for every path of the hash, with
    the lock or the error of that path; an error returned by [lock_func]
    ends the call.  A NULL hash is dereferenced. *)
Fixpoint each_path (lock_func : string -> CVal -> M (option svn_error_t))
    (entries : list (string * CVal)) : M (option svn_error_t) :=
  match entries with
  | [] => pure NULL
  | (path, val) :: rest =>
      let* r := lock_func path val in
      match r with
      | Some e => pure (Some e)
      | None => each_path lock_func rest
      end
  end.

Definition svn_ra_lock (path_revs comment steal_lock : CVal)
    (lock_func : string -> bool -> option svn_lock_t -> option svn_error_t
                 -> M (option svn_error_t))
  : M (option svn_error_t) :=
  do emit (EvSvn "svn_ra_lock" [path_revs; comment; steal_lock]) then
  match path_revs with
  | CHash entries =>
      let* r := each_path (fun path rev =>
             match try_lock ra path rev comment steal_lock with
             | inl lock => lock_func path true (Some lock) NULL
             | inr e => lock_func path true NULL (Some e)
             end) entries in
      match r with
      | Some e => pure (Some e)
      | None => pure (reply ra "svn_ra_lock" [path_revs; comment; steal_lock])
      end
  | _ => undefined
  end.

(** svn_ra_get_log hands the messages to the receiver in order; an error
    returned by the receiver ends the call with that error. *)
Fixpoint deliver (receiver : log_message -> M (option svn_error_t))
    (msgs : list log_message) : M (option svn_error_t) :=
  match msgs with
  | [] => pure NULL
  | m :: rest =>
      let* r := receiver m in
      match r with
      | Some e => pure (Some e)
      | None => deliver receiver rest
      end
  end.

Definition svn_ra_get_log (args : list CVal)
    (receiver : log_message -> M (option svn_error_t)) : M (option svn_error_t) :=
  do emit (EvSvn "svn_ra_get_log" args) then
  match history ra args with
  | inl e => pure (Some e)
  | inr msgs => deliver receiver msgs
  end.

End Library.
End Svn.
Export Svn.

(** ** CPython's object API, as far as the binding uses it *)

Module Objects.

(** PyString_AsString: the buffer of a string object; NULL and TypeError
    for another object; a pointer that is not an object is dereferenced. *)
Definition PyString_AsString (o : CVal) : M CVal :=
  match o with
  | CObj (PyString s) => pure (CStr s)
  | CObj _ => do PyErr_Set TypeError then pure CNull
  | _ => undefined
  end.

(** PyLong_AsLong: -1 and TypeError for an object that is no integer, -1
    and OverflowError for an integer that does not fit a C long. *)
Definition PyLong_AsLong (o : CVal) : M Z :=
  match o with
  | CObj v =>
      match as_integer v with
      | Some z =>
          if in_range (- 2 ^ 63)%Z (2 ^ 63 - 1)%Z z then pure z
          else do PyErr_Set OverflowError then pure (-1)
      | None => do PyErr_Set TypeError then pure (-1)
      end
  | _ => undefined
  end.

(** PyDict_GetItemString: NULL, without an exception, when the key is
    missing or the object is no dict. *)
Definition PyDict_GetItemString (p : CVal) (key : string) : M CVal :=
  match p with
  | CObj (PyDict d) =>
      match d !! key with
      | Some v => pure (CObj v)
      | None => pure CNull
      end
  | CObj _ => pure CNull
  | _ => undefined
  end.

(** The pairs a [while (PyDict_Next(p, &idx, &k, &v))] loop started at
    [idx = 0] visits: none when [p] is no dict. *)
Definition dict_items (p : CVal) : M (list (string * PyObject)) :=
  match p with
  | CObj (PyDict d) => pure (map_to_list d)
  | CObj _ => pure []
  | _ => undefined
  end.

(** Reading an integer variable. *)
Definition read_int (c : CVal) : M Z :=
  match c with
  | CInt z => pure z
  | _ => undefined
  end.

End Objects.
Export Objects.

(** ** util.c *)

Module Util.

Definition Pool (parent : apr_pool_t) : M apr_pool_t :=
  let* '(status, ret) := apr_pool_create parent in
  if negb (status =? 0)%Z
  then do PyErr_Set (Raised "Exception") then pure NULL
  else pure ret.

(** The body is a FIXME in the source: no exception is set. *)
Definition PyErr_SetSubversionException (error : svn_error_t) : M unit :=
  pure tt.

Definition check_error (error : option svn_error_t) : M bool :=
  match error with
  | Some e => do PyErr_SetSubversionException e then pure false
  | None => pure true
  end.

(** [return NULL; /* FIXME */] *)
Definition py_svn_error : option svn_error_t := NULL.

Definition error_of {A} (r : svn_error_t + A) : option svn_error_t :=
  match r with
  | inl e => Some e
  | inr _ => None
  end.

Definition status (e : option svn_error_t) : svn_error_t + unit :=
  match e with
  | Some e => inl e
  | None => inr tt
  end.

(** [if (!check_error(r)) { on_error } k]: the outputs of a libsvn call
    exist exactly when it returned no error. *)
Definition if_error {A B} (r : svn_error_t + A) (on_error : M B) (k : A -> M B)
  : M B :=
  let* _ := check_error (error_of r) in
  match r with
  | inl _ => on_error
  | inr a => k a
  end.

(** util.h: [if (!check_error((cmd))) { apr_pool_destroy(pool); return NULL; }] *)
Definition RUN_SVN_WITH_POOL {A B} (pool : apr_pool_t) (cmd : M (svn_error_t + A))
    (k : A -> M (option B)) : M (option B) :=
  let* r := cmd in
  if_error r (do apr_pool_destroy pool then pure NULL) k.

Fixpoint strings_of (items : list PyObject) : M (list CVal) :=
  match items with
  | [] => pure []
  | o :: rest =>
      let* el := PyString_AsString (CObj o) in
      let* els := strings_of rest in
      pure (el :: els)
  end.

(** The array is made for elements of 4 bytes and filled with pointers.
    For an object that is no list PyList_Size answers -1 with an exception
    set, and the array stays empty. *)
Definition string_list_to_apr_array (pool : apr_pool_t) (l : CVal) : M CVal :=
  if is_Py_None l then pure CNull
  else match l with
       | CObj (PyList items) =>
           let* els := strings_of items in
           apr_array_of 4 sizeof_pointer els
       | CObj _ => do PyErr_Set SystemError then pure (CArray [])
       | _ => undefined
       end.

Definition prop_hash_to_dict (props : option (list (string * string)))
  : M PyObject :=
  match props with
  | None => pure Py_None
  | Some entries =>
      let* pool := Pool NULL in
      let py_props :=
        foldl (fun (d : gmap string PyObject) kv => <[fst kv := PyString (snd kv)]> d)
              ∅ entries in
      do apr_pool_destroy pool then pure (PyDict py_props)
  end.

Definition changed_path_tuple (val : svn_log_changed_path_t)
  : option PyObject :=
  Py_BuildValue "(czi)"
    [CInt (Z.of_N (N_of_ascii (action val)));
     marshal_string (copyfrom_path val); CInt (copyfrom_rev val)].

Fixpoint changed_paths_dict (paths : list (string * svn_log_changed_path_t))
    (py_changed_paths : gmap string PyObject) : M (gmap string PyObject) :=
  match paths with
  | [] => pure py_changed_paths
  | (key, val) :: rest =>
      let* t := defined (changed_path_tuple val) in
      changed_paths_dict rest (<[key := t]> py_changed_paths)
  end.

Definition set_if_present (key : string) (val : option string)
    (d : gmap string PyObject) : gmap string PyObject :=
  match val with
  | Some s => <[key := PyString s]> d
  | None => d
  end.

Section WithPython.
Variable py : PyEnv.

(** The result of the call is not looked at ([FIXME: Handle ret != NULL])
    and the receiver always reports success. *)
Definition py_svn_log_wrapper (baton : CVal) (m : log_message)
  : M (option svn_error_t) :=
  let* py_changed_paths :=
    match changed_paths m with
    | None => pure Py_None
    | Some paths =>
        let* d := changed_paths_dict paths ∅ in pure (PyDict d)
    end in
  let revprops :=
    set_if_present SVN_PROP_REVISION_DATE (log_date m)
      (set_if_present SVN_PROP_REVISION_AUTHOR (log_author m)
         (set_if_present SVN_PROP_REVISION_LOG (log_text m) ∅)) in
  let* ret := PyObject_CallFunction py baton (Some "OiO")
                [CObj py_changed_paths; CInt (log_revision m);
                 CObj (PyDict revprops)] in
  pure NULL.

End WithPython.

(** Six format units for seven arguments: unit [b] meets the comment, a
    [char *], and the two units [z] after it meet the DAV flag and the
    creation date, two integers. *)
Definition wrap_lock_format : string := "(zzzbzz)".

Definition wrap_lock_arguments (lock : svn_lock_t) : list CVal :=
  [CStr (lock_path lock); CStr (lock_token lock); CStr (lock_owner lock);
   marshal_string (lock_comment lock); Z_of_bool (is_dav_comment lock);
   CInt (creation_date lock); CInt (expiration_date lock)].

Definition wrap_lock (lock : svn_lock_t) : option PyObject :=
  Py_BuildValue wrap_lock_format (wrap_lock_arguments lock).

End Util.
Export Util.

(** ** ra.c *)

Module Ra.

(** The vtables libsvn hands out (svn_ra_reporter2_t, svn_delta_editor_t)
    are kept as the answers of their entries. *)
Record ReporterObject : Type := mkReporter {
  reporter : string -> list CVal -> option svn_error_t;
  report_baton : CVal;
  reporter_pool : apr_pool_t
}.

Record EditorObject : Type := mkEditor {
  editor : string -> list CVal -> option svn_error_t;
  editor_baton : CVal;
  editor_pool : apr_pool_t;
  ob_type : string
}.

Record RemoteAccessObject : Type := mkRemoteAccess {
  ra : svn_ra_session_t;
  ra_pool : apr_pool_t;
  url : PyObject;
  progress_func : PyObject
}.

(** [return Py_None; /* FIXME */] *)
Definition pyify_lock (lock : option svn_lock_t) : PyObject := Py_None.

Definition c_lock_token (py_lock_token : CVal) : M CVal :=
  if is_Py_None py_lock_token then pure CNull
  else PyString_AsString py_lock_token.

Section WithPython.
Variable py : PyEnv.

Definition py_lock_func (baton : CVal) (path : string) (do_lock : bool)
    (lock : option svn_lock_t) (ra_err : option svn_error_t)
  : M (option svn_error_t) :=
  let py_ra_err :=
    match ra_err with
    | Some e => PyExcInstance (SubversionException (apr_err e) (message e))
    | None => Py_None
    end in
  let* ret := PyObject_CallFunction py baton (Some "zbOO")
                [CStr path; Z_of_bool do_lock; CObj (pyify_lock lock);
                 CObj py_ra_err] in
  match ret with
  | None => pure py_svn_error
  | Some _ => pure NULL
  end.

(** [void]: nothing is returned to the transport, and the result of the
    call is dropped ([TODO: What to do with exceptions raised here ?]). *)
Definition py_progress_func (progress total : Z) (baton : CVal) : M unit :=
  let fn := baton in
  if is_Py_None fn then pure tt
  else let* _ := PyObject_CallFunction py fn (Some "ll")
                   [CInt progress; CInt total] in
       pure tt.

(** *** The editor callbacks libsvn drives (svn_delta_editor_t py_editor) *)

Definition py_cb_editor_add_file (path : string) (parent_baton : CVal)
    (copy_path : CVal) (copy_revision : Z)
  : M (option svn_error_t * option PyObject) :=
  let self := parent_baton in
  let* ret :=
    if is_null copy_path
    then PyObject_CallMethod py self "add_file" (Some "s") [CStr path]
    else PyObject_CallMethod py self "add_file" (Some "ssl")
           [CStr path; copy_path; CInt copy_revision] in
  match ret with
  | None => pure (py_svn_error, NULL)
  | Some file_baton => pure (NULL, Some file_baton)
  end.

Definition py_cb_editor_close_file (file_baton : CVal) (text_checksum : CVal)
  : M (option svn_error_t) :=
  let self := file_baton in
  let* ret :=
    if negb (is_null text_checksum)
    then PyObject_CallMethod py self "close" None []
    else PyObject_CallMethod py self "close" (Some "s") [text_checksum] in
  match ret with
  | None => pure py_svn_error
  | Some _ => pure NULL
  end.

End WithPython.

(** *** Reporter methods *)

Definition reporter_set_path (stack : Frame) (self : ReporterObject)
    (args : list PyObject) : M (option PyObject) :=
  let fr := <["lock_token" := CObj Py_None]> stack in
  let* '(ok, fr) := PyArg_ParseTuple args "slb|z"
      [Some "path"; Some "revision"; Some "start_empty"; Some "lock_token"] fr in
  if negb ok then pure NULL else
  let* token := c_lock_token (local fr "lock_token") in
  let a := [report_baton self; local fr "path"; local fr "revision";
            local fr "start_empty"; token] in
  let* err := svn_call "set_path" a (reporter self "set_path" a) in
  let* ok := check_error err in
  if negb ok then pure NULL else pure (Some Py_None).

(** The frame [reporter_link_path] works on once its arguments are
    parsed: five format units, four destinations, none of them
    [&revision]. *)
Definition link_path_parse (stack : Frame) (args : list PyObject)
  : M (bool * Frame) :=
  let fr := <["lock_token" := CObj Py_None]> stack in
  PyArg_ParseTuple args "sslb|O"
    [Some "path"; Some "url"; Some "start_empty"; Some "lock_token"] fr.

Definition reporter_link_path (stack : Frame) (self : ReporterObject)
    (args : list PyObject) : M (option PyObject) :=
  let* '(ok, fr) := link_path_parse stack args in
  if negb ok then pure NULL else
  let* token := c_lock_token (local fr "lock_token") in
  let a := [report_baton self; local fr "path"; local fr "url";
            local fr "revision"; local fr "start_empty"; token] in
  let* err := svn_call "link_path" a (reporter self "link_path" a) in
  let* ok := check_error err in
  if negb ok then pure NULL else pure (Some Py_None).

Definition reporter_dealloc (self : ReporterObject) : M unit :=
  apr_pool_destroy (reporter_pool self).

(** *** Editor objects driven from Python *)

Definition new_editor_object (editor : string -> list CVal -> option svn_error_t)
    (baton : CVal) (pool : apr_pool_t) (type : string) : M (option EditorObject) :=
  let* obj := PyObject_New in
  if negb obj then pure NULL
  else pure (Some (mkEditor editor baton pool type)).

Definition py_file_editor_close (stack : Frame) (self : EditorObject)
    (args : list PyObject) : M (option PyObject) :=
  let fr := <["c_checksum" := CNull]> stack in
  let* '(ok, fr) := PyArg_ParseTuple args "|z" [Some "c_checksum"] fr in
  if negb ok then pure NULL else
  let a := [editor_baton self; local fr "c_checksum"] in
  let* err := svn_call "close_file" a (editor self "close_file" a) in
  let* ok := check_error err in
  if negb ok then pure NULL else pure (Some Py_None).

Definition py_editor_dealloc (self : EditorObject) : M unit :=
  apr_pool_destroy (editor_pool self).

(** *** RemoteAccess methods *)

Definition ra_get_uuid (self : RemoteAccessObject) : M (option PyObject) :=
  let* temp_pool := Pool (ra_pool self) in
  RUN_SVN_WITH_POOL temp_pool (svn_ra_get_uuid (ra self)) (fun uuid =>
    let ret := PyString uuid in
    do apr_pool_destroy temp_pool then
    pure (Some ret)).

Section WithPython.
Variable py : PyEnv.

(** The test on the parse result has no negation: NULL is returned when
    the arguments were parsed. *)
Definition ra_get_log (stack : Frame) (self : RemoteAccessObject)
    (args : list PyObject) (kwargs : gmap string PyObject) : M (option PyObject) :=
  let kwnames := ["callback"; "paths"; "start"; "end"; "limit";
                  "discover_changed_paths"; "strict_node_history"; "revprops"] in
  let fr := <["limit" := CInt 0]>
            (<["discover_changed_paths" := CInt 1]>
             (<["strict_node_history" := CInt 1]>
              (<["revprops" := CObj Py_None]> stack))) in
  let* '(parsed, fr) := PyArg_ParseTupleAndKeywords args kwargs "OOll|ibbO" kwnames
      [Some "callback"; Some "paths"; Some "start"; Some "end"; Some "limit";
       Some "discover_changed_paths"; Some "strict_node_history";
       Some "revprops"] fr in
  if parsed then pure NULL else
  let* temp_pool := Pool NULL in
  let* paths := string_list_to_apr_array temp_pool (local fr "paths") in
  RUN_SVN_WITH_POOL temp_pool
    (let* err := svn_ra_get_log (ra self)
                   [paths; local fr "start"; local fr "end"; local fr "limit";
                    local fr "discover_changed_paths";
                    local fr "strict_node_history"]
                   (py_svn_log_wrapper py (local fr "callback")) in
     pure (status err))
    (fun _ =>
       do apr_pool_destroy temp_pool then
       pure (Some Py_None)).

End WithPython.

Definition ra_do_update (stack : Frame) (self : RemoteAccessObject)
    (args : list PyObject) : M (option ReporterObject) :=
  let* '(ok, fr) := PyArg_ParseTuple args "lsbO"
      [Some "revision_to_update_to"; Some "update_target"; Some "recurse";
       Some "update_editor"] stack in
  if negb ok then pure NULL else
  let* temp_pool := Pool (ra_pool self) in
  let a := [local fr "revision_to_update_to"; local fr "update_target";
            local fr "recurse"; local fr "update_editor"] in
  RUN_SVN_WITH_POOL temp_pool
    (let* err := svn_call "svn_ra_do_update" a (reply (ra self) "svn_ra_do_update" a) in
     pure (status err))
    (fun _ =>
       let* ret := PyObject_New in
       if negb ret then pure NULL
       else pure (Some (mkReporter (reply (ra self)) (COpaque 0) temp_pool))).

Fixpoint fill_hash (items : list (string * PyObject)) (h : CVal) : M CVal :=
  match items with
  | [] => pure h
  | (k, v) :: rest =>
      let* val := PyString_AsString (CObj v) in
      match h with
      | CHash entries => fill_hash rest (CHash (apr_hash_set entries k val))
      | _ => undefined
      end
  end.

Definition get_commit_editor (stack : Frame) (self : RemoteAccessObject)
    (args : list PyObject) (kwargs : gmap string PyObject) : M (option EditorObject) :=
  let kwnames := ["revprops"; "callback"; "lock_tokens"; "keep_locks"] in
  let fr := <["lock_tokens" := CObj Py_None]> (<["keep_locks" := CInt 0]> stack) in
  let* '(ok, fr) := PyArg_ParseTupleAndKeywords args kwargs "OO|Ob" kwnames
      [Some "revprops"; Some "commit_callback"; Some "lock_tokens";
       Some "keep_locks"] fr in
  if negb ok then pure NULL else
  let* temp_pool := Pool (ra_pool self) in
  let* hash_lock_tokens :=
    if is_Py_None (local fr "lock_tokens") then pure CNull
    else let* items := dict_items (local fr "lock_tokens") in
         fill_hash items (CHash apr_hash_make) in
  let* item := PyDict_GetItemString (local fr "revprops") SVN_PROP_REVISION_LOG in
  let* log_msg := PyString_AsString item in
  let a := [log_msg; local fr "commit_callback"; hash_lock_tokens;
            local fr "keep_locks"] in
  RUN_SVN_WITH_POOL temp_pool
    (let* err := svn_call "svn_ra_get_commit_editor2" a
                   (reply (ra self) "svn_ra_get_commit_editor2" a) in
     pure (status err))
    (fun _ => new_editor_object (reply (ra self)) (COpaque 0) temp_pool "Editor").

(** One entry of the directory listing: a field is set when its bit of
    [dirent_fields] is. *)
Definition py_dirent_of (dirent_fields : Z) (dirent : svn_dirent_t)
  : M (gmap string PyObject) :=
  let d : gmap string PyObject := ∅ in
  let d := if negb (Z.land dirent_fields 0x1 =? 0)%Z
           then <["kind" := PyLong (kind dirent)]> d else d in
  let d := if negb (Z.land dirent_fields 0x2 =? 0)%Z
           then <["size" := PyLong (size dirent)]> d else d in
  let d := if negb (Z.land dirent_fields 0x4 =? 0)%Z
           then <["has_props" := PyBool (has_props dirent)]> d else d in
  let d := if negb (Z.land dirent_fields 0x8 =? 0)%Z
           then <["created_rev" := PyLong (created_rev dirent)]> d else d in
  let d := if negb (Z.land dirent_fields 0x10 =? 0)%Z
           then <["time" := PyLong (time dirent)]> d else d in
  if negb (Z.land dirent_fields 0x20 =? 0)%Z
  then match last_author dirent with
       | Some author => pure (<["last_author" := PyString author]> d)
       | None => undefined         (* PyString_FromString(NULL) *)
       end
  else pure d.

Fixpoint py_dirents_of (dirent_fields : Z) (dirents : list (string * svn_dirent_t))
    (py_dirents : gmap string PyObject) : M (gmap string PyObject) :=
  match dirents with
  | [] => pure py_dirents
  | (key, dirent) :: rest =>
      let* py_dirent := py_dirent_of dirent_fields dirent in
      py_dirents_of dirent_fields rest (<[key := PyDict py_dirent]> py_dirents)
  end.

Definition ra_get_dir (stack : Frame) (self : RemoteAccessObject)
    (args : list PyObject) : M (option PyObject) :=
  let fr := <["revision" := CInt (-1)]> (<["dirent_fields" := CInt 0]> stack) in
  let* '(ok, fr) := PyArg_ParseTuple args "s|li"
      [Some "path"; Some "revision"; Some "dirent_fields"] fr in
  if negb ok then pure NULL else
  let* temp_pool := Pool (ra_pool self) in
  let* r := svn_ra_get_dir2 (ra self) (local fr "path") (local fr "revision")
              (local fr "dirent_fields") in
  if_error r (do apr_pool_destroy temp_pool then pure NULL)
    (fun '(dirents, fetch_rev, props) =>
       let* py_dirents :=
         match dirents with
         | None => pure Py_None
         | Some entries =>
             let* dirent_fields := read_int (local fr "dirent_fields") in
             let* d := py_dirents_of dirent_fields entries ∅ in
             pure (PyDict d)
         end in
       let* py_props := prop_hash_to_dict props in
       do apr_pool_destroy temp_pool then
       let* ret := defined (Py_BuildValue "(OiO)"
                              [CObj py_dirents; CInt fetch_rev; CObj py_props]) in
       pure (Some ret)).

(** The lock is allocated in [temp_pool], and the pool is destroyed
    before the lock is wrapped; a path without a lock gives a NULL [lock],
    which [wrap_lock] dereferences. *)
Definition ra_get_lock (stack : Frame) (self : RemoteAccessObject)
    (args : list PyObject) : M (option PyObject) :=
  let* '(ok, fr) := PyArg_ParseTuple args "s" [Some "path"] stack in
  if negb ok then pure NULL else
  let* temp_pool := Pool (ra_pool self) in
  RUN_SVN_WITH_POOL temp_pool (svn_ra_get_lock (ra self) (local fr "path"))
    (fun lock =>
       do apr_pool_destroy temp_pool then
       match lock with
       | Some lock =>
           let* lock := pool_read temp_pool lock in
           let* ret := defined (wrap_lock lock) in
           pure (Some ret)
       | None => undefined
       end).

(** The second destination is [revision] itself, not [&revision]. *)
Definition ra_check_path (stack : Frame) (self : RemoteAccessObject)
    (args : list PyObject) : M (option PyObject) :=
  let* '(ok, fr) := PyArg_ParseTuple args "sl" [Some "path"; None] stack in
  if negb ok then pure NULL else
  let* temp_pool := Pool (ra_pool self) in
  RUN_SVN_WITH_POOL temp_pool
    (svn_ra_check_path (ra self) (local fr "path") (local fr "revision"))
    (fun kind =>
       do apr_pool_destroy temp_pool then
       pure (Some (PyLong kind))).

Fixpoint fill_path_revs (items : list (string * PyObject)) (h : CVal) : M CVal :=
  match items with
  | [] => pure h
  | (k, v) :: rest =>
      let* rev := PyLong_AsLong (CObj v) in     (* stored in the pool, never used *)
      let* val := PyString_AsString (CObj v) in
      match h with
      | CHash entries => fill_path_revs rest (CHash (apr_hash_set entries k val))
      | _ => undefined
      end
  end.

Section WithPython.
Variable py : PyEnv.

(** Both exits after the call to svn_ra_lock return NULL. *)
Definition ra_lock (stack : Frame) (self : RemoteAccessObject)
    (args : list PyObject) : M (option PyObject) :=
  let* '(ok, fr) := PyArg_ParseTuple args "OsbO"
      [Some "path_revs"; Some "comment"; Some "steal_lock"; Some "lock_func"]
      stack in
  if negb ok then pure NULL else
  let* temp_pool := Pool (ra_pool self) in
  let path_revs := local fr "path_revs" in
  let hash_path_revs :=
    if is_Py_None path_revs then CNull else CHash apr_hash_make in
  let* items := dict_items path_revs in
  let* hash_path_revs := fill_path_revs items hash_path_revs in
  let* err := svn_ra_lock (ra self) hash_path_revs (local fr "comment")
                (local fr "steal_lock") (py_lock_func py (local fr "lock_func")) in
  let* ok := check_error err in
  if negb ok
  then do apr_pool_destroy temp_pool then pure NULL
  else do apr_pool_destroy temp_pool then pure NULL.

End WithPython.

Definition ra_get_locks (stack : Frame) (self : RemoteAccessObject)
    (args : list PyObject) : M (option PyObject) :=
  let* '(ok, fr) := PyArg_ParseTuple args "s" [Some "path"] stack in
  if negb ok then pure NULL else
  let* temp_pool := Pool (ra_pool self) in
  let* r := svn_ra_get_locks (ra self) (local fr "path") in
  if_error r (do apr_pool_destroy temp_pool then pure NULL)
    (fun hash_locks =>
       let ret :=
         foldl (fun (d : gmap string PyObject) kv =>
                  <[fst kv := pyify_lock (Some (snd kv))]> d) ∅ hash_locks in
       do apr_pool_destroy temp_pool then
       pure (Some (PyDict ret))).

(** The pool is created in the declaration, before the arguments are
    parsed.  The second destination is written [&handle] in the source,
    which is not the local [handler] that is read afterwards.  [sent] is
    what svn_txdelta_send_stream answers: an error or the 16 bytes of the
    digest; the reads it performs on the stream are not modelled. *)
Definition txdelta_send_stream (sent : list CVal -> svn_error_t + string)
    (stack : Frame) (args : list PyObject) : M (option PyObject) :=
  let* pool := Pool NULL in
  let* '(ok, fr) := PyArg_ParseTuple args "OO" [Some "stream"; Some "handle"]
                      stack in
  if negb ok then pure NULL else
  let a := [local fr "stream"; local fr "handler"] in
  let* r := (do emit (EvSvn "svn_txdelta_send_stream" a) then pure (sent a)) in
  if_error r (do apr_pool_destroy pool then pure NULL)
    (fun digest =>
       do apr_pool_destroy pool then
       pure (Some (PyString digest))).

End Ra.
Export Ra.

(** ** What a run leaves behind *)

Module Observe.

Definition result_of {A} (m : M A) (w : World) : option A :=
  option_map fst (m w).

Definition trace_after {A} (m : M A) (w : World) : option (list Event) :=
  option_map (fun r => trace (snd r)) (m w).

Definition err_after {A} (m : M A) (w : World) : option (option PyExc) :=
  option_map (fun r => py_err (snd r)) (m w).

(** The calls into Python among the events. *)
Definition py_calls (tr : list Event) : list Event :=
  List.filter (fun e => match e with EvPyCall _ _ _ => true | _ => false end) tr.

(** The calls into libsvn named [fn] among the events. *)
Definition svn_calls (fn : string) (tr : list Event) : list (list CVal) :=
  flat_map (fun e => match e with
                     | EvSvn g a => if String.eqb fn g then [a] else []
                     | _ => []
                     end) tr.

(** The transport reports progress after every chunk it moves; the
    callback returns nothing, so the transfer cannot depend on it. *)
Fixpoint report_progress (progress_func : Z -> Z -> M unit)
    (chunks : list (Z * Z)) : M unit :=
  match chunks with
  | [] => pure tt
  | (progress, total) :: rest =>
      do progress_func progress total then
      report_progress progress_func rest
  end.


(** The object a caller of get_commit_editor passed as [revprops], by
    position or by keyword. *)
Definition revprops_given (args : list PyObject) (kwargs : gmap string PyObject)
  : option PyObject :=
  match args with
  | o :: _ => Some o
  | [] => kwargs !! "revprops"
  end.




End Observe.
Export Observe.

(** ** A small repository to run the binding against *)

Module Scenario.

(** A callback that returns None, and one that raises. *)
Definition quiet : PyEnv := fun _ _ _ => PyReturn Py_None.
Definition interrupting : PyEnv :=
  fun _ _ _ => PyRaise (Raised "KeyboardInterrupt").

Definition README : svn_dirent_t :=
  mk_svn_dirent svn_node_file 120 true 7 1225000000 (Some "jelmer").
Definition src_dir : svn_dirent_t :=
  mk_svn_dirent svn_node_dir 0 false 5 1224000000 (Some "jelmer").

Definition lock_of (path : string) : svn_lock_t :=
  mk_svn_lock path "opaquelocktoken:1" "jelmer" (Some "editing") false
    1225000000 0.

(** trunk/README exists from revision 7 on; branches/b is locked by
    somebody else. *)
Definition repository : svn_ra_session_t :=
  mk_session
    (fun _ _ => None)
    (inr "6f5d4c3b-uuid")
    (fun path revision =>
       match path, revision with
       | CStr "trunk/README", CInt r => inr (if (7 <=? r)%Z then svn_node_file else svn_node_none)
       | _, _ => inr svn_node_none
       end)
    (fun _ revision _ => inr (Some [("README", README); ("src", src_dir)], 7, None))
    (fun path => inr (Some (lock_of "trunk/README")))
    (fun path => inr [("trunk/README", lock_of "trunk/README")])
    (fun path _ _ _ =>
       if String.eqb path "branches/b"
       then inr (mk_svn_error 160035 "Path is already locked")
       else inl (lock_of path))
    (fun _ => inr [mk_log_message None 1 (Some "jelmer") None (Some "import");
                   mk_log_message None 2 (Some "jelmer") None (Some "fix")]).

Definition session : RemoteAccessObject :=
  mkRemoteAccess repository (Some 0%nat) (PyString "http://svn.example.org/repo") Py_None.

(** A world in which the session's pool (pool 0) exists. *)
Definition started : World := mkWorld None [EvPoolCreate 0 None] 1 false.

(** The stack happens to hold 0 where [revision] will live. *)
Definition zeroed_stack : Frame := <["revision" := CInt 0]> ∅.

Definition a_reporter : ReporterObject :=
  mkReporter (fun _ _ => None) (COpaque 0) (Some 1%nat).


Definition three_paths (r1 r2 r3 : PyObject) : PyObject :=
  PyDict (<["trunk/a" := r1]> (<["branches/b" := r2]> (<["trunk/c" := r3]> ∅))).

End Scenario.
Export Scenario.

(** ** util.c, the remaining functions *)

Module UtilRest.

Fixpoint revnums_of (items : list PyObject) : M (list CVal) :=
  match items with
  | [] => pure []
  | o :: rest =>
      let* el := PyLong_AsLong (CObj o) in
      let* els := revnums_of rest in
      pure (CInt el :: els)
  end.

(** As [string_list_to_apr_array], with [PyLong_AsLong] for every element
    and an array made for elements of sizeof(svn_revnum_t) bytes;
    apr_array_make does not return NULL. *)
Definition revnum_list_to_apr_array (pool : apr_pool_t) (l : CVal) : M CVal :=
  if is_Py_None l then pure CNull
  else match l with
       | CObj (PyList items) =>
           let* els := revnums_of items in
           apr_array_of sizeof_svn_revnum_t sizeof_svn_revnum_t els
       | CObj _ => do PyErr_Set SystemError then pure (CArray [])
       | _ => undefined
       end.

Section WithPython.
Variable py : PyEnv.

(** The read function of a stream over a Python object.  The result is
    the error, what was copied into [buffer] (nothing when the call
    raised) and [*length] afterwards.  [buffer] holds [length] bytes: a
    longer string is copied past its end, and for an object that is no
    string ([FIXME] in the source) the macro PyString_AS_STRING reads what
    is no string. *)
Definition py_stream_read (baton : CVal) (length : Z)
  : M (option svn_error_t * option string * Z) :=
  let self := baton in
  let* ret := PyObject_CallMethod py self "read" (Some "i") [CInt length] in
  match ret with
  | None => pure (py_svn_error, None, length)
  | Some (PyString s) =>
      let size := Z.of_nat (String.length s) in
      if (size <=? length)%Z then pure (NULL, Some s, size)
      else undefined
  | Some _ => undefined
  end.

Definition py_stream_close (baton : CVal) : M (option svn_error_t) :=
  let self := baton in
  let* ret := PyObject_CallMethod py self "close" None [] in
  match ret with
  | None => pure py_svn_error
  | Some _ => pure NULL
  end.

End WithPython.
End UtilRest.
Export UtilRest.

(** ** ra.c, the remaining functions *)

Module RaRest.

(** svn_types.h: svn_commit_info_t; [date] and [author] may be NULL. *)
Record svn_commit_info_t : Type := mk_commit_info {
  ci_revision : Z;
  ci_date : option string;
  ci_author : option string
}.

(** One invocation of an svn_file_rev_handler_t. *)
Record file_rev : Type := mk_file_rev {
  fr_path : string;
  fr_rev : Z;
  fr_rev_props : option (list (string * string))
}.

(** More answers of a session, for the queries of this part. *)
Record svn_ra_answers_t : Type := mk_answers {
  latest_revnum : svn_error_t + Z;
  repos_root : svn_error_t + string;
  capability : CVal -> svn_error_t + Z;
  rev_props : CVal -> svn_error_t + option (list (string * string));
  (* what svn_ra_get_file_revs delivers for path, start, end *)
  file_revs : list CVal -> svn_error_t + list file_rev
}.

Section WithPython.
Variable py : PyEnv.

Definition py_commit_callback (commit_info : svn_commit_info_t) (baton : CVal)
  : M (option svn_error_t) :=
  let fn := baton in
  let* ret := PyObject_CallFunction py fn (Some "izz")
                [CInt (ci_revision commit_info);
                 marshal_string (ci_date commit_info);
                 marshal_string (ci_author commit_info)] in
  match ret with
  | None => pure py_svn_error
  | Some _ => pure NULL
  end.

(** *** The remaining editor callbacks of [py_editor] *)

Definition py_cb_editor_set_target_revision (edit_baton : CVal)
    (target_revision : Z) : M (option svn_error_t) :=
  let self := edit_baton in
  let* ret := PyObject_CallMethod py self "set_target_revision" (Some "l")
                [CInt target_revision] in
  match ret with
  | None => pure py_svn_error
  | Some _ => pure NULL
  end.

Definition py_cb_editor_open_root (edit_baton : CVal) (base_revision : Z)
  : M (option svn_error_t * CVal) :=
  let self := edit_baton in
  let* ret := PyObject_CallMethod py self "open_root" (Some "l")
                [CInt base_revision] in
  match ret with
  | None => pure (py_svn_error, CNull)
  | Some child => pure (NULL, CObj child)
  end.

Definition py_cb_editor_delete_entry (path : string) (revision : Z)
    (parent_baton : CVal) : M (option svn_error_t) :=
  let self := parent_baton in
  let* ret := PyObject_CallMethod py self "delete_entry" (Some "sl")
                [CStr path; CInt revision] in
  match ret with
  | None => pure py_svn_error
  | Some _ => pure NULL
  end.

Definition py_cb_editor_add_directory (path : string) (parent_baton : CVal)
    (copyfrom_path : CVal) (copyfrom_revision : Z)
  : M (option svn_error_t * CVal) :=
  let self := parent_baton in
  let* ret :=
    if is_null copyfrom_path
    then PyObject_CallMethod py self "add_directory" (Some "s") [CStr path]
    else PyObject_CallMethod py self "add_directory" (Some "ssl")
           [CStr path; copyfrom_path; CInt copyfrom_revision] in
  match ret with
  | None => pure (py_svn_error, CNull)
  | Some child => pure (NULL, CObj child)
  end.

Definition py_cb_editor_open_directory (path : string) (parent_baton : CVal)
    (base_revision : Z) : M (option svn_error_t * CVal) :=
  let self := parent_baton in
  let* ret := PyObject_CallMethod py self "open_directory" (Some "sl")
                [CStr path; CInt base_revision] in
  match ret with
  | None => pure (py_svn_error, CNull)
  | Some child => pure (NULL, CObj child)
  end.

Definition py_cb_editor_close_directory (dir_baton : CVal)
  : M (option svn_error_t) :=
  let self := dir_baton in
  let* ret := PyObject_CallMethod py self "close" None [] in
  match ret with
  | None => pure py_svn_error
  | Some _ => pure NULL
  end.

Definition py_cb_editor_absent_directory (path : string) (parent_baton : CVal)
  : M (option svn_error_t) :=
  let self := parent_baton in
  let* ret := PyObject_CallMethod py self "absent_directory" (Some "s")
                [CStr path] in
  match ret with
  | None => pure py_svn_error
  | Some _ => pure NULL
  end.

(** [*file_baton] is written only when the method returned. *)
Definition py_cb_editor_open_file (path : string) (parent_baton : CVal)
    (base_revision : Z) : M (option svn_error_t * option PyObject) :=
  let self := parent_baton in
  let* ret := PyObject_CallMethod py self "open_file" (Some "sl")
                [CStr path; CInt base_revision] in
  match ret with
  | None => pure (py_svn_error, NULL)
  | Some file_baton => pure (NULL, Some file_baton)
  end.

(** The handler is [py_txdelta_window_handler] in every case; the baton is
    what the method returned. *)
Definition py_cb_editor_apply_textdelta (file_baton : CVal)
    (base_checksum : CVal) : M (option svn_error_t * CVal) :=
  let self := file_baton in
  let* ret := PyObject_CallMethod py self "apply_textdelta" (Some "z")
                [base_checksum] in
  match ret with
  | None => pure (py_svn_error, CNull)
  | Some child => pure (NULL, CObj child)
  end.

Definition py_cb_editor_absent_file (path : string) (parent_baton : CVal)
  : M (option svn_error_t) :=
  let self := parent_baton in
  let* ret := PyObject_CallMethod py self "absent_file" (Some "s") [CStr path] in
  match ret with
  | None => pure py_svn_error
  | Some _ => pure NULL
  end.

Definition py_cb_editor_close_edit (edit_baton : CVal) : M (option svn_error_t) :=
  let self := edit_baton in
  let* ret := PyObject_CallMethod py self "close" None [] in
  match ret with
  | None => pure py_svn_error
  | Some _ => pure NULL
  end.

Definition py_cb_editor_abort_edit (edit_baton : CVal) : M (option svn_error_t) :=
  let self := edit_baton in
  let* ret := PyObject_CallMethod py self "abort" None [] in
  match ret with
  | None => pure py_svn_error
  | Some _ => pure NULL
  end.

Definition py_file_rev_handler (baton : CVal) (rev : file_rev)
  : M (option svn_error_t) :=
  let fn := baton in
  let* props := prop_hash_to_dict (fr_rev_props rev) in
  let* ret := PyObject_CallFunction py fn (Some "slO")
                [CStr (fr_path rev); CInt (fr_rev rev); CObj props] in
  match ret with
  | None => pure py_svn_error
  | Some _ => pure NULL
  end.

End WithPython.

(** *** The remaining reporter methods *)

Definition reporter_delete_path (stack : Frame) (self : ReporterObject)
    (args : list PyObject) : M (option PyObject) :=
  let* '(ok, fr) := PyArg_ParseTuple args "s" [Some "path"] stack in
  if negb ok then pure NULL else
  let a := [report_baton self; local fr "path"] in
  let* err := svn_call "delete_path" a (reporter self "delete_path" a) in
  let* ok := check_error err in
  if negb ok then pure NULL else pure (Some Py_None).

Definition reporter_finish (self : ReporterObject) : M (option PyObject) :=
  let a := [report_baton self] in
  let* err := svn_call "finish_report" a (reporter self "finish_report" a) in
  let* ok := check_error err in
  if negb ok then pure NULL else pure (Some Py_None).

Definition reporter_abort (self : ReporterObject) : M (option PyObject) :=
  let a := [report_baton self] in
  let* err := svn_call "abort_report" a (reporter self "abort_report" a) in
  let* ok := check_error err in
  if negb ok then pure NULL else pure (Some Py_None).

(** *** Editor objects driven from Python: the remaining methods *)

Section Driven.
(** The baton an entry of the delta editor stores through its last
    argument, by entry and arguments. *)
Variable child_baton_of : string -> list CVal -> CVal.

Definition py_dir_editor_delete_entry (stack : Frame) (self : EditorObject)
    (args : list PyObject) : M (option PyObject) :=
  let fr := <["revision" := CInt (-1)]> stack in
  let* '(ok, fr) := PyArg_ParseTuple args "s|l"
                      [Some "path"; Some "revision"] fr in
  if negb ok then pure NULL else
  let a := [local fr "path"; local fr "revision"; editor_baton self] in
  let* err := svn_call "delete_entry" a (editor self "delete_entry" a) in
  let* ok := check_error err in
  if negb ok then pure NULL else pure (Some Py_None).

Definition py_dir_editor_add_directory (stack : Frame) (self : EditorObject)
    (args : list PyObject) : M (option EditorObject) :=
  let fr := <["copyfrom_path" := CNull]> (<["copyfrom_rev" := CInt (-1)]> stack) in
  let* '(ok, fr) := PyArg_ParseTuple args "s|zl"
      [Some "path"; Some "copyfrom_path"; Some "copyfrom_rev"] fr in
  if negb ok then pure NULL else
  let a := [local fr "path"; editor_baton self; local fr "copyfrom_path";
            local fr "copyfrom_rev"] in
  let* err := svn_call "add_directory" a (editor self "add_directory" a) in
  let* ok := check_error err in
  if negb ok then pure NULL else
  new_editor_object (editor self) (child_baton_of "add_directory" a)
    (editor_pool self) "DirectoryEditor".

Definition py_dir_editor_open_directory (stack : Frame) (self : EditorObject)
    (args : list PyObject) : M (option EditorObject) :=
  let fr := <["base_revision" := CInt (-1)]> stack in
  let* '(ok, fr) := PyArg_ParseTuple args "s|l"
                      [Some "path"; Some "base_revision"] fr in
  if negb ok then pure NULL else
  let a := [local fr "path"; editor_baton self; local fr "base_revision"] in
  let* err := svn_call "open_directory" a (editor self "open_directory" a) in
  let* ok := check_error err in
  if negb ok then pure NULL else
  new_editor_object (editor self) (child_baton_of "open_directory" a)
    (editor_pool self) "DirectoryEditor".

Definition py_dir_editor_close (self : EditorObject) : M (option PyObject) :=
  let a := [editor_baton self] in
  let* err := svn_call "close_directory" a (editor self "close_directory" a) in
  let* ok := check_error err in
  if negb ok then pure NULL else pure (Some Py_None).

Definition py_dir_editor_absent_directory (stack : Frame) (self : EditorObject)
    (args : list PyObject) : M (option PyObject) :=
  let* '(ok, fr) := PyArg_ParseTuple args "s" [Some "path"] stack in
  if negb ok then pure NULL else
  let a := [local fr "path"; editor_baton self] in
  let* err := svn_call "absent_directory" a (editor self "absent_directory" a) in
  let* ok := check_error err in
  if negb ok then pure NULL else pure (Some Py_None).

Definition py_dir_editor_add_file (stack : Frame) (self : EditorObject)
    (args : list PyObject) : M (option EditorObject) :=
  let fr := <["copy_path" := CNull]> (<["copy_rev" := CInt (-1)]> stack) in
  let* '(ok, fr) := PyArg_ParseTuple args "s|zl"
      [Some "path"; Some "copy_path"; Some "copy_rev"] fr in
  if negb ok then pure NULL else
  let a := [local fr "path"; editor_baton self; local fr "copy_path";
            local fr "copy_rev"] in
  let* err := svn_call "add_file" a (editor self "add_file" a) in
  let* ok := check_error err in
  if negb ok then pure NULL else
  new_editor_object (editor self) (child_baton_of "add_file" a)
    (editor_pool self) "FileEditor".

Definition py_dir_editor_open_file (stack : Frame) (self : EditorObject)
    (args : list PyObject) : M (option EditorObject) :=
  let fr := <["base_revision" := CInt (-1)]> stack in
  let* '(ok, fr) := PyArg_ParseTuple args "s|l"
                      [Some "path"; Some "base_revision"] fr in
  if negb ok then pure NULL else
  let a := [local fr "path"; editor_baton self; local fr "base_revision"] in
  let* err := svn_call "open_file" a (editor self "open_file" a) in
  let* ok := check_error err in
  if negb ok then pure NULL else
  new_editor_object (editor self) (child_baton_of "open_file" a)
    (editor_pool self) "FileEditor".

Definition py_dir_editor_absent_file (stack : Frame) (self : EditorObject)
    (args : list PyObject) : M (option PyObject) :=
  let* '(ok, fr) := PyArg_ParseTuple args "s" [Some "path"] stack in
  if negb ok then pure NULL else
  let a := [local fr "path"; editor_baton self] in
  let* err := svn_call "absent_file" a (editor self "absent_file" a) in
  let* ok := check_error err in
  if negb ok then pure NULL else pure (Some Py_None).

Definition py_editor_set_target_revision (stack : Frame) (self : EditorObject)
    (args : list PyObject) : M (option PyObject) :=
  let* '(ok, fr) := PyArg_ParseTuple args "i" [Some "target_revision"] stack in
  if negb ok then pure NULL else
  let a := [editor_baton self; local fr "target_revision"] in
  let* err := svn_call "set_target_revision" a
                (editor self "set_target_revision" a) in
  let* ok := check_error err in
  if negb ok then pure NULL else pure (Some Py_None).

Definition py_editor_open_root (stack : Frame) (self : EditorObject)
    (args : list PyObject) : M (option EditorObject) :=
  let fr := <["base_revision" := CInt (-1)]> stack in
  let* '(ok, fr) := PyArg_ParseTuple args "|i" [Some "base_revision"] fr in
  if negb ok then pure NULL else
  let a := [editor_baton self; local fr "base_revision"] in
  let* err := svn_call "open_root" a (editor self "open_root" a) in
  let* ok := check_error err in
  if negb ok then pure NULL else
  new_editor_object (editor self) (child_baton_of "open_root" a)
    (editor_pool self) "DirectoryEditor".

Definition py_editor_close (self : EditorObject) : M (option PyObject) :=
  let a := [editor_baton self] in
  let* err := svn_call "close_edit" a (editor self "close_edit" a) in
  let* ok := check_error err in
  if negb ok then pure NULL else pure (Some Py_None).

Definition py_editor_abort (self : EditorObject) : M (option PyObject) :=
  let a := [editor_baton self] in
  let* err := svn_call "abort_edit" a (editor self "abort_edit" a) in
  let* ok := check_error err in
  if negb ok then pure NULL else pure (Some Py_None).

End Driven.

(** *** The remaining RemoteAccess methods *)

Section Queries.
Variable answers : svn_ra_answers_t.

Definition svn_ra_get_latest_revnum : M (svn_error_t + Z) :=
  do emit (EvSvn "svn_ra_get_latest_revnum" []) then
  pure (latest_revnum answers).

Definition svn_ra_get_repos_root : M (svn_error_t + string) :=
  do emit (EvSvn "svn_ra_get_repos_root" []) then pure (repos_root answers).


Definition svn_ra_rev_proplist (rev : CVal) :=
  do emit (EvSvn "svn_ra_rev_proplist" [rev]) then pure (rev_props answers rev).

(** svn_ra_get_file_revs hands the revisions to the handler in order; an
    error returned by the handler ends the call with that error. *)
Fixpoint deliver_revs (handler : file_rev -> M (option svn_error_t))
    (revs : list file_rev) : M (option svn_error_t) :=
  match revs with
  | [] => pure NULL
  | r :: rest =>
      let* e := handler r in
      match e with
      | Some e => pure (Some e)
      | None => deliver_revs handler rest
      end
  end.

Definition svn_ra_get_file_revs (args : list CVal)
    (handler : file_rev -> M (option svn_error_t)) : M (option svn_error_t) :=
  do emit (EvSvn "svn_ra_get_file_revs" args) then
  match file_revs answers args with
  | inl e => pure (Some e)
  | inr revs => deliver_revs handler revs
  end.

Definition ra_get_latest_revnum (self : RemoteAccessObject) : M (option PyObject) :=
  let* temp_pool := Pool (ra_pool self) in
  RUN_SVN_WITH_POOL temp_pool svn_ra_get_latest_revnum (fun latest_revnum =>
    do apr_pool_destroy temp_pool then
    pure (Some (PyLong latest_revnum))).

(** The pool is destroyed before the root is turned into a string. *)
Definition ra_get_repos_root (self : RemoteAccessObject) : M (option PyObject) :=
  let* temp_pool := Pool (ra_pool self) in
  RUN_SVN_WITH_POOL temp_pool svn_ra_get_repos_root (fun root =>
    do apr_pool_destroy temp_pool then
    pure (Some (PyString root))).

Definition ra_rev_proplist (stack : Frame) (self : RemoteAccessObject)
    (args : list PyObject) : M (option PyObject) :=
  let* '(ok, fr) := PyArg_ParseTuple args "l" [Some "rev"] stack in
  if negb ok then pure NULL else
  let* temp_pool := Pool (ra_pool self) in
  RUN_SVN_WITH_POOL temp_pool (svn_ra_rev_proplist (local fr "rev")) (fun props =>
    let* py_props := prop_hash_to_dict props in
    do apr_pool_destroy temp_pool then
    pure (Some py_props)).


Section WithPython.
Variable py : PyEnv.

Definition ra_get_file_revs (stack : Frame) (self : RemoteAccessObject)
    (args : list PyObject) : M (option PyObject) :=
  let* '(ok, fr) := PyArg_ParseTuple args "sllO"
      [Some "path"; Some "start"; Some "end"; Some "file_rev_handler"] stack in
  if negb ok then pure NULL else
  let* temp_pool := Pool (ra_pool self) in
  let* err := svn_ra_get_file_revs
                [local fr "path"; local fr "start"; local fr "end"]
                (py_file_rev_handler py (local fr "file_rev_handler")) in
  let* ok := check_error err in
  if negb ok
  then do apr_pool_destroy temp_pool then pure NULL
  else do apr_pool_destroy temp_pool then pure (Some Py_None).

End WithPython.
End Queries.


Definition ra_do_switch (stack : Frame) (self : RemoteAccessObject)
    (args : list PyObject) : M (option ReporterObject) :=
  let* '(ok, fr) := PyArg_ParseTuple args "lsbsO"
      [Some "revision_to_update_to"; Some "update_target"; Some "recurse";
       Some "switch_url"; Some "update_editor"] stack in
  if negb ok then pure NULL else
  let* temp_pool := Pool (ra_pool self) in
  let a := [local fr "revision_to_update_to"; local fr "update_target";
            local fr "recurse"; local fr "switch_url"; local fr "update_editor"] in
  RUN_SVN_WITH_POOL temp_pool
    (let* err := svn_call "svn_ra_do_switch" a (reply (ra self) "svn_ra_do_switch" a) in
     pure (status err))
    (fun _ =>
       let* ret := PyObject_New in
       if negb ret then pure NULL
       else pure (Some (mkReporter (reply (ra self)) (COpaque 0) temp_pool))).

(** *** Auth *)

Record AuthObject : Type := mkAuth {
  auth_baton : CVal;
  auth_pool : apr_pool_t;
  providers : PyObject
}.

(** svn_auth_set_parameter stores the value under the name, which has to
    be a string. *)
Definition svn_auth_set_parameter (baton name value : CVal) : M unit :=
  match name with
  | CStr _ => emit (EvSvn "svn_auth_set_parameter" [baton; name; value])
  | _ => undefined
  end.

(** The parameter is set when the arguments did NOT parse; None is
    returned in both cases. *)
Definition auth_set_parameter (stack : Frame) (self : AuthObject)
    (args : list PyObject) : M (option PyObject) :=
  let auth := self in
  let* '(ok, fr) := PyArg_ParseTuple args "ss" [Some "name"; Some "value"] stack in
  do (if negb ok
      then svn_auth_set_parameter (auth_baton auth) (local fr "name")
             (local fr "value")
      else pure tt) then
  pure (Some Py_None).

End RaRest.
Export RaRest.

(** ** Observations for the further properties *)

Module Checks.

Definition is_pool_event (e : Event) : bool :=
  match e with
  | EvPoolCreate _ _ | EvPoolDestroy _ => true
  | _ => false
  end.

Definition pool_events (tr : list Event) : list Event :=
  List.filter is_pool_event tr.

(** Pool events nest like brackets: a pool is destroyed while it is the
    innermost one still alive, and none is left at the end. *)
Fixpoint brackets (alive : list nat) (evs : list Event) : bool :=
  match evs with
  | [] => match alive with [] => true | _ => false end
  | EvPoolCreate p _ :: rest => brackets (p :: alive) rest
  | EvPoolDestroy p :: rest =>
      match alive with
      | q :: alive' => Nat.eqb p q && brackets alive' rest
      | [] => false
      end
  | _ :: rest => brackets alive rest
  end.


(** A computation that, started with the pools [alive] (innermost
    first), has destroyed them and every pool it created whenever it
    returns. *)
Definition closes {A} (alive : list nat) (m : M A) : Prop :=
  forall w r w', m w = Some (r, w') ->
    exists evs, trace w' = (trace w ++ evs)%list
                /\ brackets alive (pool_events evs) = true.

Definition scoped {A} (m : M A) : Prop := closes [] m.

(** What a callback reports to libsvn. *)
Definition reported_error {A} (m : M A) (err : A -> option svn_error_t)
    (w : World) : option (option svn_error_t) :=
  option_map err (result_of m w).

(** None for a NULL string. *)
Definition py_opt_string (s : option string) : PyObject :=
  match s with
  | Some s => PyString s
  | None => Py_None
  end.

(** The mapping of a property hash; were a name listed twice, the later
    entry would win. *)
Definition py_props (props : option (list (string * string))) : PyObject :=
  match props with
  | None => Py_None
  | Some entries =>
      PyDict (list_to_map (reverse (map (fun kv => (fst kv, PyString (snd kv)))
                                        entries)))
  end.

(** What an element of a Python list becomes in the C array. *)
Definition c_string_of (o : PyObject) : CVal :=
  match o with
  | PyString s => CStr s
  | _ => CNull
  end.

(** What [PyLong_AsLong] leaves pending for an item, and the revision it
    stores. *)
Definition revnum_error (o : PyObject) : option PyExc :=
  match as_integer o with
  | Some z => if in_range (- 2 ^ 63) (2 ^ 63 - 1) z then None
              else Some OverflowError
  | None => Some TypeError
  end.

Definition c_revnum_of (o : PyObject) : CVal :=
  match as_integer o, revnum_error o with
  | Some z, None => CInt z
  | _, _ => CInt (-1)
  end.

(** The error indicator after every item was converted: that of the last
    item that failed. *)
Definition last_error (errors : list (option PyExc)) (before : option PyExc)
  : option PyExc :=
  foldl (fun pending e => match e with Some _ => e | None => pending end)
        before errors.

(** The world [prop_hash_to_dict] leaves behind: for a hash, its private
    pool was created and destroyed. *)
Definition after_props (props : option (list (string * string))) (w : World)
  : World :=
  match props with
  | None => w
  | Some _ =>
      mkWorld (py_err w)
        (trace w ++ [EvPoolCreate (next_pool w) None;
                     EvPoolDestroy (next_pool w)])%list
        (S (next_pool w)) (heap_full w)
  end.

(** The call one revision of a file gives rise to. *)
Definition file_rev_call (handler : PyObject) (r : file_rev) : Event :=
  EvPyCall handler ""
    [PyString (fr_path r); PyLong (fr_rev r); py_props (fr_rev_props r)].

Definition is_string (o : PyObject) : bool :=
  match o with
  | PyString _ => true
  | _ => false
  end.

(** A Python program that calls the methods of a reporter one after the
    other, with arguments of the right types. *)
Inductive report_op : Type :=
| RSetPath (path : string) (revision : Z) (start_empty : bool)
| RDeletePath (path : string)
| RFinish
| RAbort.

Definition report_one (stack : Frame) (self : ReporterObject) (op : report_op)
  : M (option PyObject) :=
  match op with
  | RSetPath path revision start_empty =>
      reporter_set_path stack self
        [PyString path; PyLong revision; PyBool start_empty]
  | RDeletePath path => reporter_delete_path stack self [PyString path]
  | RFinish => reporter_finish self
  | RAbort => reporter_abort self
  end.

Fixpoint report_all (stack : Frame) (self : ReporterObject)
    (ops : list report_op) : M unit :=
  match ops with
  | [] => pure tt
  | op :: rest =>
      do report_one stack self op then
      report_all stack self rest
  end.

(** The call of libsvn's reporter an operation stands for. *)
Definition reported (self : ReporterObject) (op : report_op) : Event :=
  match op with
  | RSetPath path revision start_empty =>
      EvSvn "set_path" [report_baton self; CStr path; CInt revision;
                        CInt (Z.b2z start_empty); CNull]
  | RDeletePath path => EvSvn "delete_path" [report_baton self; CStr path]
  | RFinish => EvSvn "finish_report" [report_baton self]
  | RAbort => EvSvn "abort_report" [report_baton self]
  end.

Definition revision_fits (op : report_op) : bool :=
  match op with
  | RSetPath _ revision _ => in_range (- 2 ^ 63) (2 ^ 63 - 1) revision
  | _ => true
  end.

End Checks.
Export Checks.

(** ** More of the small repository *)

Module Examples.

(** A Python editor whose objects are numbered: every method but [close]
    returns the next object. *)
Definition tree_editor : PyEnv :=
  fun o meth _ =>
    match o, meth with
    | PyRef n, "close" => PyReturn Py_None
    | PyRef n, _ => PyReturn (PyRef (S n))
    | _, _ => PyRaise TypeError
    end.

(** A directory of a commit editor whose pool is pool 1. *)
Definition a_directory_editor : EditorObject :=
  mkEditor (fun _ _ => None) (COpaque 0) (Some 1%nat) "DirectoryEditor".

(** The batons libsvn hands out are numbered by the entry's name. *)
Definition numbered_batons : string -> list CVal -> CVal :=
  fun entry _ => COpaque (String.length entry).

(** A server that cannot be reached. *)
Definition unreachable : svn_error_t := mk_svn_error 175002 "connection refused".

Definition no_answers : svn_ra_answers_t :=
  mk_answers (inl unreachable) (inl unreachable) (fun _ => inl unreachable)
    (fun _ => inl unreachable) (fun _ => inl unreachable).

(** The latest revision is 9; every revision carries a log message and
    an author; trunk/README was changed in revisions 7 and 9. *)
Definition some_answers : svn_ra_answers_t :=
  mk_answers (inr 9) (inr "http://svn.example.org/repo")
    (fun _ => inr 1)
    (fun _ => inr (Some [("svn:log", "fix"); ("svn:author", "jelmer")]))
    (fun _ => inr [mk_file_rev "/trunk/README" 7 (Some [("svn:log", "add")]);
                   mk_file_rev "/trunk/README" 9 None]).

(** A stream that fails on every read. *)
Definition broken_stream : PyEnv := fun _ _ _ => PyRaise (Raised "IOError").

End Examples.
Export Examples.

#[local] Open Scope list_scope.


(** * Theorems *)

(** ** Monad, frame and marshalling facts shared by the proofs *)

Lemma bind_Some {A B} (m : M A) (k : A -> M B) (w w' : World) (a : A) :
  m w = Some (a, w') -> bind m k w = k a w'.
Proof. intros H. unfold bind. rewrite H. reflexivity. Qed.

Lemma bind_pure {A B} (a : A) (k : A -> M B) (w : World) :
  bind (pure a) k w = k a w.
Proof. reflexivity. Qed.

Lemma bind_inv {A B} (m : M A) (k : A -> M B) (w w2 : World) (b : B) :
  bind m k w = Some (b, w2) ->
  exists a w1, m w = Some (a, w1) /\ k a w1 = Some (b, w2).
Proof.
  unfold bind. destruct (m w) as [[a w1]|] eqn:E; [|discriminate].
  intros H. exists a, w1. split; [reflexivity | exact H].
Qed.

Lemma local_store_eq (fr : Frame) (x : string) (c : CVal) :
  local (<[x := c]> fr) x = c.
Proof. unfold local, Frame in *. apply lookup_total_insert_eq. Qed.

Lemma local_store_ne (fr : Frame) (x y : string) (c : CVal) :
  x <> y -> local (<[x := c]> fr) y = local fr y.
Proof. unfold local, Frame in *. intros H. by apply lookup_total_insert_ne. Qed.

(** Reads of a frame after the stores of the source. *)
Ltac frame_simpl :=
  repeat first
    [ rewrite local_store_eq
    | rewrite local_store_ne by discriminate ].

(** Runs a function of the binding on symbolic arguments. *)
Ltac run :=
  unfold trace_after, result_of, err_after, PyArg_ParseTuple,
    PyArg_ParseTupleAndKeywords, parse_values, PyObject_CallFunction,
    PyObject_CallMethod, PyObject_Call, RUN_SVN_WITH_POOL, if_error,
    svn_call, check_error, PyErr_SetSubversionException, Pool,
    apr_pool_create, apr_pool_destroy, PyObject_New, py_svn_error,
    defined, bind, emit, PyErr_Set, pure, undefined;
  cbn.

(** One step backwards through a run that is known to have returned. *)
Ltac step H :=
  lazymatch type of H with
  | bind _ _ _ = Some _ =>
      let a := fresh "a" in
      let w := fresh "w" in
      let E := fresh "E" in
      apply bind_inv in H as (a & w & E & H)
  | pure _ _ = Some _ => unfold pure in H; inversion H; subst; clear H
  | undefined _ = Some _ => discriminate H
  | None = Some _ => discriminate H
  | defined ?o _ = Some _ =>
      destruct o eqn:?; cbn [defined] in H; [|discriminate H]
  | (match ?x with _ => _ end) _ = Some _ => destruct x eqn:?
  | (if ?b then _ else _) _ = Some _ => destruct b eqn:?
  | (let '(_, _) := ?x in _) _ = Some _ => destruct x eqn:?
  end.

(** A local that is not among the destinations keeps its content. *)
Lemma convert_args_untouched (x : string) (us : list ascii)
    (vals : list (option PyObject)) (dests : list (option string)) (fr : Frame)
    (r : option PyExc * Frame) :
  ~ In (Some x) dests ->
  convert_args us vals dests fr = Some r ->
  local (snd r) x = local fr x.
Proof.
  revert vals dests fr.
  induction us as [|u us IH]; intros vals dests fr Hx H;
    [injection H as <-; reflexivity|].
  destruct vals as [|[o|] vals]; cbn in H; [injection H as <-; reflexivity| |].
  - destruct (parse_unit u o) as [c|e]; [|injection H as <-; reflexivity].
    destruct dests as [|[d|] dests]; cbn in H; [| |discriminate H].
    + apply (IH _ [] _ (fun F : In (Some x) [] => F) H).
    + rewrite (IH _ _ _ (fun F => Hx (or_intror F)) H).
      apply local_store_ne. intros ->. apply Hx. left. reflexivity.
  - apply (IH _ _ _) in H; [exact H|].
    intros F. destruct dests; cbn in F; [destruct F|].
    apply Hx. right. exact F.
Qed.

(** A store to such a local commutes with the whole parse. *)
Lemma convert_args_store_comm (x : string) (c : CVal) (us : list ascii)
    (vals : list (option PyObject)) (dests : list (option string)) (fr : Frame) :
  ~ In (Some x) dests ->
  convert_args us vals dests (<[x := c]> fr)
    = option_map (fun r => (fst r, <[x := c]> (snd r)))
        (convert_args us vals dests fr).
Proof.
  revert vals dests fr.
  induction us as [|u us IH]; intros vals dests fr Hx; [reflexivity|].
  destruct vals as [|[o|] vals]; cbn; [reflexivity| |].
  - destruct (parse_unit u o) as [v|e]; [|reflexivity].
    destruct dests as [|[d|] dests]; cbn; [| |reflexivity].
    + apply IH. intros [].
    + assert (d <> x) by (intros ->; apply Hx; left; reflexivity).
      unfold Frame in *.
      rewrite (insert_insert_ne fr) by congruence.
      apply IH. intros H1; apply Hx; right; exact H1.
  - apply IH. intros H. destruct dests; cbn in H; [destruct H|].
    apply Hx. right. exact H.
Qed.

(** A parse whose destinations are all addresses of locals is defined. *)
Lemma convert_args_defined (us : list ascii) (vals : list (option PyObject))
    (dests : list (option string)) (fr : Frame) :
  ~ In None dests -> is_Some (convert_args us vals dests fr).
Proof.
  revert vals dests fr.
  induction us as [|u us IH]; intros vals dests fr Hd; [eexists; reflexivity|].
  destruct vals as [|[o|] vals]; cbn; [eexists; reflexivity| |].
  - destruct (parse_unit u o) as [c|e]; [|eexists; reflexivity].
    destruct dests as [|[d|] dests]; cbn.
    + apply IH. exact Hd.
    + apply IH. intros F. apply Hd. right. exact F.
    + contradiction Hd. left. reflexivity.
  - apply IH. intros F. destruct dests; cbn in F; [destruct F|].
    apply Hd. right. exact F.
Qed.

(** The argument parser touches neither the trace nor the pools. *)
Lemma parse_values_quiet (format : string) (vals : list (option PyObject))
    (given : nat) (dests : list (option string)) (fr : Frame)
    (w w' : World) (r : bool * Frame) :
  parse_values format vals given dests fr w = Some (r, w') ->
  trace w' = trace w /\ next_pool w' = next_pool w
  /\ heap_full w' = heap_full w.
Proof.
  unfold parse_values. intros H.
  destruct (_ || _)%bool; [inversion H; auto|].
  destruct (convert_args _ _ _ _) as [[[e|] fr']|]; inversion H; auto.
Qed.

Lemma convert_args_O (us : list ascii) (o : PyObject)
    (vals : list (option PyObject)) (x : string) (dests : list (option string))
    (fr : Frame) :
  convert_args ("O"%char :: us) (Some o :: vals) (Some x :: dests) fr
    = convert_args us vals dests (<[x := CObj o]> fr).
Proof. reflexivity. Qed.

(** ** C1: the checksum handed to a file handle's close *)

(** C1 (code defect). When libsvn finishes a file WITH a text checksum,
    [py_cb_editor_close_file] calls the handle's [close] with no argument
    at all, and when it finishes the file WITHOUT a checksum it calls
    [close(None)]: the test on [text_checksum] is inverted, so the
    checksum never reaches the handle. *)
Theorem close_file_checksum_inverted
    (py : PyEnv) (self : PyObject) (checksum : string) (w : World) :
  trace_after (py_cb_editor_close_file py (CObj self) (CStr checksum)) w
    = Some (trace w ++ [EvPyCall self "close" []])
  /\ trace_after (py_cb_editor_close_file py (CObj self) CNull) w
    = Some (trace w ++ [EvPyCall self "close" [Py_None]]).
Proof.
  split; unfold py_cb_editor_close_file; run.
  - destruct (py self "close" []); reflexivity.
  - destruct (py self "close" [Py_None]); reflexivity.
Qed.

(** The opposite direction does it right: a checksum given to the
    [close] of a file editor object goes to libsvn's close_file, and a
    missing one goes as NULL. *)
Lemma py_file_editor_close_passes_checksum
    (stack : Frame) (self : EditorObject) (checksum : string) (w : World) :
  trace_after (py_file_editor_close stack self [PyString checksum]) w
    = Some (trace w ++ [EvSvn "close_file" [editor_baton self; CStr checksum]])
  /\ trace_after (py_file_editor_close stack self []) w
    = Some (trace w ++ [EvSvn "close_file" [editor_baton self; CNull]]).
Proof.
  split; unfold py_file_editor_close; run; frame_simpl;
    destruct (editor self _ _); reflexivity.
Qed.

(** So does the sibling callback for copy sources: [add_file] gets the
    copy source exactly when libsvn supplied one. *)
Lemma py_cb_editor_add_file_passes_copy_source
    (py : PyEnv) (self : PyObject) (path src : string) (rev : Z) (w : World) :
  trace_after (py_cb_editor_add_file py path (CObj self) (CStr src) rev) w
    = Some (trace w ++ [EvPyCall self "add_file"
                          [PyString path; PyString src; PyLong rev]])
  /\ trace_after (py_cb_editor_add_file py path (CObj self) CNull rev) w
    = Some (trace w ++ [EvPyCall self "add_file" [PyString path]]).
Proof.
  split; unfold py_cb_editor_add_file; run.
  - destruct (py self "add_file" _); reflexivity.
  - destruct (py self "add_file" _); reflexivity.
Qed.

(** ** C2: bulk lock *)

(** C2 (code defect). [ra_lock] never returns success: whatever the
    arguments, the repository and the callback do, a run that returns
    at all returns NULL, also when svn_ra_lock reported no error. *)
Theorem ra_lock_never_returns_success
    (py : PyEnv) (stack : Frame) (self : RemoteAccessObject)
    (args : list PyObject) (w : World) :
  result_of (ra_lock py stack self args) w = None
  \/ result_of (ra_lock py stack self args) w = Some NULL.
Proof.
  unfold result_of.
  destruct (ra_lock py stack self args w) as [[r w']|] eqn:H;
    [right|left; reflexivity].
  cbn. f_equal.
  unfold ra_lock in H.
  repeat step H; reflexivity.
Qed.

(** The batch of the specification, three paths of which one is locked by
    somebody else, with integer revisions: the hash handed to svn_ra_lock
    is empty (the value stored for a path is [PyString_AsString] of the
    revision, NULL for an integer, which deletes the entry), the callback
    is not invoked at all, and the call returns NULL with TypeError set. *)
Lemma lock_batch_of_three :
  ra_lock quiet ∅ session
    [three_paths (PyLong 1) (PyLong 2) (PyLong 3); PyString "mine";
     PyBool false; PyRef 9] started
  = Some (NULL,
          mkWorld (Some TypeError)
            [EvPoolCreate 0 None; EvPoolCreate 1 (Some 0%nat);
             EvSvn "svn_ra_lock" [CHash []; CStr "mine"; CInt 0];
             EvPoolDestroy 1]
            2 false).
Proof. vm_compute. reflexivity. Qed.

(** With revisions given as strings the three paths reach svn_ra_lock and
    the callback is invoked once per path, but what it receives as the
    lock is None for every path, and the call still returns NULL. *)
Lemma lock_batch_of_three_strings :
  option_map (fun r => (fst r, py_calls (trace (snd r))))
    (ra_lock quiet ∅ session
       [three_paths (PyString "1") (PyString "2") (PyString "3");
        PyString "mine"; PyBool false; PyRef 9] started)
  = Some (NULL,
          [EvPyCall (PyRef 9) ""
             [PyString "branches/b"; PyLong 1; Py_None;
              PyExcInstance (SubversionException 160035 "Path is already locked")];
           EvPyCall (PyRef 9) "" [PyString "trunk/c"; PyLong 1; Py_None; Py_None];
           EvPyCall (PyRef 9) "" [PyString "trunk/a"; PyLong 1; Py_None; Py_None]]).
Proof. vm_compute. reflexivity. Qed.

(** ** C3: get_log *)

(** C3 (code defect). When the arguments of [get_log] are valid (a
    callback, a path list and two revisions that fit a C long),
    [ra_get_log] returns NULL at once: the world is unchanged, so no pool
    was created, libsvn was not asked for any revision and the callback
    was not invoked.  The test on the result of the argument parser lacks
    its negation. *)
Theorem ra_get_log_valid_arguments_return_NULL
    (py : PyEnv) (stack : Frame) (self : RemoteAccessObject)
    (callback paths : PyObject) (start end_ : Z) (w : World) :
  in_range (- 2 ^ 63) (2 ^ 63 - 1) start = true ->
  in_range (- 2 ^ 63) (2 ^ 63 - 1) end_ = true ->
  ra_get_log py stack self [callback; paths; PyLong start; PyLong end_] ∅ w
    = Some (NULL, w).
Proof.
  intros Hs He. unfold ra_get_log, PyArg_ParseTupleAndKeywords, known_keywords.
  rewrite map_to_list_empty. cbn [map forallb negb length drop].
  rewrite !lookup_empty.
  run. rewrite Hs; cbn. rewrite He; cbn.
  reflexivity.
Qed.

Lemma ra_get_log_valid_arguments_witness :
  in_range (- 2 ^ 63) (2 ^ 63 - 1) 1 = true
  /\ in_range (- 2 ^ 63) (2 ^ 63 - 1) 10 = true
  /\ ra_get_log quiet ∅ session
       [PyRef 9; PyList [PyString "trunk"]; PyLong 1; PyLong 10] ∅ started
     = Some (NULL, started).
Proof.
  split; [reflexivity|]. split; [reflexivity|].
  apply (ra_get_log_valid_arguments_return_NULL quiet ∅ session (PyRef 9)
           (PyList [PyString "trunk"]) 1 10 started); reflexivity.
Defined.

(** Only a call whose arguments do NOT parse reaches libsvn: here the end
    revision is a string, so [end] is still what the stack held (no object
    at all for an empty stack), the two messages of the repository are
    delivered, and None is returned with the parser's TypeError set. *)
Lemma ra_get_log_runs_on_invalid_arguments :
  option_map (fun r => (fst r, py_err (snd r), length (py_calls (trace (snd r)))))
    (ra_get_log quiet ∅ session
       [PyRef 9; PyList [PyString "trunk"]; PyLong 1; PyString "HEAD"] ∅ started)
  = Some (Some Py_None, Some TypeError, 2%nat).
Proof. vm_compute. reflexivity. Qed.

(** The tuple of a changed path is always built, and so is the dict of
    the changed paths. *)
Lemma changed_paths_dict_run (paths : list (string * svn_log_changed_path_t))
    (d : gmap string PyObject) (w : World) :
  exists d', changed_paths_dict paths d w = Some (d', w).
Proof.
  revert d. induction paths as [|[key val] rest IH]; intros d.
  - exists d. reflexivity.
  - cbn [changed_paths_dict].
    assert (exists t, changed_path_tuple val = Some t) as [t Ht]
      by (unfold changed_path_tuple; destruct (copyfrom_path val);
          eexists; reflexivity).
    rewrite Ht. cbn [defined]. rewrite bind_pure. apply IH.
Qed.

Lemma py_changed_paths_run
    (paths : option (list (string * svn_log_changed_path_t))) (w : World) :
  exists py_changed_paths,
    match paths with
    | None => pure Py_None
    | Some paths => let* d := changed_paths_dict paths ∅ in pure (PyDict d)
    end w = Some (py_changed_paths, w)
    /\ (py_changed_paths = Py_None <-> paths = None).
Proof.
  destruct paths as [paths|].
  - destruct (changed_paths_dict_run paths ∅ w) as [d Hd].
    exists (PyDict d). split.
    + erewrite bind_Some by exact Hd. reflexivity.
    + split; discriminate.
  - exists Py_None. split; [reflexivity|]. split; reflexivity.
Qed.

(** The receiver cannot cancel: [py_svn_log_wrapper] reports success to
    libsvn whatever the callback did, so every message is delivered. *)
Lemma log_receiver_cannot_cancel
    (py : PyEnv) (callback : PyObject) (msgs : list log_message) (w : World) :
  exists w',
    deliver (py_svn_log_wrapper py (CObj callback)) msgs w = Some (NULL, w')
    /\ length (py_calls (trace w')) = (length (py_calls (trace w)) + length msgs)%nat.
Proof.
  revert w. induction msgs as [|m rest IH]; intros w.
  - exists w. split; [reflexivity | cbn; lia].
  - assert (H1 : exists w1,
               py_svn_log_wrapper py (CObj callback) m w = Some (NULL, w1)
               /\ length (py_calls (trace w1)) = S (length (py_calls (trace w)))).
    { unfold py_svn_log_wrapper.
      destruct (py_changed_paths_run (changed_paths m) w) as (cp & Hcp & _).
      erewrite bind_Some by exact Hcp. run.
      destruct (py callback "" _); cbn; eexists; split; try reflexivity;
        cbn; unfold py_calls; rewrite List.filter_app, length_app; cbn; lia. }
    destruct H1 as (w1 & E1 & L1).
    destruct (IH w1) as (w2 & E2 & L2).
    exists w2. split.
    + cbn. erewrite bind_Some by exact E1. exact E2.
    + rewrite L2, L1. cbn. lia.
Qed.

(** ** C4: pools *)

(** C4 (code defect). [txdelta_send_stream] creates its pool in the
    declaration of [pool], before the arguments are parsed.  Called with
    one argument instead of two it returns NULL and the only event of the
    call is the creation of the pool: the pool is never destroyed. *)
Theorem txdelta_send_stream_leaks_pool
    (sent : list CVal -> svn_error_t + string) (stack : Frame)
    (stream : PyObject) (w : World) :
  result_of (txdelta_send_stream sent stack [stream]) w = Some NULL
  /\ trace_after (txdelta_send_stream sent stack [stream]) w
     = Some (trace w ++ [EvPoolCreate (next_pool w) None])
  /\ destroy_count (next_pool w) [EvPoolCreate (next_pool w) None] = 0%nat.
Proof.
  repeat split; unfold txdelta_send_stream; run; reflexivity.
Qed.

(** What the discipline looks like where it is followed: [ra_get_uuid]
    destroys its pool exactly once, whether libsvn fails or not. *)
Lemma ra_get_uuid_destroys_pool_once (self : RemoteAccessObject) (w : World) :
  trace_after (ra_get_uuid self) w
    = Some (trace w ++ [EvPoolCreate (next_pool w) (ra_pool self);
                        EvSvn "svn_ra_get_uuid" [];
                        EvPoolDestroy (next_pool w)])
  /\ destroy_count (next_pool w)
       [EvPoolCreate (next_pool w) (ra_pool self); EvSvn "svn_ra_get_uuid" [];
        EvPoolDestroy (next_pool w)] = 1%nat.
Proof.
  split.
  - unfold ra_get_uuid, svn_ra_get_uuid; run.
    destruct (repos_uuid (ra self)); cbn; rewrite <- !app_assoc; reflexivity.
  - cbn. rewrite Nat.eqb_refl. reflexivity.
Qed.

(** A reporter takes the pool of [ra_do_update] with it and
    [reporter_dealloc] destroys it. *)
Lemma ra_do_update_hands_pool_to_reporter :
  option_map (fun r => (option_map reporter_pool (fst r), trace (snd r)))
    (ra_do_update ∅ session
       [PyLong 7; PyString "trunk"; PyBool true; PyRef 3] started)
  = Some (Some (Some 1%nat),
          [EvPoolCreate 0 None; EvPoolCreate 1 (Some 0%nat);
           EvSvn "svn_ra_do_update"
             [CInt 7; CStr "trunk"; CInt 1; CObj (PyRef 3)]])
  /\ trace_after (reporter_dealloc a_reporter) started
     = Some [EvPoolCreate 0 None; EvPoolDestroy 1].
Proof. split; vm_compute; reflexivity. Qed.

(** When the reporter object cannot be allocated, [ra_do_update] returns
    NULL and its pool stays undestroyed as well. *)
Lemma ra_do_update_out_of_memory_leaks_pool :
  option_map (fun r => (fst r, trace (snd r)))
    (ra_do_update ∅ session
       [PyLong 7; PyString "trunk"; PyBool true; PyRef 3]
       (mkWorld None [EvPoolCreate 0 None] 1 true))
  = Some (NULL,
          [EvPoolCreate 0 None; EvPoolCreate 1 (Some 0%nat);
           EvSvn "svn_ra_do_update"
             [CInt 7; CStr "trunk"; CInt 1; CObj (PyRef 3)]]).
Proof. vm_compute. reflexivity. Qed.

(** ** C5: link_path *)

(** A successful parse of [link_path]'s arguments has stored the
    [start_empty] byte of the caller into the pointer [lock_token]. *)
Lemma link_path_lock_token_clobbered (stack : Frame) (args : list PyObject)
    (w w' : World) (fr : Frame) :
  link_path_parse stack args w = Some ((true, fr), w') ->
  exists z, local fr "lock_token" = CInt z.
Proof.
  unfold link_path_parse, PyArg_ParseTuple, parse_values. intros H.
  destruct args as [|a1 [|a2 [|a3 [|a4 [|a5 [|a6 rest]]]]]];
    cbn -[parse_unit] in H; try discriminate H.
  all: destruct (parse_unit "s" a1) as [c1|]; try discriminate H.
  all: destruct (parse_unit "s" a2) as [c2|]; try discriminate H.
  all: destruct (parse_unit "l" a3) as [c3|]; try discriminate H.
  all: destruct (parse_unit "b" a4) as [c4|] eqn:E4; try discriminate H.
  all: assert (Hc : exists z, c4 = CInt z)
         by (unfold parse_unit in E4; destruct (as_integer a4); [|discriminate];
             destruct (in_range _ _ _); [|discriminate];
             injection E4 as <-; eauto).
  all: destruct Hc as [z ->].
  all: cbn -[parse_unit] in H; unfold pure in H; injection H as <- _.
  all: exists z; frame_simpl; reflexivity.
Qed.

(** C5 (code defect). [reporter_link_path] never assigns [revision]: the
    argument parser is given five format units and four destinations,
    none of them [&revision], so after parsing --- whatever the caller
    passed --- [revision] still holds what the stack held.  And no call
    records an entry: a call whose arguments parse has overwritten
    [lock_token] and has no defined behaviour once it reads the token;
    a call whose arguments do not parse returns NULL without a report. *)
Theorem link_path_never_reports_caller_revision
    (stack : Frame) (self : ReporterObject) (args : list PyObject) (w : World) :
  (exists ok fr w',
      link_path_parse stack args w = Some ((ok, fr), w')
      /\ local fr "revision" = local stack "revision")
  /\ (reporter_link_path stack self args w = None
      \/ exists w', reporter_link_path stack self args w = Some (NULL, w')
                    /\ trace w' = trace w).
Proof.
  split.
  - unfold link_path_parse, PyArg_ParseTuple, parse_values.
    destruct (_ || _)%bool.
    + run. eexists _, _, _. split; [reflexivity|].
      apply local_store_ne. discriminate.
    + match goal with
      | |- context [convert_args ?us ?vals ?dests ?fr] =>
          assert (Hnone : ~ In None dests)
            by (cbn; intros [H|[H|[H|[H|[]]]]]; discriminate H);
          assert (Hrevd : ~ In (Some "revision") dests)
            by (cbn; intros [H|[H|[H|[H|[]]]]]; discriminate H);
          destruct (convert_args_defined us vals dests fr Hnone) as [[e fr'] E];
          pose proof (convert_args_untouched "revision" us vals dests fr _
                        Hrevd E) as Hrev;
          rewrite E
      end.
      cbn in Hrev. rewrite local_store_ne in Hrev by discriminate.
      destruct e; run; eexists _, _, _; (split; [reflexivity|]); exact Hrev.
  - unfold reporter_link_path.
    destruct (link_path_parse stack args w) as [[[ok fr] w1]|] eqn:E.
    + erewrite bind_Some by exact E. destruct ok; cbn.
      * destruct (link_path_lock_token_clobbered _ _ _ _ _ E) as [z Hz].
        left. unfold c_lock_token. rewrite Hz. reflexivity.
      * right. exists w1. split; [reflexivity|].
        unfold link_path_parse, PyArg_ParseTuple in E.
        apply parse_values_quiet in E as [T _]. exact T.
    + left. unfold bind. rewrite E. reflexivity.
Qed.

(** The failing call: link_path("trunk", url, 7, False) on a stack that
    holds 0.  The 7 lands in [start_empty], the False in [lock_token],
    [revision] is 0, and the call has no defined behaviour. *)
Lemma link_path_revision_7_is_lost :
  option_map (fun r => let fr := snd (fst r) in
                       (local fr "revision", local fr "start_empty",
                        local fr "lock_token"))
    (link_path_parse zeroed_stack
       [PyString "trunk"; PyString "http://svn.example.org/repo/branches/b";
        PyLong 7; PyBool false] started)
  = Some (CInt 0, CInt 7, CInt 0)
  /\ reporter_link_path zeroed_stack a_reporter
       [PyString "trunk"; PyString "http://svn.example.org/repo/branches/b";
        PyLong 7; PyBool false] started = None.
Proof. split; vm_compute; reflexivity. Qed.

(** The sibling [reporter_set_path] passes [&revision], and the entry it
    reports carries the caller's revision. *)
Lemma set_path_reports_caller_revision
    (stack : Frame) (self : ReporterObject) (path : string) (revision : Z)
    (start_empty : bool) (w : World) :
  in_range (- 2 ^ 63) (2 ^ 63 - 1) revision = true ->
  trace_after (reporter_set_path stack self
                 [PyString path; PyLong revision; PyBool start_empty]) w
  = Some (trace w ++ [EvSvn "set_path"
                        [report_baton self; CStr path; CInt revision;
                         CInt (Z.b2z start_empty); CNull]]).
Proof.
  intros Hr. unfold reporter_set_path; run. rewrite Hr; cbn.
  destruct start_empty; cbn; frame_simpl; cbn;
    destruct (reporter self _ _); reflexivity.
Qed.

(** ** C6: check_path *)

(** C6 (code defect). [ra_check_path] hands the argument parser the
    value of the uninitialised [revision] where the address of [revision]
    belongs, and the parser stores the caller's revision through it.  A
    call with a path and a revision therefore has no defined behaviour,
    and libsvn is never asked about the caller's revision: a run of
    [ra_check_path] that returns at all returns NULL and has asked libsvn
    nothing. *)
Theorem check_path_stores_through_wild_pointer
    (stack : Frame) (self : RemoteAccessObject) (w : World) :
  (forall (path : string) (revision : Z),
      in_range (- 2 ^ 63) (2 ^ 63 - 1) revision = true ->
      ra_check_path stack self [PyString path; PyLong revision] w = None)
  /\ (forall (args : list PyObject) (r : option PyObject) (w' : World),
        ra_check_path stack self args w = Some (r, w') ->
        r = NULL /\ trace w' = trace w).
Proof.
  split.
  - intros path revision Hr. unfold ra_check_path; run. rewrite Hr. reflexivity.
  - intros args r w' H. unfold ra_check_path in H.
    step H. destruct a as [ok fr].
    assert (Hok : ok = false).
    { destruct ok; [exfalso|reflexivity].
      unfold PyArg_ParseTuple, parse_values in E.
      destruct args as [|a1 [|a2 [|a3 rest]]]; cbn -[parse_unit] in E;
        try discriminate E.
      destruct (parse_unit "s" a1); [|discriminate E].
      destruct (parse_unit "l" a2); discriminate E. }
    subst ok. cbn [negb] in H. step H.
    split; [reflexivity|].
    unfold PyArg_ParseTuple in E. apply parse_values_quiet in E as [T _]. exact T.
Qed.

(** trunk/README is a file at revision 7, but check_path("trunk/README",
    7) never gets as far as asking. *)
Lemma check_path_at_7_is_undefined :
  in_range (- 2 ^ 63) (2 ^ 63 - 1) 7 = true
  /\ node_kind_at repository (CStr "trunk/README") (CInt 7) = inr svn_node_file
  /\ ra_check_path zeroed_stack session [PyString "trunk/README"; PyLong 7]
       started = None.
Proof.
  split; [reflexivity|]. split; [reflexivity|].
  apply (proj1 (check_path_stores_through_wild_pointer zeroed_stack session
                  started) "trunk/README" 7).
  reflexivity.
Defined.

(** ** C7: the fields of a directory entry *)








(** ** C8: lock values *)

(** Once a pool is destroyed, what was allocated in it cannot be read. *)
Lemma pool_read_after_destroy {A} (pool : apr_pool_t) (x : A) (w w1 : World) :
  apr_pool_destroy pool w = Some (tt, w1) -> pool_read pool x w1 = None.
Proof.
  destruct pool as [p|]; [|discriminate]. intros [= <-].
  unfold pool_read, destroyed. cbn. rewrite existsb_app. cbn.
  rewrite Nat.eqb_refl, orb_true_r. reflexivity.
Qed.

(** C8 (code defect). No lock value of the binding carries the seven
    attributes.  [pyify_lock], behind get_locks and the lock-notification
    callback, turns every lock into None.  [wrap_lock], behind get_lock,
    has a format of six units for the seven attributes, and its fourth
    to sixth units read the comment, the DAV flag and the creation date
    as values of another C type: building the value is undefined for
    every lock.  So get_lock never returns a lock: a run of [ra_get_lock]
    that returns at all returns NULL. *)
Theorem lock_values_lack_attributes (lock : svn_lock_t) :
  pyify_lock (Some lock) = Py_None
  /\ length (units wrap_lock_format) = 6%nat
  /\ length (wrap_lock_arguments lock) = 7%nat
  /\ wrap_lock lock = None
  /\ forall (stack : Frame) (self : RemoteAccessObject) (args : list PyObject)
            (w w' : World) (r : option PyObject),
       ra_get_lock stack self args w = Some (r, w') -> r = NULL.
Proof.
  split; [reflexivity|]. split; [reflexivity|]. split; [reflexivity|].
  split.
  - unfold wrap_lock, wrap_lock_arguments, marshal_string.
    destruct (lock_comment lock); reflexivity.
  - intros stack self args w w' r H.
    unfold ra_get_lock, RUN_SVN_WITH_POOL, if_error in H.
    repeat step H; try reflexivity.
    match goal with
    | Hd : apr_pool_destroy ?p _ = Some (?u, ?w1),
      Hr : pool_read ?p _ ?w1 = Some _ |- _ =>
        destruct u; rewrite (pool_read_after_destroy _ _ _ _ Hd) in Hr;
          discriminate Hr
    end.
Qed.

Lemma foldl_insert_const {A} (c : PyObject) (l : list (string * A))
    (d : gmap string PyObject) :
  map_Forall (fun _ v => v = c) d ->
  map_Forall (fun _ v => v = c)
    (foldl (fun (d : gmap string PyObject) kv => <[fst kv := c]> d) d l).
Proof.
  revert d. induction l as [|[k a] l IH]; intros d Hd; cbn; [exact Hd|].
  apply IH. apply map_Forall_insert_2; [reflexivity | exact Hd].
Qed.

(** Every value of the mapping get_locks returns is None. *)
Lemma get_locks_values_are_None (stack : Frame) (self : RemoteAccessObject)
    (args : list PyObject) (w w' : World) (d : gmap string PyObject)
    (path : string) (v : PyObject) :
  ra_get_locks stack self args w = Some (Some (PyDict d), w') ->
  d !! path = Some v -> v = Py_None.
Proof.
  unfold ra_get_locks, if_error. intros H Hv.
  repeat step H.
  eapply (foldl_insert_const Py_None _ ∅); [apply map_Forall_empty | exact Hv].
Qed.

(** The lock-notification callback gets None where the lock belongs. *)
Lemma lock_callback_receives_None
    (py : PyEnv) (callback : PyObject) (path : string) (lock : svn_lock_t)
    (w : World) :
  trace_after (py_lock_func py (CObj callback) path true (Some lock) NULL) w
    = Some (trace w ++ [EvPyCall callback ""
                          [PyString path; PyLong 1; Py_None; Py_None]]).
Proof.
  unfold py_lock_func; run. destruct (py callback "" _); reflexivity.
Qed.

(** get_lock on a locked path of the small repository: the lock libsvn
    found is never turned into a value. *)
Lemma get_lock_on_locked_path_is_undefined :
  lock_on repository (CStr "trunk/README") = inr (Some (lock_of "trunk/README"))
  /\ ra_get_lock ∅ session [PyString "trunk/README"] started = None.
Proof. split; vm_compute; reflexivity. Qed.

(** ** C9: the revision properties of a commit *)

(** Keywords are checked by name only. *)
Lemma known_keywords_spec (kwargs : gmap string PyObject) (free : list string) :
  known_keywords kwargs free = true
  <-> forall k v, kwargs !! k = Some v -> In k free.
Proof.
  unfold known_keywords. rewrite forallb_forall. split.
  - intros H k v Hk.
    assert (Hin : In k (map fst (map_to_list kwargs))).
    { apply in_map_iff. exists (k, v). split; [reflexivity|].
      apply list_elem_of_In. apply elem_of_map_to_list. exact Hk. }
    apply H in Hin. apply existsb_exists in Hin as (k' & Hk' & Heq).
    apply String.eqb_eq in Heq. subst. exact Hk'.
  - intros H k Hin. apply in_map_iff in Hin as ([k' v] & <- & Hin).
    apply list_elem_of_In in Hin. apply elem_of_map_to_list in Hin.
    apply existsb_exists. exists k'. split; [exact (H _ _ Hin)|].
    apply String.eqb_refl.
Qed.

Lemma known_keywords_insert (kwargs : gmap string PyObject) (free : list string)
    (k : string) (v1 v2 : PyObject) :
  known_keywords (<[k := v1]> kwargs) free
  = known_keywords (<[k := v2]> kwargs) free.
Proof.
  apply eq_true_iff_eq. rewrite !known_keywords_spec.
  split; intros H k' v Hk'; destruct (decide (k = k')) as [->|Hne].
  - apply (H k' v1). apply lookup_insert_eq.
  - apply (H k' v). rewrite lookup_insert_ne in * by exact Hne. exact Hk'.
  - apply (H k' v2). apply lookup_insert_eq.
  - apply (H k' v). rewrite lookup_insert_ne in * by exact Hne. exact Hk'.
Qed.

(** [fill_hash] calls nothing. *)
Lemma fill_hash_quiet (items : list (string * PyObject)) (h h' : CVal)
    (w w' : World) :
  fill_hash items h w = Some (h', w') ->
  trace w' = trace w /\ next_pool w' = next_pool w
  /\ heap_full w' = heap_full w.
Proof.
  revert h w. induction items as [|[k v] rest IH]; intros h w H.
  - inversion H. auto.
  - cbn [fill_hash] in H. step H.
    assert (Hq : trace w0 = trace w /\ next_pool w0 = next_pool w
                 /\ heap_full w0 = heap_full w)
      by (destruct v; inversion E; auto).
    destruct h; try discriminate H.
    apply IH in H. destruct H as (-> & -> & ->). exact Hq.
Qed.

(** ... and is defined on every hash. *)
Lemma fill_hash_total (items : list (string * PyObject))
    (entries : list (string * CVal)) (w : World) :
  exists entries' w',
    fill_hash items (CHash entries) w = Some (CHash entries', w')
    /\ trace w' = trace w /\ next_pool w' = next_pool w
    /\ heap_full w' = heap_full w.
Proof.
  revert entries w. induction items as [|[k v] rest IH]; intros entries w.
  - exists entries, w. auto.
  - cbn [fill_hash].
    assert (exists val w1, PyString_AsString (CObj v) w = Some (val, w1)
              /\ trace w1 = trace w /\ next_pool w1 = next_pool w
              /\ heap_full w1 = heap_full w) as (val & w1 & E & T & N & F)
      by (destruct v; eexists _, _; (split; [reflexivity|]); auto).
    erewrite bind_Some by exact E.
    destruct (IH (apr_hash_set entries k val) w1) as (e' & w' & E' & T' & N' & F').
    exists e', w'. split; [exact E'|]. rewrite T', N', F'. auto.
Qed.

(** A local that is only ever the destination of unit [O] holds an object
    after the parse if it held one before. *)
Lemma convert_args_keeps_objects (x : string) (us : list ascii)
    (vals : list (option PyObject)) (dests : list (option string)) (fr : Frame)
    (r : option PyExc * Frame) :
  Forall (fun ud => snd ud = Some x -> fst ud = "O"%char) (zip us dests) ->
  (exists t, local fr x = CObj t) ->
  convert_args us vals dests fr = Some r ->
  exists t, local (snd r) x = CObj t.
Proof.
  revert vals dests fr.
  induction us as [|u us IH]; intros vals dests fr Hu Hx H;
    [injection H as <-; exact Hx|].
  assert (Htail : Forall (fun ud => snd ud = Some x -> fst ud = "O"%char)
                    (zip us (tail dests))).
  { destruct dests as [|d ds]; cbn in Hu |- *.
    - destruct us; constructor.
    - apply Forall_cons in Hu as [_ Hu]. exact Hu. }
  destruct vals as [|[o|] vals]; cbn in H; [injection H as <-; exact Hx| |].
  - destruct (parse_unit u o) as [c|e] eqn:Ec; [|injection H as <-; exact Hx].
    destruct dests as [|[y|] ds]; cbn in H; [| |discriminate H].
    + apply (IH _ _ _ Htail Hx H).
    + apply (IH _ _ _ Htail) in H; [exact H|].
      destruct (decide (y = x)) as [->|Hne].
      * cbn in Hu. apply Forall_cons in Hu as [Hu _].
        pose proof (Hu eq_refl) as Hu'. cbn in Hu'. subst u.
        cbn in Ec. injection Ec as <-.
        exists o. apply local_store_eq.
      * rewrite local_store_ne by exact Hne. exact Hx.
  - apply (IH _ _ _ Htail Hx H).
Qed.

(** After a successful parse [revprops] holds the object the caller
    passed for it, by position or by keyword. *)
Lemma commit_editor_parsed_revprops (args : list PyObject)
    (kwargs : gmap string PyObject) (fr0 fr : Frame) (w w' : World)
    (o : PyObject) :
  PyArg_ParseTupleAndKeywords args kwargs "OO|Ob"
    ["revprops"; "callback"; "lock_tokens"; "keep_locks"]
    [Some "revprops"; Some "commit_callback"; Some "lock_tokens";
     Some "keep_locks"] fr0 w = Some ((true, fr), w') ->
  revprops_given args kwargs = Some o ->
  local fr "revprops" = CObj o.
Proof.
  unfold PyArg_ParseTupleAndKeywords. intros H Ho.
  destruct (negb (known_keywords _ _)); [discriminate H|].
  unfold parse_values in H.
  destruct (_ || _)%bool; [discriminate H|].
  assert (Hvals : exists vals,
             (map Some args
                ++ map (fun k => kwargs !! k)
                     (drop (length args)
                        ["revprops"; "callback"; "lock_tokens"; "keep_locks"]))%list
             = Some o :: vals).
  { destruct args as [|o' rest]; cbn in Ho |- *.
    - rewrite Ho. eexists. reflexivity.
    - injection Ho as ->. eexists. reflexivity. }
  destruct Hvals as [vals Hvals]. rewrite Hvals in H.
  change (units "OO|Ob") with ["O"; "O"; "O"; "b"]%char in H.
  rewrite convert_args_O in H.
  rewrite (convert_args_store_comm "revprops") in H
    by (cbn; intros [F|[F|[F|[]]]]; discriminate F).
  destruct (convert_args _ _ _ _) as [[[e|] fr']|]; cbn in H;
    try discriminate H.
  injection H as <- _. apply local_store_eq.
Qed.

(** Two runs of [get_commit_editor] whose [revprops] agree on "svn:log"
    ([Hitem]) go the same way once the keywords are checked. *)
Ltac same_after_parse Hitem :=
  unfold parse_values;
  cbn -[convert_args Nat.ltb];
  destruct (_ || _)%bool; [reflexivity|];
  rewrite !convert_args_O;
  rewrite !(convert_args_store_comm "revprops")
    by (cbn; intros [?|[?|[?|[]]]]; discriminate);
  destruct (convert_args _ _ _ _) as [[[?|] ?]|]; cbn [option_map fst snd];
    [reflexivity| |reflexivity];
  rewrite !bind_pure; cbn [negb]; frame_simpl;
  rewrite Hitem; reflexivity.

(** C9. [get_commit_editor] looks at nothing of [revprops] but its
    "svn:log" entry, whether the mapping is passed by position or by
    keyword: two mappings that agree on that entry give the same run (same
    result, same calls with the same arguments, same error indicator),
    whatever else they hold; and the message handed to
    svn_ra_get_commit_editor2 is that entry, for a call with positional
    arguments, with keywords only, with both, and in every call that
    returns an editor. *)
Theorem commit_editor_forwards_only_log_message
    (stack : Frame) (self : RemoteAccessObject)
    (d1 d2 : gmap string PyObject) (rest : list PyObject)
    (kwargs : gmap string PyObject) (w : World) :
  d1 !! SVN_PROP_REVISION_LOG = d2 !! SVN_PROP_REVISION_LOG ->
  get_commit_editor stack self (PyDict d1 :: rest) kwargs w
    = get_commit_editor stack self (PyDict d2 :: rest) kwargs w
  /\ (forall (msg : string) (callback : PyObject),
       d1 !! SVN_PROP_REVISION_LOG = Some (PyString msg) ->
       svn_calls "svn_ra_get_commit_editor2"
         <$> trace_after (get_commit_editor stack self [PyDict d1; callback] ∅) w
       = Some (svn_calls "svn_ra_get_commit_editor2" (trace w)
               ++ [[CStr msg; CObj callback; CNull; CInt 0]]))
  /\ get_commit_editor stack self [] (<["revprops" := PyDict d1]> kwargs) w
    = get_commit_editor stack self [] (<["revprops" := PyDict d2]> kwargs) w
  /\ (forall (msg : string) (callback : PyObject),
       d1 !! SVN_PROP_REVISION_LOG = Some (PyString msg) ->
       svn_calls "svn_ra_get_commit_editor2"
         <$> trace_after
               (get_commit_editor stack self []
                  (<["revprops" := PyDict d1]> {["callback" := callback]})) w
       = Some (svn_calls "svn_ra_get_commit_editor2" (trace w)
               ++ [[CStr msg; CObj callback; CNull; CInt 0]])
       /\ svn_calls "svn_ra_get_commit_editor2"
            <$> trace_after
                  (get_commit_editor stack self [PyDict d1]
                     {["callback" := callback]}) w
          = Some (svn_calls "svn_ra_get_commit_editor2" (trace w)
                  ++ [[CStr msg; CObj callback; CNull; CInt 0]]))
  /\ (forall (args : list PyObject) (kw : gmap string PyObject)
             (d : gmap string PyObject) (msg : string)
             (editor : EditorObject) (w' : World),
       get_commit_editor stack self args kw w = Some (Some editor, w') ->
       revprops_given args kw = Some (PyDict d) ->
       d !! SVN_PROP_REVISION_LOG = Some (PyString msg) ->
       exists callback lock_tokens keep_locks,
         svn_calls "svn_ra_get_commit_editor2" (trace w')
         = svn_calls "svn_ra_get_commit_editor2" (trace w)
           ++ [[CStr msg; callback; lock_tokens; keep_locks]])
  /\ (forall (args : list PyObject) (kw : gmap string PyObject)
             (d : gmap string PyObject) (msg : string) (fr : Frame)
             (w0 : World),
       PyArg_ParseTupleAndKeywords args kw "OO|Ob"
         ["revprops"; "callback"; "lock_tokens"; "keep_locks"]
         [Some "revprops"; Some "commit_callback"; Some "lock_tokens";
          Some "keep_locks"]
         (<["lock_tokens" := CObj Py_None]> (<["keep_locks" := CInt 0]> stack)) w
         = Some ((true, fr), w0) ->
       revprops_given args kw = Some (PyDict d) ->
       d !! SVN_PROP_REVISION_LOG = Some (PyString msg) ->
       exists r w' lock_tokens,
         get_commit_editor stack self args kw w = Some (r, w')
         /\ svn_calls "svn_ra_get_commit_editor2" (trace w')
            = svn_calls "svn_ra_get_commit_editor2" (trace w)
              ++ [[CStr msg; local fr "commit_callback"; lock_tokens;
                   local fr "keep_locks"]]).
Proof.
  intros Hlog.
  assert (Hitem : PyDict_GetItemString (CObj (PyDict d1)) SVN_PROP_REVISION_LOG
                  = PyDict_GetItemString (CObj (PyDict d2)) SVN_PROP_REVISION_LOG)
    by (unfold PyDict_GetItemString; rewrite Hlog; reflexivity).
  split; [|split; [|split; [|split; [|split]]]].
  - unfold get_commit_editor, PyArg_ParseTupleAndKeywords.
    destruct (negb (known_keywords _ _)); [reflexivity|].
    same_after_parse Hitem.
  - intros msg callback Hmsg.
    unfold get_commit_editor, PyArg_ParseTupleAndKeywords, known_keywords.
    rewrite map_to_list_empty.
    cbn [length drop map forallb negb]. rewrite !lookup_empty.
    run. frame_simpl. cbn.
    rewrite Hmsg. cbn.
    destruct (reply _ _ _); cbn; unfold new_editor_object, svn_calls; run;
      [|destruct (heap_full w); cbn];
      rewrite !flat_map_app; cbn; rewrite ?app_nil_r; reflexivity.
  - unfold get_commit_editor, PyArg_ParseTupleAndKeywords.
    rewrite (known_keywords_insert kwargs _ "revprops" (PyDict d1) (PyDict d2)).
    destruct (negb (known_keywords _ _)); [reflexivity|].
    cbn [length drop map app].
    rewrite !lookup_insert_eq, !lookup_insert_ne by discriminate.
    same_after_parse Hitem.
  - intros msg callback Hmsg.
    split.
    + unfold get_commit_editor, PyArg_ParseTupleAndKeywords.
      assert (Hk0 : known_keywords
                      (<["revprops" := PyDict d1]> {["callback" := callback]})
                      (drop (length (@nil PyObject))
                         ["revprops"; "callback"; "lock_tokens"; "keep_locks"])
                    = true).
      { apply known_keywords_spec. intros k v Hk. cbn.
        destruct (decide (k = "revprops")) as [->|H1]; [auto|].
        rewrite lookup_insert_ne in Hk by congruence.
        destruct (decide (k = "callback")) as [->|H2]; [auto|].
        rewrite lookup_singleton_ne in Hk by congruence. discriminate Hk. }
      rewrite Hk0.
      cbn [length drop map app negb].
      rewrite !lookup_insert_eq, !lookup_insert_ne by discriminate.
      rewrite lookup_singleton_eq, !lookup_singleton_ne by discriminate.
      run. frame_simpl. cbn.
      rewrite Hmsg. cbn.
      destruct (reply _ _ _); cbn; unfold new_editor_object, svn_calls; run;
        [|destruct (heap_full w); cbn];
        rewrite !flat_map_app; cbn; rewrite ?app_nil_r; reflexivity.
    + unfold get_commit_editor, PyArg_ParseTupleAndKeywords.
      assert (Hk1 : known_keywords ({["callback" := callback]} : gmap string PyObject)
                      (drop (length [PyDict d1])
                         ["revprops"; "callback"; "lock_tokens"; "keep_locks"])
                    = true).
      { apply known_keywords_spec. intros k v Hk. cbn.
        destruct (decide (k = "callback")) as [->|H2]; [auto|].
        rewrite lookup_singleton_ne in Hk by congruence. discriminate Hk. }
      rewrite Hk1.
      cbn [length drop map app negb].
      rewrite lookup_singleton_eq, !lookup_singleton_ne by discriminate.
      run. frame_simpl. cbn.
      rewrite Hmsg. cbn.
      destruct (reply _ _ _); cbn; unfold new_editor_object, svn_calls; run;
        [|destruct (heap_full w); cbn];
        rewrite !flat_map_app; cbn; rewrite ?app_nil_r; reflexivity.
  - intros args kw d msg editor w' H Hgiven Hmsg.
    unfold get_commit_editor in H.
    step H. destruct a as [ok fr].
    destruct ok; cbn [negb] in H; [|step H].
    pose proof (commit_editor_parsed_revprops _ _ _ _ _ _ _ E Hgiven) as Hrev.
    assert (T0 : trace w0 = trace w).
    { unfold PyArg_ParseTupleAndKeywords in E.
      destruct (negb _); [discriminate E|].
      apply parse_values_quiet in E as [T _]. exact T. }
    clear E.
    step H. unfold Pool, apr_pool_create in E. cbn in E.
    injection E as <- <-.
    step H.
    assert (T1 : trace w1 = trace w ++ [EvPoolCreate (next_pool w0) (ra_pool self)]).
    { rewrite <- T0. destruct (is_Py_None _); [inversion E; reflexivity|].
      step E. apply fill_hash_quiet in E as [-> _].
      unfold dict_items in E0. destruct (local fr "lock_tokens");
        try discriminate E0. destruct o; inversion E0; reflexivity. }
    clear E.
    rewrite Hrev in H. unfold PyDict_GetItemString in H. rewrite Hmsg in H.
    rewrite bind_pure in H. unfold PyString_AsString in H.
    rewrite bind_pure in H.
    exists (local fr "commit_callback"), a, (local fr "keep_locks").
    revert H. unfold new_editor_object. run. rewrite T1.
    destruct (reply _ _ _); cbn; [discriminate|].
    destruct (heap_full w1); cbn; [discriminate|].
    intros [= _ <-]. cbn. unfold svn_calls. rewrite !flat_map_app. cbn.
    rewrite ?app_nil_r. reflexivity.
  - intros args kw d msg fr w0 Hparse Hgiven Hmsg.
    pose proof (commit_editor_parsed_revprops _ _ _ _ _ _ _ Hparse Hgiven) as Hrev.
    assert (Hq : trace w0 = trace w /\ exists t, local fr "lock_tokens" = CObj t).
    { unfold PyArg_ParseTupleAndKeywords in Hparse.
      destruct (negb _); [discriminate Hparse|].
      split; [apply parse_values_quiet in Hparse as [T _]; exact T|].
      unfold parse_values in Hparse.
      destruct (_ || _)%bool; [discriminate Hparse|].
      destruct (convert_args _ _ _ _) as [[[e|] fr']|] eqn:Ec;
        try discriminate Hparse.
      injection Hparse as <- _.
      apply (convert_args_keeps_objects "lock_tokens" _ _ _ _ _) in Ec;
        [exact Ec| |].
      - repeat constructor; cbn; intros [=]; reflexivity.
      - exists Py_None. apply local_store_eq. }
    destruct Hq as (T0 & t & Ht).
    assert (Hhash : exists lock_tokens w2,
               (if is_Py_None (local fr "lock_tokens") then pure CNull
                else let* items := dict_items (local fr "lock_tokens") in
                     fill_hash items (CHash apr_hash_make))
                 (mkWorld (py_err w0)
                    (trace w0 ++ [EvPoolCreate (next_pool w0) (ra_pool self)])
                    (S (next_pool w0)) (heap_full w0))
               = Some (lock_tokens, w2)
               /\ trace w2 = trace w ++ [EvPoolCreate (next_pool w0) (ra_pool self)]
               /\ next_pool w2 = S (next_pool w0)).
    { rewrite Ht, <- T0. destruct (is_Py_None (CObj t)).
      - eexists _, _. split; [reflexivity|]. split; reflexivity.
      - match goal with
        | |- context [bind (dict_items _) _ ?w1] =>
            assert (exists items, dict_items (CObj t) w1 = Some (items, w1))
              as [items Hitems]
              by (destruct t; eexists; reflexivity);
            destruct (fill_hash_total items apr_hash_make w1)
              as (h & w2 & Ef & Tf & Nf & _)
        end.
        exists (CHash h), w2. split.
        + erewrite bind_Some by exact Hitems. exact Ef.
        + rewrite Tf, Nf. split; reflexivity. }
    destruct Hhash as (lock_tokens & w2 & Eh & T2 & N2).
    unfold get_commit_editor.
    erewrite bind_Some by exact Hparse. cbn [negb].
    unfold Pool, apr_pool_create. cbn [bind]. unfold bind at 1. cbn.
    erewrite bind_Some by exact Eh.
    rewrite Hrev. unfold PyDict_GetItemString. rewrite Hmsg.
    rewrite bind_pure. unfold PyString_AsString. rewrite bind_pure.
    unfold new_editor_object. run. rewrite T2.
    destruct (reply _ _ _); cbn;
      [|destruct (heap_full w2); cbn];
      eexists _, _, lock_tokens; (split; [reflexivity|]); cbn;
      unfold svn_calls; rewrite !flat_map_app; cbn; rewrite ?app_nil_r;
      reflexivity.
Qed.

Lemma commit_editor_ignores_author_witness :
  ({["svn:log" := PyString "fix"; "svn:author" := PyString "mallory"]}
     : gmap string PyObject) !! SVN_PROP_REVISION_LOG
  = ({["svn:log" := PyString "fix"]} : gmap string PyObject)
      !! SVN_PROP_REVISION_LOG
  /\ get_commit_editor ∅ session
       [PyDict {["svn:log" := PyString "fix"; "svn:author" := PyString "mallory"]};
        PyRef 4] ∅ started
     = get_commit_editor ∅ session
         [PyDict {["svn:log" := PyString "fix"]}; PyRef 4] ∅ started.
Proof.
  assert (Hlog : ({["svn:log" := PyString "fix"; "svn:author" := PyString "mallory"]}
                    : gmap string PyObject) !! SVN_PROP_REVISION_LOG
                 = ({["svn:log" := PyString "fix"]} : gmap string PyObject)
                     !! SVN_PROP_REVISION_LOG)
    by (vm_compute; reflexivity).
  split; [exact Hlog|].
  exact (proj1 (commit_editor_forwards_only_log_message ∅ session _ _
                  [PyRef 4] ∅ started Hlog)).
Defined.

(** The call libsvn sees for the mapping with an author in it. *)
Lemma commit_editor_transmits_log_only :
  option_map (fun r => svn_calls "svn_ra_get_commit_editor2" (trace (snd r)))
    (get_commit_editor ∅ session
       [PyDict {["svn:log" := PyString "fix"; "svn:author" := PyString "mallory"]};
        PyRef 4] ∅ started)
  = Some [[CStr "fix"; CObj (PyRef 4); CNull; CInt 0]].
Proof. vm_compute. reflexivity. Qed.

(** ** C10: the progress callback *)

(** C10 as stated fails: a callback that raises leaves its exception in
    the error indicator, where a callback that returned leaves the
    indicator clear.  The exception is not discarded, and the world after
    the call is not the world after a successful callback. *)
Lemma progress_exception_stays_pending :
  err_after (py_progress_func interrupting 512 4096 (CObj (PyRef 9))) world0
    = Some (Some (Raised "KeyboardInterrupt"))
  /\ err_after (py_progress_func quiet 512 4096 (CObj (PyRef 9))) world0
    = Some None.
Proof. split; reflexivity. Qed.

(** C10 (amended). A progress callback that is None is never invoked: the
    world is unchanged.  Any other callback is invoked exactly once per
    notification with (progress, total); [py_progress_func] returns
    nothing to the transport in either case, so a transfer delivers all
    its notifications whatever the callback does; but an exception the
    callback raised is not cleared: it stays in the error indicator. *)
Theorem progress_callback_contract
    (py : PyEnv) (fn : PyObject) (progress total : Z) (w : World) :
  py_progress_func py progress total (CObj Py_None) w = Some (tt, w)
  /\ (is_Py_None (CObj fn) = false ->
      (exists w',
          py_progress_func py progress total (CObj fn) w = Some (tt, w')
          /\ trace w' = trace w ++ [EvPyCall fn "" [PyLong progress; PyLong total]]
          /\ py_err w' = match py fn "" [PyLong progress; PyLong total] with
                         | PyRaise e => Some e
                         | PyReturn _ => py_err w
                         end)
      /\ forall chunks : list (Z * Z),
          exists w',
            report_progress (fun p t => py_progress_func py p t (CObj fn)) chunks w
              = Some (tt, w')
            /\ trace w' = trace w ++
                 map (fun c => EvPyCall fn "" [PyLong (fst c); PyLong (snd c)]) chunks).
Proof.
  split; [reflexivity|].
  intros Hfn.
  assert (Hone : forall p t w0, exists w',
             py_progress_func py p t (CObj fn) w0 = Some (tt, w')
             /\ trace w' = trace w0 ++ [EvPyCall fn "" [PyLong p; PyLong t]]
             /\ py_err w' = match py fn "" [PyLong p; PyLong t] with
                            | PyRaise e => Some e
                            | PyReturn _ => py_err w0
                            end).
  { intros p t w0. unfold py_progress_func. rewrite Hfn. run.
    destruct (py fn "" [PyLong p; PyLong t]); cbn; eexists; repeat split. }
  split; [apply Hone|].
  intros chunks. revert w.
  induction chunks as [|[p t] rest IH]; intros w.
  - exists w. cbn. rewrite app_nil_r. split; reflexivity.
  - destruct (Hone p t w) as (w1 & E1 & T1 & _).
    destruct (IH w1) as (w2 & E2 & T2).
    exists w2. split.
    + cbn. erewrite bind_Some by exact E1. exact E2.
    + rewrite T2, T1, <- app_assoc. reflexivity.
Qed.

Lemma progress_callback_contract_witness :
  is_Py_None (CObj (PyRef 9)) = false
  /\ exists w',
       py_progress_func interrupting 512 4096 (CObj (PyRef 9)) world0 = Some (tt, w')
       /\ trace w' = trace world0 ++ [EvPyCall (PyRef 9) "" [PyLong 512; PyLong 4096]]
       /\ py_err w' = match interrupting (PyRef 9) "" [PyLong 512; PyLong 4096] with
                      | PyRaise e => Some e
                      | PyReturn _ => py_err world0
                      end.
Proof.
  split; [reflexivity|].
  exact (proj1 (proj2 (progress_callback_contract interrupting (PyRef 9)
                         512 4096 world0) eq_refl)).
Defined.

(** * Further properties of util.c and ra.c *)

(** ** Property hashes *)

Lemma foldl_insert_snoc {V} (f : string * string -> V) (l : list (string * string))
    (x : string * string) (d : gmap string V) :
  foldl (fun d kv => <[fst kv := f kv]> d) d (l ++ [x])
  = <[fst x := f x]> (foldl (fun d kv => <[fst kv := f kv]> d) d l).
Proof. rewrite foldl_app. reflexivity. Qed.

(** The dict the loop of [prop_hash_to_dict] builds. *)
Lemma foldl_insert_py_props (entries : list (string * string)) :
  PyDict (foldl (fun (d : gmap string PyObject) kv => <[fst kv := PyString (snd kv)]> d)
            ∅ entries)
  = py_props (Some entries).
Proof.
  unfold py_props. f_equal.
  induction entries as [|x l IH] using rev_ind; [reflexivity|].
  rewrite (foldl_insert_snoc (fun kv => PyString (snd kv))), IH.
  rewrite map_app, reverse_app. reflexivity.
Qed.

(** [prop_hash_to_dict] returns for every hash, and touches nothing but its
    private pool. *)
Lemma prop_hash_to_dict_run (props : option (list (string * string))) (w : World) :
  prop_hash_to_dict props w = Some (py_props props, after_props props w).
Proof.
  destruct props as [entries|]; unfold prop_hash_to_dict; [|reflexivity].
  run. rewrite foldl_insert_py_props, <- app_assoc. reflexivity.
Qed.

Lemma py_calls_app (a b : list Event) : py_calls (a ++ b) = py_calls a ++ py_calls b.
Proof. apply List.filter_app. Qed.

Lemma py_calls_after_props (props : option (list (string * string))) (w : World) :
  py_calls (trace (after_props props w)) = py_calls (trace w).
Proof.
  destruct props; [|reflexivity]. cbn. rewrite py_calls_app. cbn.
  apply app_nil_r.
Qed.

(** X1. [prop_hash_to_dict] turns a property hash into a dict that holds,
    for every property of the hash, its value as a string under its name,
    and nothing else.  The private pool it creates is destroyed before it
    returns, and no exception is set. *)
Theorem prop_hash_to_dict_maps_every_property
    (entries : list (string * string)) (w : World) :
  NoDup (map fst entries) ->
  exists d w',
    prop_hash_to_dict (Some entries) w = Some (PyDict d, w')
    /\ (forall k v, In (k, v) entries -> d !! k = Some (PyString v))
    /\ (forall k o, d !! k = Some o -> exists v, o = PyString v /\ In (k, v) entries)
    /\ trace w' = trace w ++ [EvPoolCreate (next_pool w) None;
                              EvPoolDestroy (next_pool w)]
    /\ py_err w' = py_err w.
Proof.
  intros Hnd.
  exists (foldl (fun (d : gmap string PyObject) kv => <[fst kv := PyString (snd kv)]> d)
            ∅ entries).
  eexists. split; [unfold prop_hash_to_dict; run; reflexivity|].
  cbn. rewrite <- app_assoc. cbn.
  cut (forall k o,
         foldl (fun (d : gmap string PyObject) kv => <[fst kv := PyString (snd kv)]> d)
           ∅ entries !! k = Some o
         <-> exists v, o = PyString v /\ In (k, v) entries).
  { intros Hspec. repeat split.
    - intros k v Hin. apply Hspec. eauto.
    - intros k o Hk. apply Hspec. exact Hk. }
  induction entries as [|[k0 v0] l IH] using rev_ind; intros k o.
  - cbn. rewrite lookup_empty. split; [discriminate | intros (v & _ & [])].
  - rewrite (foldl_insert_snoc (fun kv => PyString (snd kv))). cbn.
    rewrite map_app in Hnd. cbn in Hnd.
    apply NoDup_app in Hnd as (Hl & Hfresh & _).
    destruct (decide (k0 = k)) as [->|Hne].
    + rewrite lookup_insert_eq. split.
      * intros [= <-]. exists v0. split; [reflexivity|].
        apply in_or_app. right. left. reflexivity.
      * intros (v & -> & Hin). apply in_app_or in Hin as [Hin|[[= ->]|[]]];
          [|reflexivity].
        exfalso. apply (Hfresh k).
        -- apply list_elem_of_In. apply (in_map fst) in Hin. exact Hin.
        -- left.
    + rewrite lookup_insert_ne by exact Hne. rewrite (IH Hl). split.
      * intros (v & -> & Hin). exists v. split; [reflexivity|].
        apply in_or_app. left. exact Hin.
      * intros (v & -> & Hin). exists v. split; [reflexivity|].
        apply in_app_or in Hin as [Hin|[[= -> ->]|[]]]; [exact Hin|].
        contradiction Hne. reflexivity.
Qed.

Lemma prop_hash_to_dict_maps_every_property_witness :
  exists d w',
    prop_hash_to_dict (Some [("svn:log", "fix"); ("svn:author", "jelmer")]) started
      = Some (PyDict d, w')
    /\ d !! "svn:author" = Some (PyString "jelmer")
    /\ d !! "svn:date" = None.
Proof.
  destruct (prop_hash_to_dict_maps_every_property
              [("svn:log", "fix"); ("svn:author", "jelmer")] started)
    as (d & w' & E & Hin & Hout & _).
  { compute_done. }
  exists d, w'. split; [exact E|]. split.
  - apply Hin. right. left. reflexivity.
  - destruct (d !! "svn:date") as [o|] eqn:Hd; [|reflexivity].
    destruct (Hout _ _ Hd) as (v & _ & [H|[H|[]]]); discriminate H.
Defined.

(** ** Python lists as APR arrays *)

(** X2. [string_list_to_apr_array] gives NULL for None.  The array it
    makes for a list has elements of 4 bytes, and what it stores into them
    are pointers of 8 bytes: for a list of at most one item the array
    holds the item (the string's buffer, or NULL with TypeError pending
    for an item that is no string), but for a list of two or more items
    the stores overlap and run past the array, so the call has no defined
    behaviour. *)
Theorem string_list_becomes_array
    (pool : apr_pool_t) (items : list PyObject) (w : World) :
  string_list_to_apr_array pool (CObj Py_None) w = Some (CNull, w)
  /\ ((length items <= 1)%nat ->
      string_list_to_apr_array pool (CObj (PyList items)) w
      = Some (CArray (map c_string_of items),
              mkWorld (if forallb is_string items then py_err w
                       else Some TypeError)
                      (trace w) (next_pool w) (heap_full w)))
  /\ ((2 <= length items)%nat ->
      string_list_to_apr_array pool (CObj (PyList items)) w = None).
Proof.
  split; [reflexivity|].
  assert (H : forall w,
             strings_of items w
             = Some (map c_string_of items,
                     mkWorld (if forallb is_string items then py_err w
                              else Some TypeError)
                       (trace w) (next_pool w) (heap_full w))).
  { clear w. induction items as [|o rest IH]; intros w.
    - destruct w; reflexivity.
    - cbn [strings_of].
      destruct o; unfold PyString_AsString, PyErr_Set, pure; cbn;
        unfold bind; cbn; rewrite IH; cbn; try reflexivity;
        destruct (forallb is_string rest); reflexivity. }
  unfold string_list_to_apr_array, apr_array_of, sizeof_pointer. cbn.
  unfold bind. rewrite H, length_map. cbn [orb]. rewrite andb_true_r.
  split; intros Hlen.
  - apply Nat.leb_le in Hlen. rewrite Hlen. reflexivity.
  - destruct (Nat.leb_spec (length items) 1); [lia|reflexivity].
Qed.

Lemma string_list_becomes_array_witness :
  string_list_to_apr_array (Some 1%nat)
    (CObj (PyList [PyString "trunk"; PyString "branches"])) started = None.
Proof.
  apply (proj2 (proj2 (string_list_becomes_array (Some 1%nat)
                         [PyString "trunk"; PyString "branches"] started))).
  cbn. lia.
Defined.

(** X3. [revnum_list_to_apr_array] gives NULL for None and, for a list,
    an array with one revision number per item, in order: the integer
    itself when it fits a C long, and -1 otherwise, with TypeError pending
    for an item that is no integer and OverflowError for one that is too
    large.  It never stops early: the array is returned all the same, and
    the exception left pending is that of the last item that failed. *)
Theorem revnum_list_becomes_array
    (pool : apr_pool_t) (items : list PyObject) (w : World) :
  revnum_list_to_apr_array pool (CObj Py_None) w = Some (CNull, w)
  /\ revnum_list_to_apr_array pool (CObj (PyList items)) w
    = Some (CArray (map c_revnum_of items),
            mkWorld (last_error (map revnum_error items) (py_err w))
                    (trace w) (next_pool w) (heap_full w)).
Proof.
  split; [reflexivity|].
  assert (H : forall w,
             revnums_of items w
             = Some (map c_revnum_of items,
                     mkWorld (last_error (map revnum_error items) (py_err w))
                       (trace w) (next_pool w) (heap_full w))).
  { clear w. induction items as [|o rest IH]; intros w.
    - destruct w; reflexivity.
    - assert (He : revnum_error o = None
                   /\ (exists z, as_integer o = Some z /\ c_revnum_of o = CInt z
                                 /\ in_range (- 2 ^ 63) (2 ^ 63 - 1) z = true)
                   \/ (exists e, revnum_error o = Some e
                                 /\ c_revnum_of o = CInt (-1)
                                 /\ PyLong_AsLong (CObj o)
                                    = (do PyErr_Set e then pure (-1)))).
      { unfold c_revnum_of, revnum_error, PyLong_AsLong.
        destruct (as_integer o) as [z|]; [destruct (in_range _ _ z) eqn:Er|];
          eauto 8. }
      cbn [revnums_of map last_error foldl].
      destruct He as [(-> & z & Ez & -> & Er)|(e & -> & -> & ->)].
      + unfold PyLong_AsLong. rewrite Ez, Er. rewrite bind_pure.
        unfold bind. rewrite IH. reflexivity.
      + unfold bind, PyErr_Set, pure. rewrite IH. reflexivity. }
  unfold revnum_list_to_apr_array, apr_array_of, sizeof_svn_revnum_t. cbn.
  unfold bind. rewrite H. reflexivity.
Qed.

(** ** The log receiver and the stream *)

(** An integer that fits a C int is read back as itself. *)
Lemma C_int_of_int (z : Z) :
  in_range (- 2 ^ 31) (2 ^ 31 - 1) z = true -> C_int z = z.
Proof.
  unfold in_range, C_int. intros H. apply andb_true_iff in H as [H1 H2].
  apply Z.leb_le in H1, H2. rewrite Z.mod_small by lia. lia.
Qed.

(** X4. [py_svn_log_wrapper] calls the callback exactly once, with the
    changed paths (None exactly when libsvn passed no hash), the revision
    and a dict of revision properties that holds svn:log, svn:author and
    svn:date exactly when message, author and date are not NULL, and no
    other key.  The revision, a C long, is passed for format unit [i] and
    arrives as the C int of its low 32 bits: as itself below 2^31.
    Whatever the callback does, libsvn is told to go on. *)
Theorem log_receiver_builds_revprops
    (py : PyEnv) (callback : PyObject) (m : log_message) (w : World) :
  exists py_changed_paths revprops w',
    py_svn_log_wrapper py (CObj callback) m w = Some (NULL, w')
    /\ trace w' = trace w ++ [EvPyCall callback ""
                                [py_changed_paths;
                                 PyLong (C_int (log_revision m));
                                 PyDict revprops]]
    /\ (in_range (- 2 ^ 31) (2 ^ 31 - 1) (log_revision m) = true ->
        C_int (log_revision m) = log_revision m)
    /\ revprops !! SVN_PROP_REVISION_LOG = PyString <$> log_text m
    /\ revprops !! SVN_PROP_REVISION_AUTHOR = PyString <$> log_author m
    /\ revprops !! SVN_PROP_REVISION_DATE = PyString <$> log_date m
    /\ (forall k, is_Some (revprops !! k) ->
                  k = SVN_PROP_REVISION_LOG \/ k = SVN_PROP_REVISION_AUTHOR
                  \/ k = SVN_PROP_REVISION_DATE)
    /\ (py_changed_paths = Py_None <-> changed_paths m = None).
Proof.
  destruct m as [paths rev author date text].
  unfold py_svn_log_wrapper. cbn [changed_paths log_revision log_author log_date log_text].
  destruct (py_changed_paths_run paths w) as (cp & Hcp & Hnone).
  set (rp := set_if_present _ date _).
  exists cp, rp.
  assert (Hrun : exists w',
             (let* _ := PyObject_CallFunction py (CObj callback) (Some "OiO")
                          [CObj cp; CInt rev; CObj (PyDict rp)] in
              pure (@None svn_error_t)) w = Some (NULL, w')
             /\ trace w' = trace w ++ [EvPyCall callback ""
                                         [cp; PyLong (C_int rev); PyDict rp]]).
  { unfold PyObject_CallFunction, PyObject_Call, call_args, Py_BuildValue.
    cbn -[C_int]. unfold bind, emit, PyErr_Set, pure. cbn -[C_int].
    destruct (py callback "" _); eexists; split; reflexivity. }
  destruct Hrun as (w' & E & T). exists w'.
  split; [erewrite bind_Some by exact Hcp; exact E|]. split; [exact T|].
  split; [apply C_int_of_int|].
  unfold rp, set_if_present, SVN_PROP_REVISION_LOG, SVN_PROP_REVISION_AUTHOR,
    SVN_PROP_REVISION_DATE.
  split; [|split; [|split; [|split]]].
  - destruct date, author, text; cbn;
      repeat (rewrite lookup_insert_ne by discriminate);
      rewrite ?lookup_insert_eq, ?lookup_empty; reflexivity.
  - destruct date, author, text; cbn;
      repeat (rewrite lookup_insert_ne by discriminate);
      rewrite ?lookup_insert_eq, ?lookup_empty; reflexivity.
  - destruct date, author, text; cbn;
      repeat (rewrite lookup_insert_ne by discriminate);
      rewrite ?lookup_insert_eq, ?lookup_empty; reflexivity.
  - intros k [o Hk].
    destruct (decide (k = "svn:log")) as [->|H1]; [auto|].
    destruct (decide (k = "svn:author")) as [->|H2]; [auto|].
    destruct (decide (k = "svn:date")) as [->|H3]; [auto|].
    exfalso. revert Hk.
    destruct date, author, text;
      repeat (rewrite lookup_insert_ne by congruence);
      rewrite lookup_empty; discriminate.
  - exact Hnone.
Qed.

(** X5. When the [read] method of a Python stream raises,
    [py_stream_read] reports success to libsvn ([py_svn_error] is NULL),
    copies nothing into the buffer and leaves [*length] at the number of
    bytes that were asked for; the exception stays pending.  [read] is
    called with [*length] read as a C int. *)
Theorem failed_read_is_reported_as_full_read
    (py : PyEnv) (stream : PyObject) (length : Z) (e : PyExc) (w : World) :
  py stream "read" [PyLong (C_int length)] = PyRaise e ->
  exists w',
    py_stream_read py (CObj stream) length w = Some ((NULL, None, length), w')
    /\ py_err w' = Some e.
Proof.
  intros H. unfold py_stream_read. run. rewrite H. cbn.
  eexists. split; reflexivity.
Qed.

Lemma failed_read_is_reported_as_full_read_witness :
  exists w',
    py_stream_read broken_stream (CObj (PyRef 0)) 4096 started
      = Some ((NULL, None, 4096), w')
    /\ py_err w' = Some (Raised "IOError").
Proof.
  apply (failed_read_is_reported_as_full_read broken_stream (PyRef 0) 4096
           (Raised "IOError") started).
  reflexivity.
Defined.

(** ** Callbacks libsvn drives *)

(** X6. [py_commit_callback] calls the Python callback once with the new
    revision, its date and its author, None standing for a NULL date or
    author, and reports success whatever the callback does.  The
    revision, a C long, is passed for format unit [i] and arrives as the C
    int of its low 32 bits: as itself below 2^31. *)
Theorem commit_callback_receives_revision_date_author
    (py : PyEnv) (fn : PyObject) (commit_info : svn_commit_info_t) (w : World) :
  trace_after (py_commit_callback py commit_info (CObj fn)) w
    = Some (trace w ++ [EvPyCall fn ""
                          [PyLong (C_int (ci_revision commit_info));
                           py_opt_string (ci_date commit_info);
                           py_opt_string (ci_author commit_info)]])
  /\ result_of (py_commit_callback py commit_info (CObj fn)) w = Some NULL
  /\ (in_range (- 2 ^ 31) (2 ^ 31 - 1) (ci_revision commit_info) = true ->
      C_int (ci_revision commit_info) = ci_revision commit_info).
Proof.
  split; [|split; [|apply C_int_of_int]];
    destruct commit_info as [rev [date|] [author|]];
    unfold py_commit_callback; run;
    match goal with |- context [py ?f ?m ?a] => destruct (py f m a) end;
    reflexivity.
Qed.

(** X7. No callback of the Python-backed editor, nor the lock, file
    revision and stream callbacks, ever reports a failure to libsvn: for
    every Python object, whether its method returns or raises, the
    [svn_error_t *] handed back is NULL.  A copy source and a checksum are
    what a [const char *] argument can be, NULL or a string. *)
Theorem callbacks_never_report_failure
    (py : PyEnv) (self : PyObject) (path : string) (revision : Z)
    (copy_path checksum : option string) (rev : file_rev) (do_lock : bool)
    (lock : option svn_lock_t) (ra_err : option svn_error_t) (w : World) :
  reported_error (py_cb_editor_set_target_revision py (CObj self) revision) id w
    = Some NULL
  /\ reported_error (py_cb_editor_open_root py (CObj self) revision) fst w
    = Some NULL
  /\ reported_error (py_cb_editor_delete_entry py path revision (CObj self)) id w
    = Some NULL
  /\ reported_error
       (py_cb_editor_add_directory py path (CObj self) (marshal_string copy_path)
          revision) fst w
    = Some NULL
  /\ reported_error (py_cb_editor_open_directory py path (CObj self) revision) fst w
    = Some NULL
  /\ reported_error (py_cb_editor_close_directory py (CObj self)) id w = Some NULL
  /\ reported_error (py_cb_editor_absent_directory py path (CObj self)) id w
    = Some NULL
  /\ reported_error
       (py_cb_editor_add_file py path (CObj self) (marshal_string copy_path)
          revision) fst w
    = Some NULL
  /\ reported_error (py_cb_editor_open_file py path (CObj self) revision) fst w
    = Some NULL
  /\ reported_error (py_cb_editor_apply_textdelta py (CObj self)
                       (marshal_string checksum)) fst w
    = Some NULL
  /\ reported_error (py_cb_editor_close_file py (CObj self)
                       (marshal_string checksum)) id w
    = Some NULL
  /\ reported_error (py_cb_editor_absent_file py path (CObj self)) id w = Some NULL
  /\ reported_error (py_cb_editor_close_edit py (CObj self)) id w = Some NULL
  /\ reported_error (py_cb_editor_abort_edit py (CObj self)) id w = Some NULL
  /\ reported_error (py_lock_func py (CObj self) path do_lock lock ra_err) id w
    = Some NULL
  /\ reported_error (py_file_rev_handler py (CObj self) rev) id w = Some NULL
  /\ reported_error (py_stream_close py (CObj self)) id w = Some NULL.
Proof.
  unfold reported_error, py_cb_editor_set_target_revision,
    py_cb_editor_open_root, py_cb_editor_delete_entry,
    py_cb_editor_add_directory, py_cb_editor_open_directory,
    py_cb_editor_close_directory, py_cb_editor_absent_directory,
    py_cb_editor_add_file, py_cb_editor_open_file,
    py_cb_editor_apply_textdelta, py_cb_editor_close_file,
    py_cb_editor_absent_file, py_cb_editor_close_edit, py_cb_editor_abort_edit,
    py_lock_func, py_file_rev_handler, py_stream_close, prop_hash_to_dict.
  repeat split;
    try (destruct copy_path); try (destruct checksum);
    try (destruct (fr_rev_props rev)); run;
    match goal with |- context [py ?f ?m ?a] => destruct (py f m a) end;
    reflexivity.
Qed.

(** X8. The batons of the Python-backed editor are the objects Python
    returned: the directory opened under the root is added on the object
    [open_root] returned, and each directory is closed on the object that
    stood for it, innermost first. *)
Theorem batons_are_the_objects_python_returned
    (py : PyEnv) (root d1 d2 : PyObject) (revision : Z) (path : string)
    (w : World) :
  py root "open_root" [PyLong revision] = PyReturn d1 ->
  py d1 "add_directory" [PyString path] = PyReturn d2 ->
  trace_after
    (let* '(_, root_baton) := py_cb_editor_open_root py (CObj root) revision in
     let* '(_, child_baton) :=
       py_cb_editor_add_directory py path root_baton CNull (-1) in
     do py_cb_editor_close_directory py child_baton then
     py_cb_editor_close_directory py root_baton) w
  = Some (trace w ++ [EvPyCall root "open_root" [PyLong revision];
                      EvPyCall d1 "add_directory" [PyString path];
                      EvPyCall d2 "close" [];
                      EvPyCall d1 "close" []]).
Proof.
  intros H1 H2.
  unfold py_cb_editor_open_root, py_cb_editor_add_directory,
    py_cb_editor_close_directory.
  run. rewrite H1. cbn. rewrite H2. cbn.
  destruct (py d2 "close" []); cbn; destruct (py d1 "close" []); cbn;
    rewrite <- !app_assoc; reflexivity.
Qed.

Lemma batons_are_the_objects_python_returned_witness :
  trace_after
    (let* '(_, root_baton) := py_cb_editor_open_root tree_editor (CObj (PyRef 0)) 4 in
     let* '(_, child_baton) :=
       py_cb_editor_add_directory tree_editor "trunk" root_baton CNull (-1) in
     do py_cb_editor_close_directory tree_editor child_baton then
     py_cb_editor_close_directory tree_editor root_baton) started
  = Some (trace started ++ [EvPyCall (PyRef 0) "open_root" [PyLong 4];
                      EvPyCall (PyRef 1) "add_directory" [PyString "trunk"];
                      EvPyCall (PyRef 2) "close" [];
                      EvPyCall (PyRef 1) "close" []]).
Proof.
  apply (batons_are_the_objects_python_returned tree_editor (PyRef 0) (PyRef 1)
           (PyRef 2) 4 "trunk" started); reflexivity.
Defined.

(** X9. [py_cb_editor_add_directory] passes the copy source on exactly
    when there is one: without a source path the method gets the path
    alone, and the source revision is dropped with it. *)
Theorem add_directory_passes_copy_source
    (py : PyEnv) (self : PyObject) (path source : string) (revision : Z)
    (w : World) :
  trace_after (py_cb_editor_add_directory py path (CObj self) CNull revision) w
    = Some (trace w ++ [EvPyCall self "add_directory" [PyString path]])
  /\ trace_after
       (py_cb_editor_add_directory py path (CObj self) (CStr source) revision) w
    = Some (trace w ++ [EvPyCall self "add_directory"
                          [PyString path; PyString source; PyLong revision]]).
Proof.
  unfold py_cb_editor_add_directory. split; run;
    match goal with |- context [py ?f ?m ?a] => destruct (py f m a) end;
    reflexivity.
Qed.

(** ** The reporter *)

(** X10. A reporter object keeps no state of its own: whatever sequence of
    set_path, delete_path, finish and abort a program calls, each call is
    forwarded to libsvn's reporter with its arguments, in order, also
    after finish or abort and also after libsvn answered an error; no
    exception is ever set.  Revisions have to fit a C long. *)
Theorem reporter_forwards_every_call
    (stack : Frame) (self : ReporterObject) (ops : list report_op) (w : World) :
  forallb revision_fits ops = true ->
  exists w',
    report_all stack self ops w = Some (tt, w')
    /\ trace w' = trace w ++ map (reported self) ops
    /\ py_err w' = py_err w.
Proof.
  revert w. induction ops as [|op ops IH]; intros w Hfit.
  - exists w. cbn. rewrite app_nil_r. auto.
  - cbn in Hfit. apply andb_true_iff in Hfit as [Hop Hfit].
    assert (exists r w1, report_one stack self op w = Some (r, w1)
              /\ trace w1 = trace w ++ [reported self op]
              /\ py_err w1 = py_err w) as (r & w1 & E & T & P).
    { destruct op as [path revision start_empty|path| |]; cbn in *.
      - unfold reporter_set_path, c_lock_token. run.
        rewrite Hop. destruct start_empty; cbn; frame_simpl; cbn;
          destruct (reporter self _ _); cbn; eauto.
      - unfold reporter_delete_path. run. frame_simpl.
        destruct (reporter self _ _); cbn; eauto.
      - unfold reporter_finish. run. destruct (reporter self _ _); cbn; eauto.
      - unfold reporter_abort. run. destruct (reporter self _ _); cbn; eauto. }
    destruct (IH w1 Hfit) as (w' & E' & T' & P').
    exists w'. cbn. unfold bind at 1. rewrite E. split; [exact E'|].
    split; [|congruence].
    rewrite T', T, <- app_assoc. reflexivity.
Qed.

Lemma reporter_forwards_every_call_witness :
  exists w',
    report_all ∅ a_reporter
      [RSetPath "" 7 false; RFinish; RDeletePath "old"; RAbort] started
      = Some (tt, w')
    /\ trace w' = trace started
         ++ map (reported a_reporter)
              [RSetPath "" 7 false; RFinish; RDeletePath "old"; RAbort]
    /\ py_err w' = py_err started.
Proof.
  apply (reporter_forwards_every_call ∅ a_reporter
           [RSetPath "" 7 false; RFinish; RDeletePath "old"; RAbort] started).
  reflexivity.
Defined.

(** X11. [reporter_set_path] with an explicit lock token has no defined
    behaviour: the format ["slb|z"] stores the token as a C string (NULL
    for None) in [lock_token], and [c_lock_token] then uses that variable
    as a Python object.  Only a call without the fourth argument is
    forwarded. *)
Theorem set_path_lock_token_is_undefined
    (stack : Frame) (self : ReporterObject) (path token : string)
    (revision : Z) (start_empty : bool) (w : World) :
  in_range (- 2 ^ 63) (2 ^ 63 - 1) revision = true ->
  reporter_set_path stack self
    [PyString path; PyLong revision; PyBool start_empty; PyString token] w = None
  /\ reporter_set_path stack self
    [PyString path; PyLong revision; PyBool start_empty; Py_None] w = None
  /\ exists fr,
       PyArg_ParseTuple
         [PyString path; PyLong revision; PyBool start_empty; PyString token]
         "slb|z"
         [Some "path"; Some "revision"; Some "start_empty"; Some "lock_token"]
         (<["lock_token" := CObj Py_None]> stack) w
       = Some ((true, fr), w)
       /\ local fr "lock_token" = CStr token.
Proof.
  intros Hrev. unfold reporter_set_path, c_lock_token.
  split; [|split]; run; rewrite Hrev; destruct start_empty; cbn;
    try (frame_simpl; reflexivity);
    (eexists; split; [reflexivity|]; frame_simpl; reflexivity).
Qed.

Lemma set_path_lock_token_is_undefined_witness :
  reporter_set_path ∅ a_reporter
    [PyString "trunk"; PyLong 7; PyBool false; PyString "opaquelocktoken:1"]
    started = None.
Proof.
  apply (set_path_lock_token_is_undefined ∅ a_reporter "trunk"
           "opaquelocktoken:1" 7 false started).
  reflexivity.
Defined.

(** ** Editor objects driven from Python *)

(** X12. Arguments left out default as the declarations say: the revision
    of delete_entry, open_directory, open_file and open_root is -1, and
    add_directory and add_file copy from NULL at revision -1. *)
Theorem editor_methods_default_revision
    (child_baton_of : string -> list CVal -> CVal) (stack : Frame)
    (self : EditorObject) (path : string) (w : World) :
  trace_after (py_dir_editor_delete_entry stack self [PyString path]) w
    = Some (trace w ++ [EvSvn "delete_entry"
                          [CStr path; CInt (-1); editor_baton self]])
  /\ trace_after
       (py_dir_editor_add_directory child_baton_of stack self [PyString path]) w
    = Some (trace w ++ [EvSvn "add_directory"
                          [CStr path; editor_baton self; CNull; CInt (-1)]])
  /\ trace_after
       (py_dir_editor_open_directory child_baton_of stack self [PyString path]) w
    = Some (trace w ++ [EvSvn "open_directory"
                          [CStr path; editor_baton self; CInt (-1)]])
  /\ trace_after
       (py_dir_editor_add_file child_baton_of stack self [PyString path]) w
    = Some (trace w ++ [EvSvn "add_file"
                          [CStr path; editor_baton self; CNull; CInt (-1)]])
  /\ trace_after
       (py_dir_editor_open_file child_baton_of stack self [PyString path]) w
    = Some (trace w ++ [EvSvn "open_file"
                          [CStr path; editor_baton self; CInt (-1)]])
  /\ trace_after (py_editor_open_root child_baton_of stack self []) w
    = Some (trace w ++ [EvSvn "open_root" [editor_baton self; CInt (-1)]]).
Proof.
  unfold py_dir_editor_delete_entry, py_dir_editor_add_directory,
    py_dir_editor_open_directory, py_dir_editor_add_file,
    py_dir_editor_open_file, py_editor_open_root, new_editor_object.
  repeat split; run; frame_simpl;
    destruct (editor self _ _); cbn; try reflexivity;
    destruct (heap_full w); reflexivity.
Qed.

(** X13. The revision of [set_target_revision] and [open_root] is parsed
    as a C int: a revision from 2^31 on, which a C long holds, raises
    OverflowError and libsvn is not called, while the methods of a
    directory take the same revision and forward it. *)
Theorem set_target_revision_takes_a_C_int
    (child_baton_of : string -> list CVal -> CVal) (stack : Frame)
    (self : EditorObject) (path : string) (revision : Z) (w : World) :
  2 ^ 31 <= revision <= 2 ^ 63 - 1 ->
  py_editor_set_target_revision stack self [PyLong revision] w
    = Some (NULL, mkWorld (Some OverflowError) (trace w) (next_pool w)
                    (heap_full w))
  /\ py_editor_open_root child_baton_of stack self [PyLong revision] w
    = Some (NULL, mkWorld (Some OverflowError) (trace w) (next_pool w)
                    (heap_full w))
  /\ trace_after (py_dir_editor_delete_entry stack self
                    [PyString path; PyLong revision]) w
    = Some (trace w ++ [EvSvn "delete_entry"
                          [CStr path; CInt revision; editor_baton self]]).
Proof.
  intros Hrev.
  assert (H32 : in_range (- 2 ^ 31) (2 ^ 31 - 1) revision = false).
  { unfold in_range. apply andb_false_iff. right. apply Z.leb_gt. lia. }
  assert (H64 : in_range (- 2 ^ 63) (2 ^ 63 - 1) revision = true).
  { unfold in_range. apply andb_true_iff. split; apply Z.leb_le; lia. }
  unfold py_editor_set_target_revision, py_editor_open_root,
    py_dir_editor_delete_entry.
  repeat split; run; rewrite ?H32, ?H64; cbn; try reflexivity.
  frame_simpl. destruct (editor self _ _); reflexivity.
Qed.

Lemma set_target_revision_takes_a_C_int_witness :
  py_editor_set_target_revision ∅ a_directory_editor [PyLong 3000000000] started
    = Some (NULL, mkWorld (Some OverflowError) (trace started)
                    (next_pool started) (heap_full started)).
Proof.
  apply (set_target_revision_takes_a_C_int numbered_batons ∅ a_directory_editor
           "" 3000000000 started).
  lia.
Defined.

(** X14. An editor object made for a child (add_directory,
    open_directory, add_file, open_file, open_root) has the vtable and the
    pool of its parent and no pool of its own: nothing is created, and
    [py_editor_dealloc] on the child destroys the very pool that
    [py_editor_dealloc] on the parent destroys. *)
Theorem child_editor_holds_parent_pool
    (child_baton_of : string -> list CVal -> CVal) (stack : Frame)
    (self child : EditorObject) (args : list PyObject) (w w' : World) :
  py_dir_editor_add_directory child_baton_of stack self args w = Some (Some child, w')
  \/ py_dir_editor_open_directory child_baton_of stack self args w
       = Some (Some child, w')
  \/ py_dir_editor_add_file child_baton_of stack self args w = Some (Some child, w')
  \/ py_dir_editor_open_file child_baton_of stack self args w = Some (Some child, w')
  \/ py_editor_open_root child_baton_of stack self args w = Some (Some child, w') ->
  editor child = editor self
  /\ editor_pool child = editor_pool self
  /\ next_pool w' = next_pool w
  /\ py_editor_dealloc child = py_editor_dealloc self.
Proof.
  assert (Hnew : forall e b p t w1 w2,
             new_editor_object e b p t w1 = Some (Some child, w2) ->
             editor child = e /\ editor_pool child = p
             /\ next_pool w2 = next_pool w1).
  { intros e b p t w1 w2 H. unfold new_editor_object, PyObject_New, bind in H.
    destruct (heap_full w1); cbn in H; inversion H; subst. auto. }
  assert (Hparse : forall a f d fr w1 r w2,
             PyArg_ParseTuple a f d fr w1 = Some (r, w2) ->
             next_pool w2 = next_pool w1).
  { intros a f d fr w1 r w2 H. unfold PyArg_ParseTuple, parse_values in H.
    destruct (_ || _)%bool; [inversion H; reflexivity|].
    destruct (convert_args _ _ _ _) as [[[e|] fr']|]; inversion H; reflexivity. }
  assert (Hcall : forall fn a ans w1 r w2,
             svn_call fn a ans w1 = Some (r, w2) -> next_pool w2 = next_pool w1).
  { intros fn a ans w1 r w2 H. inversion H. reflexivity. }
  assert (Hcheck : forall e w1 r w2,
             check_error e w1 = Some (r, w2) -> w2 = w1).
  { intros e w1 r w2 H. destruct e; inversion H; reflexivity. }
  intros H.
  cut (editor child = editor self /\ editor_pool child = editor_pool self
       /\ next_pool w' = next_pool w).
  { intros (He & Hp & Hn). repeat split; try assumption.
    unfold py_editor_dealloc. rewrite Hp. reflexivity. }
  unfold py_dir_editor_add_directory, py_dir_editor_open_directory,
    py_dir_editor_add_file, py_dir_editor_open_file, py_editor_open_root in H.
  destruct H as [H|[H|[H|[H|H]]]];
    step H; destruct a as [ok fr]; apply Hparse in E;
    (destruct ok; cbn [negb] in H; [|step H]);
    step H; apply Hcall in E0;
    step H; apply Hcheck in E1; subst;
    (step H; [step H|]);
    apply Hnew in H as (He & Hp & Hn);
    (split; [exact He|]); (split; [exact Hp|]); congruence.
Qed.

Lemma child_editor_holds_parent_pool_witness :
  exists child w',
    py_dir_editor_add_file numbered_batons ∅ a_directory_editor
      [PyString "README"] started = Some (Some child, w')
    /\ editor_pool child = editor_pool a_directory_editor
    /\ py_editor_dealloc child = py_editor_dealloc a_directory_editor.
Proof.
  assert (E : py_dir_editor_add_file numbered_batons ∅ a_directory_editor
                [PyString "README"] started
              = Some (Some (mkEditor (fun _ _ => None) (COpaque 8) (Some 1%nat)
                              "FileEditor"),
                      mkWorld None
                        [EvPoolCreate 0 None;
                         EvSvn "add_file"
                           [CStr "README"; COpaque 0; CNull; CInt (-1)]]
                        1 false)) by reflexivity.
  eexists _, _. split; [exact E|].
  destruct (child_editor_holds_parent_pool numbered_batons ∅ a_directory_editor
              _ [PyString "README"] started _
              (or_intror (or_intror (or_introl E)))) as (_ & Hp & _ & Hd).
  split; assumption.
Defined.

(** ** RemoteAccess methods *)

(** X15. An error of libsvn is not raised: [PyErr_SetSubversionException]
    is empty, so the methods return NULL with the error indicator as it
    was before the call. *)
Theorem libsvn_error_raises_nothing
    (answers : svn_ra_answers_t) (self : RemoteAccessObject)
    (rep : ReporterObject) (ed : EditorObject) (e : svn_error_t) (w : World) :
  (latest_revnum answers = inl e ->
     exists w', ra_get_latest_revnum answers self w = Some (NULL, w')
                /\ py_err w' = py_err w)
  /\ (repos_root answers = inl e ->
     exists w', ra_get_repos_root answers self w = Some (NULL, w')
                /\ py_err w' = py_err w)
  /\ (repos_uuid (ra self) = inl e ->
     exists w', ra_get_uuid self w = Some (NULL, w') /\ py_err w' = py_err w)
  /\ (reporter rep "finish_report" [report_baton rep] = Some e ->
     exists w', reporter_finish rep w = Some (NULL, w') /\ py_err w' = py_err w)
  /\ (reporter rep "abort_report" [report_baton rep] = Some e ->
     exists w', reporter_abort rep w = Some (NULL, w') /\ py_err w' = py_err w)
  /\ (editor ed "close_edit" [editor_baton ed] = Some e ->
     exists w', py_editor_close ed w = Some (NULL, w') /\ py_err w' = py_err w)
  /\ (editor ed "abort_edit" [editor_baton ed] = Some e ->
     exists w', py_editor_abort ed w = Some (NULL, w') /\ py_err w' = py_err w)
  /\ (editor ed "close_directory" [editor_baton ed] = Some e ->
     exists w', py_dir_editor_close ed w = Some (NULL, w') /\ py_err w' = py_err w).
Proof.
  unfold ra_get_latest_revnum, ra_get_repos_root, ra_get_uuid, reporter_finish,
    reporter_abort, py_editor_close, py_editor_abort, py_dir_editor_close,
    svn_ra_get_latest_revnum, svn_ra_get_repos_root, svn_ra_get_uuid.
  repeat split; intros H; run; rewrite H; cbn; eexists; split; reflexivity.
Qed.

Lemma libsvn_error_raises_nothing_witness :
  exists w', ra_get_latest_revnum no_answers session started = Some (NULL, w')
             /\ py_err w' = py_err started.
Proof.
  exact (proj1 (libsvn_error_raises_nothing no_answers session a_reporter
                  a_directory_editor unreachable started) eq_refl).
Defined.

(** X16. [ra_rev_proplist] asks libsvn once, for the caller's revision, and
    returns the properties it answered as a dict (None for a NULL hash). *)
Theorem rev_proplist_returns_properties
    (answers : svn_ra_answers_t) (stack : Frame) (self : RemoteAccessObject)
    (rev : Z) (props : option (list (string * string))) (w : World) :
  in_range (- 2 ^ 63) (2 ^ 63 - 1) rev = true ->
  rev_props answers (CInt rev) = inr props ->
  exists w',
    ra_rev_proplist answers stack self [PyLong rev] w
      = Some (Some (py_props props), w')
    /\ svn_calls "svn_ra_rev_proplist" (trace w')
       = svn_calls "svn_ra_rev_proplist" (trace w) ++ [[CInt rev]]
    /\ py_err w' = py_err w.
Proof.
  intros Hfit Hprops.
  unfold ra_rev_proplist, svn_ra_rev_proplist. run.
  rewrite Hfit. cbn. frame_simpl. rewrite Hprops. cbn.
  rewrite prop_hash_to_dict_run. cbn.
  eexists. split; [reflexivity|].
  destruct props; cbn; unfold svn_calls; rewrite !flat_map_app; cbn;
    rewrite ?app_nil_r; auto.
Qed.

Lemma rev_proplist_returns_properties_witness :
  exists w',
    ra_rev_proplist some_answers ∅ session [PyLong 5] started
      = Some (Some (py_props (Some [("svn:log", "fix"); ("svn:author", "jelmer")])),
              w')
    /\ svn_calls "svn_ra_rev_proplist" (trace w')
       = svn_calls "svn_ra_rev_proplist" (trace started) ++ [[CInt 5]]
    /\ py_err w' = py_err started.
Proof.
  apply (rev_proplist_returns_properties some_answers ∅ session 5
           (Some [("svn:log", "fix"); ("svn:author", "jelmer")]) started);
    reflexivity.
Defined.

Lemma py_dirent_of_quiet (f : Z) (dirent : svn_dirent_t)
    (d : gmap string PyObject) (w w' : World) :
  py_dirent_of f dirent w = Some (d, w') -> w' = w.
Proof.
  unfold py_dirent_of.
  destruct (negb (Z.land f 32 =? 0)%Z); [destruct (last_author dirent)|];
    unfold pure, undefined; congruence.
Qed.

(** The listing has one key per entry libsvn returned. *)
Lemma py_dirents_of_names (f : Z) (dirents : list (string * svn_dirent_t))
    (d0 d : gmap string PyObject) (w w' : World) :
  py_dirents_of f dirents d0 w = Some (d, w') ->
  w' = w /\ dom d = dom d0 ∪ list_to_set (map fst dirents).
Proof.
  revert d0. induction dirents as [|[key dirent] rest IH]; intros d0 H.
  - inversion H; subst. split; [reflexivity|]. cbn.
    symmetry. apply (right_id_L ∅ (∪)).
  - cbn [py_dirents_of] in H. step H.
    apply py_dirent_of_quiet in E as ->.
    apply IH in H as [-> Hd]. split; [reflexivity|].
    rewrite Hd, dom_insert_L. cbn.
    rewrite (comm_L (∪) {[key]} (dom d0)), (assoc_L (∪)). reflexivity.
Qed.

(** X17. [ra_get_dir] with path, revision and fields asks libsvn once with
    these three, and what it returns is the triple of the listing, the
    revision libsvn fetched and the directory's properties; the keys of
    the listing are exactly the names libsvn returned.  The fetched
    revision, a C long, is passed for format unit [i] and arrives as the C
    int of its low 32 bits: as itself below 2^31. *)
Theorem get_dir_lists_every_name
    (stack : Frame) (self : RemoteAccessObject) (path : string)
    (revision fields fetch_rev : Z) (entries : list (string * svn_dirent_t))
    (props : option (list (string * string))) (r : PyObject) (w w' : World) :
  dir_at (ra self) (CStr path) (CInt revision) (CInt fields)
    = inr (Some entries, fetch_rev, props) ->
  ra_get_dir stack self [PyString path; PyLong revision; PyLong fields] w
    = Some (Some r, w') ->
  exists d : gmap string PyObject,
    r = PyTuple [PyDict d; PyLong (C_int fetch_rev); py_props props]
    /\ (in_range (- 2 ^ 31) (2 ^ 31 - 1) fetch_rev = true ->
        C_int fetch_rev = fetch_rev)
    /\ dom d = list_to_set (map fst entries)
    /\ svn_calls "svn_ra_get_dir2" (trace w')
       = svn_calls "svn_ra_get_dir2" (trace w)
         ++ [[CStr path; CInt revision; CInt fields]].
Proof.
  intros Hdir H. revert H.
  unfold ra_get_dir, svn_ra_get_dir2, read_int. run.
  destruct (in_range _ _ revision); cbn; [|discriminate].
  destruct (in_range _ _ fields); cbn; [|discriminate].
  frame_simpl. rewrite Hdir. cbn.
  destruct (py_dirents_of fields entries ∅ _) as [[d w1]|] eqn:E; [|discriminate].
  apply py_dirents_of_names in E as [-> Hd].
  rewrite prop_hash_to_dict_run. cbn.
  intros [= <- <-]. exists d. split; [reflexivity|].
  split; [apply C_int_of_int|]. split.
  - rewrite Hd, dom_empty_L. apply (left_id_L ∅ (∪)).
  - destruct props; cbn; unfold svn_calls; rewrite !flat_map_app; cbn;
      rewrite ?app_nil_r; reflexivity.
Qed.

Lemma get_dir_lists_every_name_witness :
  exists d : gmap string PyObject,
    result_of (ra_get_dir ∅ session [PyString "trunk"; PyLong 7; PyLong 1]) started
      = Some (Some (PyTuple [PyDict d; PyLong 7; Py_None]))
    /\ dom d = ({["README"; "src"]} : gset string).
Proof.
  destruct (ra_get_dir ∅ session [PyString "trunk"; PyLong 7; PyLong 1] started)
    as [[[r|] w']|] eqn:E; try (vm_compute in E; discriminate E).
  destruct (get_dir_lists_every_name ∅ session "trunk" 7 1 7
              [("README", README); ("src", src_dir)] None r started w'
              eq_refl E) as (d & -> & _ & Hd & _).
  exists d. unfold result_of. rewrite E. split; [reflexivity|].
  rewrite Hd. cbn. rewrite (right_id_L ∅ (∪)). reflexivity.
Defined.

(** What the handler is called with, revision by revision. *)
Lemma deliver_revs_calls (py : PyEnv) (handler : PyObject) (revs : list file_rev)
    (w : World) :
  exists w',
    deliver_revs (py_file_rev_handler py (CObj handler)) revs w = Some (NULL, w')
    /\ py_calls (trace w') = py_calls (trace w) ++ map (file_rev_call handler) revs.
Proof.
  revert w. induction revs as [|r revs IH]; intros w.
  - exists w. cbn. rewrite app_nil_r. auto.
  - assert (exists w1,
               py_file_rev_handler py (CObj handler) r w = Some (NULL, w1)
               /\ trace w1 = trace (after_props (fr_rev_props r) w)
                              ++ [file_rev_call handler r])
      as (w1 & E & T1).
    { unfold py_file_rev_handler. unfold bind at 1.
      rewrite prop_hash_to_dict_run.
      generalize (after_props (fr_rev_props r) w). intros w0. run.
      destruct (py handler "" _); cbn; eexists; split; reflexivity. }
    assert (T : py_calls (trace w1)
                = py_calls (trace w) ++ [file_rev_call handler r]).
    { rewrite T1, py_calls_app, py_calls_after_props. reflexivity. }
    destruct (IH w1) as (w' & E' & T').
    exists w'. cbn [deliver_revs]. unfold bind at 1. rewrite E.
    split; [exact E'|]. rewrite T', T, <- app_assoc. reflexivity.
Qed.

(** X18. [ra_get_file_revs] calls the handler once for every revision
    libsvn delivers, in order, with the path, the revision and its
    properties, and returns None; a handler that raises does not end the
    iteration. *)
Theorem file_revs_handler_sees_every_revision
    (py : PyEnv) (answers : svn_ra_answers_t) (stack : Frame)
    (self : RemoteAccessObject) (path : string) (start end_ : Z)
    (handler : PyObject) (revs : list file_rev) (w : World) :
  in_range (- 2 ^ 63) (2 ^ 63 - 1) start = true ->
  in_range (- 2 ^ 63) (2 ^ 63 - 1) end_ = true ->
  file_revs answers [CStr path; CInt start; CInt end_] = inr revs ->
  exists w',
    ra_get_file_revs answers py stack self
      [PyString path; PyLong start; PyLong end_; handler] w
      = Some (Some Py_None, w')
    /\ py_calls (trace w')
       = py_calls (trace w) ++ map (file_rev_call handler) revs.
Proof.
  intros Hs He Hrevs.
  unfold ra_get_file_revs, svn_ra_get_file_revs.
  unfold PyArg_ParseTuple, parse_values, Pool, apr_pool_create. cbn.
  rewrite Hs, He. cbn. frame_simpl. rewrite Hrevs.
  match goal with
  | |- context [bind (bind (emit ?ev) ?k) _ ?w1] =>
      destruct (deliver_revs_calls py handler revs
                  (mkWorld (py_err w1) (trace w1 ++ [ev]) (next_pool w1)
                     (heap_full w1))) as (w2 & E & T);
      assert (E1 : bind (emit ev) k w1 = Some (NULL, w2)) by exact E;
      rewrite (bind_Some _ _ _ _ _ E1)
  end.
  unfold check_error, bind, emit, pure. cbn [negb].
  eexists. split; [reflexivity|].
  cbn [trace] in *. rewrite py_calls_app, T, !py_calls_app. cbn.
  rewrite !app_nil_r. reflexivity.
Qed.

Lemma file_revs_handler_sees_every_revision_witness :
  exists w',
    ra_get_file_revs some_answers interrupting ∅ session
      [PyString "trunk/README"; PyLong 0; PyLong 9; PyRef 3] started
      = Some (Some Py_None, w')
    /\ py_calls (trace w')
       = py_calls (trace started)
         ++ map (file_rev_call (PyRef 3))
              [mk_file_rev "/trunk/README" 7 (Some [("svn:log", "add")]);
               mk_file_rev "/trunk/README" 9 None].
Proof.
  apply (file_revs_handler_sees_every_revision interrupting some_answers ∅
           session "trunk/README" 0 9 (PyRef 3) _ started); reflexivity.
Defined.

(** Setting a key that is not in the hash removes nothing. *)
Lemma hash_remove_absent (key : string) (h : apr_hash_t) :
  ~ In key (map fst h) -> hash_remove key h = h.
Proof.
  induction h as [|[k v] h IH]; intros Hk; [reflexivity|].
  cbn in *. destruct (String.eqb k key) eqn:Ek.
  - apply String.eqb_eq in Ek. contradiction Hk. left. exact Ek.
  - cbn. f_equal. apply IH. intros Hin. apply Hk. right. exact Hin.
Qed.

Lemma fill_hash_strings (items : list (string * PyObject)) (h : apr_hash_t)
    (w : World) :
  NoDup (map fst items) ->
  Forall (fun kv => is_string (snd kv) = true) items ->
  (forall k, In k (map fst items) -> ~ In k (map fst h)) ->
  fill_hash items (CHash h) w
  = Some (CHash (h ++ map (fun kv => (fst kv, c_string_of (snd kv))) items), w).
Proof.
  revert h. induction items as [|[k v] rest IH]; intros h Hnd Hstr Hfresh.
  - cbn. rewrite app_nil_r. reflexivity.
  - apply NoDup_cons in Hnd as [Hk Hnd]. apply Forall_cons in Hstr as [Hv Hstr].
    destruct v; try discriminate Hv. cbn [fill_hash].
    unfold PyString_AsString. rewrite bind_pure.
    unfold apr_hash_set. cbn [is_null].
    rewrite hash_remove_absent by (apply Hfresh; left; reflexivity).
    rewrite IH; [| exact Hnd | exact Hstr |].
    + rewrite <- app_assoc. reflexivity.
    + intros k' Hin. rewrite map_app, in_app_iff. cbn. intros [Hh|[<-|[]]].
      * apply (Hfresh k'); [right; exact Hin | exact Hh].
      * apply Hk. apply list_elem_of_In. exact Hin.
Qed.

(** X19. The lock tokens of [get_commit_editor] reach libsvn as they were
    given: for a dict whose values are strings, the hash passed to
    svn_ra_get_commit_editor2 holds exactly the dict's entries, each value
    as a C string; the callback is passed on and [keep_locks] is false
    when left out. *)
Theorem commit_editor_receives_lock_tokens
    (stack : Frame) (self : RemoteAccessObject) (revprops callback : PyObject)
    (tokens : gmap string PyObject) (r : option EditorObject) (w w' : World) :
  map_Forall (fun _ v => is_string v = true) tokens ->
  get_commit_editor stack self [revprops; callback; PyDict tokens] ∅ w
    = Some (r, w') ->
  exists log_msg hash,
    svn_calls "svn_ra_get_commit_editor2" (trace w')
    = svn_calls "svn_ra_get_commit_editor2" (trace w)
      ++ [[log_msg; CObj callback; CHash hash; CInt 0]]
    /\ forall k c, In (k, c) hash
                   <-> exists s, c = CStr s /\ tokens !! k = Some (PyString s).
Proof.
  intros Hstr H.
  set (hash := map (fun kv : string * PyObject => (fst kv, c_string_of (snd kv)))
                 (map_to_list tokens)).
  assert (Hfill : forall w0,
             fill_hash (map_to_list tokens) (CHash apr_hash_make) w0
             = Some (CHash hash, w0)).
  { intros w0. rewrite fill_hash_strings.
    - reflexivity.
    - apply NoDup_fst_map_to_list.
    - apply Forall_forall. intros [k v] Hin.
      apply elem_of_map_to_list in Hin.
      exact (Hstr k v Hin).
    - intros k _ []. }
  assert (Hhash : forall k c, In (k, c) hash
                   <-> exists s, c = CStr s /\ tokens !! k = Some (PyString s)).
  { intros k c. unfold hash. rewrite in_map_iff. split.
    - intros ([k' v] & [= <- <-] & Hin).
      apply list_elem_of_In in Hin. apply elem_of_map_to_list in Hin.
      pose proof (Hstr _ _ Hin) as Hv. cbn in Hv.
      destruct v; try discriminate Hv. eauto.
    - intros (s & -> & Hk). exists (k, PyString s). split; [reflexivity|].
      apply list_elem_of_In. apply elem_of_map_to_list. exact Hk. }
  revert H.
  unfold get_commit_editor, PyArg_ParseTupleAndKeywords, known_keywords.
  rewrite map_to_list_empty.
  cbn [length drop map forallb negb]. rewrite !lookup_empty.
  unfold dict_items, parse_values, Pool, apr_pool_create.
  cbn -[fill_hash apr_hash_make]. frame_simpl. cbn -[fill_hash apr_hash_make].
  match goal with
  | |- bind (bind (pure ?items) ?k) _ ?w1 = _ -> _ =>
      assert (E1 : bind (pure items) k w1 = Some (CHash hash, w1))
        by apply Hfill;
      rewrite (bind_Some _ _ _ _ _ E1); clear E1
  end.
  intros H. step H. rename a into item.
  assert (trace w0 = trace w ++ [EvPoolCreate (next_pool w) (ra_pool self)]) as T1.
  { destruct revprops; try (inversion E; reflexivity).
    destruct (_ !! _); inversion E; reflexivity. }
  clear E. step H. rename a into log_msg.
  assert (trace w1 = trace w ++ [EvPoolCreate (next_pool w) (ra_pool self)]) as T2.
  { rewrite <- T1. unfold PyString_AsString in E. destruct item; try discriminate E.
    destruct o; inversion E; reflexivity. }
  clear E. revert H. generalize dependent w1. intros w2 T2.
  intros H. exists log_msg, hash. split; [|exact Hhash].
  revert H. unfold new_editor_object. run. rewrite T2.
  destruct (reply _ _ _); cbn.
  - intros [= <- <-]. cbn. unfold svn_calls. rewrite !flat_map_app. cbn.
    rewrite ?app_nil_r. reflexivity.
  - destruct (heap_full w2); cbn; intros [= <- <-]; cbn; unfold svn_calls;
      rewrite !flat_map_app; cbn; rewrite ?app_nil_r; reflexivity.
Qed.

Lemma commit_editor_receives_lock_tokens_witness :
  exists r w' log_msg hash,
    get_commit_editor ∅ session
      [PyDict {["svn:log" := PyString "fix"]}; PyRef 4;
       PyDict {["trunk/a" := PyString "opaquelocktoken:1"]}] ∅ started
      = Some (r, w')
    /\ svn_calls "svn_ra_get_commit_editor2" (trace w')
       = svn_calls "svn_ra_get_commit_editor2" (trace started)
         ++ [[log_msg; CObj (PyRef 4); CHash hash; CInt 0]]
    /\ In ("trunk/a", CStr "opaquelocktoken:1") hash.
Proof.
  destruct (get_commit_editor ∅ session
      [PyDict {["svn:log" := PyString "fix"]}; PyRef 4;
       PyDict {["trunk/a" := PyString "opaquelocktoken:1"]}] ∅ started)
    as [[r w']|] eqn:E; [|vm_compute in E; discriminate E].
  assert (Hstr : map_Forall (fun (_ : string) v => is_string v = true)
                   ({["trunk/a" := PyString "opaquelocktoken:1"]}
                      : gmap string PyObject))
    by (apply map_Forall_singleton; reflexivity).
  destruct (commit_editor_receives_lock_tokens ∅ session _ (PyRef 4) _ r started w'
              Hstr E) as (log_msg & hash & Hcall & Hhash).
  exists r, w', log_msg, hash. split; [reflexivity|]. split; [exact Hcall|].
  apply Hhash. exists "opaquelocktoken:1". split; [reflexivity|].
  apply lookup_singleton_eq.
Defined.

(** X20. [ra_do_switch], called with arguments of the right types, creates
    one pool and asks libsvn once.  When libsvn answers an error the pool
    is destroyed and NULL returned.  Otherwise the pool stays: it is
    handed to the reporter that is returned, which reports through
    libsvn's vtable, or, when the reporter object cannot be allocated, it
    is left behind undestroyed and NULL is returned with MemoryError. *)
Theorem do_switch_hands_pool_to_reporter
    (stack : Frame) (self : RemoteAccessObject) (revision : Z)
    (update_target switch_url : string) (recurse : bool)
    (update_editor : PyObject) (w : World) :
  in_range (- 2 ^ 63) (2 ^ 63 - 1) revision = true ->
  ra_do_switch stack self
    [PyLong revision; PyString update_target; PyBool recurse;
     PyString switch_url; update_editor] w
  = Some
      (match reply (ra self) "svn_ra_do_switch"
               [CInt revision; CStr update_target; CInt (Z.b2z recurse);
                CStr switch_url; CObj update_editor] with
       | Some _ =>
           (NULL,
            mkWorld (py_err w)
              (trace w
               ++ [EvPoolCreate (next_pool w) (ra_pool self);
                   EvSvn "svn_ra_do_switch"
                     [CInt revision; CStr update_target; CInt (Z.b2z recurse);
                      CStr switch_url; CObj update_editor];
                   EvPoolDestroy (next_pool w)])
              (S (next_pool w)) (heap_full w))
       | None =>
           (if heap_full w then NULL
            else Some (mkReporter (reply (ra self)) (COpaque 0)
                         (Some (next_pool w))),
            mkWorld (if heap_full w then Some MemoryError else py_err w)
              (trace w
               ++ [EvPoolCreate (next_pool w) (ra_pool self);
                   EvSvn "svn_ra_do_switch"
                     [CInt revision; CStr update_target; CInt (Z.b2z recurse);
                      CStr switch_url; CObj update_editor]])
              (S (next_pool w)) (heap_full w))
       end).
Proof.
  intros Hrev. unfold ra_do_switch. run. rewrite Hrev.
  destruct recurse; cbn; frame_simpl;
    (destruct (reply _ _ _); cbn; [rewrite <- !app_assoc; reflexivity|]);
    destruct (heap_full w); cbn; rewrite <- !app_assoc; reflexivity.
Qed.

Lemma do_switch_hands_pool_to_reporter_witness :
  exists w',
    ra_do_switch ∅ session
      [PyLong 9; PyString ""; PyBool true;
       PyString "http://svn.example.org/repo/branches/b"; PyRef 0] started
      = Some (Some (mkReporter (reply repository) (COpaque 0) (Some 1%nat)), w')
    /\ pool_events (trace w') = [EvPoolCreate 0 None; EvPoolCreate 1 (Some 0%nat)].
Proof.
  eexists. split.
  - apply (do_switch_hands_pool_to_reporter ∅ session 9 ""
             "http://svn.example.org/repo/branches/b" true (PyRef 0) started).
    reflexivity.
  - reflexivity.
Defined.

(** ** Pool discipline *)

(** A nested run of pool events that closes its own pools changes nothing
    for the pools around it. *)
Lemma brackets_app (s t : list nat) (a b : list Event) :
  brackets s a = true -> brackets (s ++ t) (a ++ b) = brackets t b.
Proof.
  revert s. induction a as [|e a IH]; intros s H.
  - destruct s; [reflexivity | discriminate].
  - destruct e; cbn in *; try (apply IH; exact H).
    + apply (IH (p :: s)). exact H.
    + destruct s as [|q s]; [discriminate|].
      apply andb_true_iff in H as [Hpq H]. cbn. rewrite Hpq. apply IH. exact H.
Qed.

Lemma closes_bind {A B} (s : list nat) (m : M A) (k : A -> M B) :
  closes [] m -> (forall a, closes s (k a)) -> closes s (bind m k).
Proof.
  intros Hm Hk w r w' H.
  apply bind_inv in H as (a & w1 & E & H).
  destruct (Hm _ _ _ E) as (e1 & T1 & B1).
  destruct (Hk a _ _ _ H) as (e2 & T2 & B2).
  exists (e1 ++ e2). split.
  - rewrite T2, T1, app_assoc. reflexivity.
  - unfold pool_events in *. rewrite List.filter_app.
    rewrite (brackets_app [] s) by exact B1. exact B2.
Qed.

Lemma closes_pure {A} (a : A) : closes [] (pure a).
Proof.
  intros w r w' H. inversion H; subst. exists []. split; [|reflexivity].
  symmetry. apply app_nil_r.
Qed.

Lemma closes_undefined {A} (s : list nat) : closes s (@undefined A).
Proof. intros w r w' H. discriminate H. Qed.

Lemma closes_Pool {A} (s : list nat) (parent : apr_pool_t) (k : apr_pool_t -> M A) :
  (forall p, closes (p :: s) (k (Some p))) -> closes s (bind (Pool parent) k).
Proof.
  intros Hk w r w' H. unfold Pool, apr_pool_create, bind in H. cbn in H.
  destruct (Hk _ _ _ _ H) as (e & T & Br). cbn in T.
  exists (EvPoolCreate (next_pool w) parent :: e). split.
  - rewrite T, <- app_assoc. reflexivity.
  - exact Br.
Qed.

Lemma closes_destroy {A} (s : list nat) (p : nat) (k : M A) :
  closes s k -> closes (p :: s) (bind (apr_pool_destroy (Some p)) (fun _ => k)).
Proof.
  intros Hk w r w' H. unfold apr_pool_destroy, emit, bind in H.
  destruct (Hk _ _ _ H) as (e & T & Br). cbn in T.
  exists (EvPoolDestroy p :: e). split.
  - rewrite T, <- app_assoc. reflexivity.
  - cbn. rewrite Nat.eqb_refl. exact Br.
Qed.

Lemma closes_quiet {A} (m : M A) :
  (forall w r w', m w = Some (r, w') -> trace w' = trace w) -> closes [] m.
Proof.
  intros Hm w r w' H. exists []. rewrite (Hm _ _ _ H). split; [|reflexivity].
  symmetry. apply app_nil_r.
Qed.

Lemma closes_emit (e : Event) : is_pool_event e = false -> closes [] (emit e).
Proof.
  intros He w r w' H. inversion H; subst. exists [e]. split; [reflexivity|].
  unfold pool_events. cbn. rewrite He. reflexivity.
Qed.

Lemma closes_PyErr_Set (e : PyExc) : closes [] (PyErr_Set e).
Proof. apply closes_quiet. intros w r w' H. inversion H. reflexivity. Qed.

Lemma closes_parse_values (format : string) (vals : list (option PyObject))
    (given : nat) (dests : list (option string)) (fr : Frame) :
  closes [] (parse_values format vals given dests fr).
Proof.
  apply closes_quiet. intros w r w' H. unfold parse_values in H.
  destruct (_ || _)%bool.
  - inversion H. reflexivity.
  - destruct (convert_args _ _ _ _) as [[[e|] fr']|]; inversion H; reflexivity.
Qed.

Lemma closes_PyArg_ParseTuple (args : list PyObject) (format : string)
    (dests : list (option string)) (fr : Frame) :
  closes [] (PyArg_ParseTuple args format dests fr).
Proof. apply closes_parse_values. Qed.

Lemma closes_PyArg_ParseTupleAndKeywords (args : list PyObject)
    (kwargs : gmap string PyObject) (format : string) (kwnames : list string)
    (dests : list (option string)) (fr : Frame) :
  closes [] (PyArg_ParseTupleAndKeywords args kwargs format kwnames dests fr).
Proof.
  unfold PyArg_ParseTupleAndKeywords. destruct (negb _).
  - apply closes_bind; [apply closes_PyErr_Set | intros; apply closes_pure].
  - apply closes_parse_values.
Qed.

Lemma closes_PyObject_Call (py : PyEnv) (callee : CVal) (meth : string)
    (args : list PyObject) :
  closes [] (PyObject_Call py callee meth args).
Proof.
  unfold PyObject_Call. destruct callee; try apply closes_undefined.
  apply closes_bind; [apply closes_emit; reflexivity|]. intros _.
  destruct (py o meth args).
  - apply closes_pure.
  - apply closes_bind; [apply closes_PyErr_Set | intros; apply closes_pure].
Qed.

Lemma closes_PyObject_New : closes [] PyObject_New.
Proof.
  apply closes_quiet. intros w r w' H. unfold PyObject_New in H.
  destruct (heap_full w); inversion H; reflexivity.
Qed.

Lemma closes_check_error (e : option svn_error_t) : closes [] (check_error e).
Proof. apply closes_quiet. intros w r w' H. destruct e; inversion H; reflexivity. Qed.

Lemma closes_PyString_AsString (o : CVal) : closes [] (PyString_AsString o).
Proof.
  apply closes_quiet. intros w r w' H. unfold PyString_AsString in H.
  destruct o; try discriminate H. destruct o; inversion H; reflexivity.
Qed.

Lemma closes_PyLong_AsLong (o : CVal) : closes [] (PyLong_AsLong o).
Proof.
  apply closes_quiet. intros w r w' H. unfold PyLong_AsLong in H.
  destruct o; try discriminate H.
  destruct (as_integer o); [destruct (in_range _ _ _)|]; inversion H;
    reflexivity.
Qed.

Lemma closes_defined {A} (o : option A) : closes [] (defined o).
Proof. destruct o; [apply closes_pure | apply closes_undefined]. Qed.

Lemma closes_pool_read {A} (pool : apr_pool_t) (x : A) :
  closes [] (pool_read pool x).
Proof.
  apply closes_quiet. intros w r w' H. unfold pool_read in H.
  destruct pool; [|discriminate H].
  destruct (destroyed _ _); inversion H; reflexivity.
Qed.

Lemma closes_apr_array_of (elt_size width : Z) (els : list CVal) :
  closes [] (apr_array_of elt_size width els).
Proof.
  unfold apr_array_of.
  destruct (_ || _)%bool; [apply closes_pure | apply closes_undefined].
Qed.

(** Breaks a goal [closes s m] down along the structure of [m]. *)
Ltac scope :=
  repeat first
    [ apply closes_pure
    | apply closes_undefined
    | apply closes_Pool; intros ?
    | apply closes_destroy
    | apply closes_PyArg_ParseTuple
    | apply closes_PyArg_ParseTupleAndKeywords
    | apply closes_PyObject_Call
    | apply closes_PyObject_New
    | apply closes_check_error
    | apply closes_PyErr_Set
    | apply closes_PyString_AsString
    | apply closes_PyLong_AsLong
    | apply closes_defined
    | apply closes_pool_read
    | apply closes_apr_array_of
    | apply closes_emit; reflexivity
    | apply closes_bind; [| intros ?]
    | match goal with
      | |- closes _ (match ?x with _ => _ end) => destruct x
      | |- closes _ (if ?b then _ else _) => destruct b
      | |- closes _ (let '(_, _) := ?x in _) => destruct x
      end ].

Lemma closes_prop_hash_to_dict (props : option (list (string * string))) :
  closes [] (prop_hash_to_dict props).
Proof. unfold prop_hash_to_dict. scope. Qed.


Lemma closes_changed_paths_dict
    (paths : list (string * svn_log_changed_path_t)) (d : gmap string PyObject) :
  closes [] (changed_paths_dict paths d).
Proof.
  apply closes_quiet. intros w r w' H.
  destruct (changed_paths_dict_run paths d w) as [d' Hd].
  rewrite Hd in H. inversion H. reflexivity.
Qed.

Lemma closes_strings_of (items : list PyObject) : closes [] (strings_of items).
Proof. induction items as [|o rest IH]; cbn; [scope|]. scope. exact IH. Qed.

Lemma closes_fill_path_revs (items : list (string * PyObject)) (h : CVal) :
  closes [] (fill_path_revs items h).
Proof.
  revert h. induction items as [|[k v] rest IH]; intros h; cbn; [scope|].
  scope. apply IH.
Qed.

Lemma closes_each_path (lock_func : string -> CVal -> M (option svn_error_t))
    (entries : list (string * CVal)) :
  (forall path val, closes [] (lock_func path val)) ->
  closes [] (each_path lock_func entries).
Proof.
  intros Hf. induction entries as [|[path val] rest IH]; cbn; [scope|].
  apply closes_bind; [apply Hf|]. intros [e|]; [scope | exact IH].
Qed.

Lemma closes_deliver (receiver : log_message -> M (option svn_error_t))
    (msgs : list log_message) :
  (forall m, closes [] (receiver m)) -> closes [] (deliver receiver msgs).
Proof.
  intros Hf. induction msgs as [|m rest IH]; cbn; [scope|].
  apply closes_bind; [apply Hf|]. intros [e|]; [scope | exact IH].
Qed.

Lemma closes_deliver_revs (handler : file_rev -> M (option svn_error_t))
    (revs : list file_rev) :
  (forall r, closes [] (handler r)) -> closes [] (deliver_revs handler revs).
Proof.
  intros Hf. induction revs as [|r rest IH]; cbn; [scope|].
  apply closes_bind; [apply Hf|]. intros [e|]; [scope | exact IH].
Qed.



(** X22. The operations that run Python callbacks release their pool as
    well, whatever the callbacks do, and the pools [prop_hash_to_dict]
    creates in between are closed in between. *)
Theorem callback_operations_release_their_pool
    (py : PyEnv) (answers : svn_ra_answers_t) (stack : Frame)
    (self : RemoteAccessObject) (args : list PyObject)
    (kwargs : gmap string PyObject) :
  scoped (ra_lock py stack self args)
  /\ scoped (ra_get_log py stack self args kwargs)
  /\ scoped (ra_get_file_revs answers py stack self args).
Proof.
  unfold scoped, ra_lock, ra_get_log, ra_get_file_revs, RUN_SVN_WITH_POOL,
    if_error, svn_ra_lock, svn_ra_get_log, svn_ra_get_file_revs,
    string_list_to_apr_array, dict_items.
  repeat split; scope;
    try apply closes_fill_path_revs; try apply closes_strings_of.
  - apply closes_each_path. intros path val.
    destruct (try_lock _ _ _ _ _); unfold py_lock_func, PyObject_CallFunction; scope.
  - apply closes_deliver. intros m.
    unfold py_svn_log_wrapper, PyObject_CallFunction. scope.
    apply closes_changed_paths_dict.
  - apply closes_deliver_revs. intros r.
    unfold py_file_rev_handler, PyObject_CallFunction.
    apply closes_bind; [apply closes_prop_hash_to_dict|]. intros ?. scope.
Qed.

(** ** Auth *)

(** X23. [auth_set_parameter] sets nothing when it is given a name and a
    value: the test on the parse result is inverted, so valid arguments
    return None with nothing done, and it is a call whose arguments do not
    parse that reaches svn_auth_set_parameter, with whatever the locals
    held. *)
Theorem auth_set_parameter_sets_nothing
    (stack : Frame) (self : AuthObject) (name value residue : string) (w : World) :
  auth_set_parameter stack self [PyString name; PyString value] w
    = Some (Some Py_None, w)
  /\ trace_after (auth_set_parameter (<["name" := CStr residue]> stack) self
                    [PyLong 0; PyString value]) w
    = Some (trace w ++ [EvSvn "svn_auth_set_parameter"
                          [auth_baton self; CStr residue; local stack "value"]]).
Proof.
  unfold auth_set_parameter, svn_auth_set_parameter. split; run.
  - reflexivity.
  - frame_simpl. cbn. reflexivity.
Qed.
